(** * chartist-plugin-drag: a shallow embedding of the drag plugin

    The development follows [src/chartist-plugin-drag.js].  JavaScript
    numbers are idealised as rationals ([Q]); objects used as records
    become Rocq records, objects used as dictionaries become [gmap]s,
    the closure variables of [drag(chart)] become an explicit plugin
    state, and an uncaught [TypeError] is the [None] of an option. *)

From Stdlib Require Import Ascii String QArith.
From stdpp Require Import gmap strings list fin_maps.

(** ** JavaScript values, strings and arrays *)

Module Js.

(** Primitive values that may sit in a data point or be returned by a
    callback. *)
Inductive jsval : Type :=
| JUndefined
| JNull
| JBool (b : bool)
| JNum (q : Q)
| JStr (s : string).

(** [v === false] *)
Definition strict_false (v : jsval) : bool :=
  match v with
  | JBool false => true
  | _ => false
  end.

Definition lower_ascii (c : ascii) : ascii :=
  let n := nat_of_ascii c in
  if (65 <=? n)%nat && (n <=? 90)%nat then ascii_of_nat (n + 32) else c.

(** [s.toLowerCase()], on the ASCII range. *)
Fixpoint toLowerCase (s : string) : string :=
  match s with
  | EmptyString => EmptyString
  | String c t => String (lower_ascii c) (toLowerCase t)
  end.

(** [s.indexOf(sub) > -1] *)
Fixpoint contains (sub s : string) : bool :=
  String.prefix sub s ||
  match s with
  | EmptyString => false
  | String _ t => contains sub t
  end.

Fixpoint split_go (sep : ascii) (s acc : string) : list string :=
  match s with
  | EmptyString => [acc]
  | String c t =>
      if Ascii.eqb c sep then acc :: split_go sep t EmptyString
      else split_go sep t (acc +:+ String c EmptyString)
  end.

(** [s.split(' ')] *)
Definition split_space (s : string) : list string :=
  split_go " "%char s EmptyString.

(** [list.join(sep)] *)
Fixpoint join (sep : string) (l : list string) : string :=
  match l with
  | [] => EmptyString
  | x :: t =>
      match t with
      | [] => x
      | _ :: _ => x +:+ sep +:+ join sep t
      end
  end.

(** [list.indexOf(x)], with [None] for [-1]. *)
Fixpoint indexOf (x : string) (l : list string) : option nat :=
  match l with
  | [] => None
  | y :: t => if String.eqb y x then Some 0%nat else S <$> indexOf x t
  end.

(** [list.indexOf(x) > -1] *)
Definition includes (x : string) (l : list string) : bool :=
  match indexOf x l with Some _ => true | None => false end.

(** [arr[i] = v] on an array with holes: inside the array the slot is
    replaced, past its end the array grows and the gap is left empty. *)
Definition array_set {A} (i : nat) (v : A) (l : list (option A)) : list (option A) :=
  if (i <? length l)%nat then <[i := Some v]> l
  else l ++ replicate (i - length l) None ++ [Some v].

(** [arr[i]], [None] standing for [undefined]. *)
Definition array_get {A} (i : nat) (l : list (option A)) : option A :=
  mjoin (l !! i).

End Js.

(** ** Rectangles and the coordinate converter *)

Module Geometry.
Local Open Scope Q_scope.

(** The result of [getBoundingClientRect()]. *)
Record Rect := mkRect { left : Q; top : Q; right : Q; bottom : Q }.

(** [inRect(rect, x, y)], lines 62-64. *)
Definition inRect (rect : Rect) (x y : Q) : bool :=
  Qle_bool (left rect) x && Qle_bool x (right rect) &&
  Qle_bool (top rect) y && Qle_bool y (bottom rect).

Definition shift (r : Rect) (dx dy : Q) : Rect :=
  mkRect (left r + dx) (top r + dy) (right r + dx) (bottom r + dy).

(** A chart axis as the plugin reads it: [axis.range.min],
    [axis.range.max] and [axis.axisLength].  [axis_ref] stands for the
    identity of the JavaScript object: [!==] on two axes compares it
    and nothing else. *)
Record Axis := mkAxis {
  axis_ref : nat;
  range_min : Q;
  range_max : Q;
  axisLength : Q
}.

Definition same_object (a b : Axis) : bool :=
  Nat.eqb (axis_ref a) (axis_ref b).

(** The object built by [createConverter], lines 87-100.  Its two
    methods are the functions [convertX] and [convertY] below. *)
Record Converter := mkConverter {
  axisX : Axis;
  axisY : Axis;
  minX : Q;
  minY : Q;
  ratioX : Q;
  ratioY : Q
}.

Definition createConverter (ax ay : Axis) : Converter :=
  {| axisX := ax;
     axisY := ay;
     minX := range_min ax;
     minY := range_min ay;
     ratioX := (range_max ax - range_min ax) / axisLength ax;
     ratioY := (range_max ay - range_min ay) / axisLength ay |}.

Definition convertX (c : Converter) (x : Q) : Q := minX c + x * ratioX c.
Definition convertY (c : Converter) (y : Q) : Q := minY c + y * ratioY c.

End Geometry.

(** ** The document: elements, attributes, tree position *)

Module Dom.
Import Js.
Local Open Scope Q_scope.

Definition node := nat.

(** What the plugin reads and writes on an element: the [class]
    attribute; the attribute named by [options.attribute], which holds
    the pair ["seriesIndex,index"]; the [transform] attribute, a
    [translate(dx dy)]; the [ct:value] attribute; whether
    [style.pointerEvents] is ['none']; the parent; and [el_box], the
    box the browser lays the element out in before the element's own
    [transform] applies.  The order of the children of a parent is not
    represented. *)
Record Element := mkElement {
  el_class : string;
  el_indices : option (nat * nat);
  el_transform : option (Q * Q);
  el_value : option (jsval * jsval);
  el_pointerEvents_none : bool;
  el_parentNode : option node;
  el_box : Geometry.Rect
}.

Abbreviation Document := (gmap node Element).

Definition with_class (e : Element) (c : string) : Element :=
  mkElement c (el_indices e) (el_transform e) (el_value e)
    (el_pointerEvents_none e) (el_parentNode e) (el_box e).
Definition with_indices (e : Element) (i : option (nat * nat)) : Element :=
  mkElement (el_class e) i (el_transform e) (el_value e)
    (el_pointerEvents_none e) (el_parentNode e) (el_box e).
Definition with_transform (e : Element) (t : option (Q * Q)) : Element :=
  mkElement (el_class e) (el_indices e) t (el_value e)
    (el_pointerEvents_none e) (el_parentNode e) (el_box e).
Definition with_value (e : Element) (v : option (jsval * jsval)) : Element :=
  mkElement (el_class e) (el_indices e) (el_transform e) v
    (el_pointerEvents_none e) (el_parentNode e) (el_box e).
Definition with_pointerEvents_none (e : Element) (b : bool) : Element :=
  mkElement (el_class e) (el_indices e) (el_transform e) (el_value e)
    b (el_parentNode e) (el_box e).
Definition with_parentNode (e : Element) (p : option node) : Element :=
  mkElement (el_class e) (el_indices e) (el_transform e) (el_value e)
    (el_pointerEvents_none e) p (el_box e).

(** Apply [f] to element [n]; a reference to no element is an error. *)
Definition modify (doc : Document) (n : node) (f : Element -> Element)
  : option Document :=
  e ← doc !! n; Some (<[n := f e]> doc).

(** [element.getBoundingClientRect()]: the laid-out box moved by the
    element's [translate(dx dy)]. *)
Definition getBoundingClientRect (doc : Document) (n : node)
  : option Geometry.Rect :=
  e ← doc !! n;
  Some match el_transform e with
       | Some (dx, dy) => Geometry.shift (el_box e) dx dy
       | None => el_box e
       end.

(** [point.cloneNode(true)]: a new, detached element with the same
    attributes (drawn points are leaves of the tree). *)
Definition cloneNode (doc : Document) (n : node) : option (Document * node) :=
  e ← doc !! n;
  let c := fresh (dom doc) in
  Some (<[c := with_parentNode e None]> doc, c).

(** [point.parentNode.insertBefore(new, point.nextSibling)] *)
Definition insertAfter (doc : Document) (new point : node) : option Document :=
  e ← doc !! point;
  p ← el_parentNode e;
  modify doc new (fun x => with_parentNode x (Some p)).

(** [parent.removeChild(element)] *)
Definition removeChild (doc : Document) (n : node) : option Document :=
  modify doc n (fun x => with_parentNode x None).

(** One round of the loop of [toggleClass], lines 50-56. *)
Definition toggle_one (enable : bool) (lst : list string) (name : string)
  : list string :=
  match indexOf name lst with
  | Some ind => if enable then lst else delete ind lst
  | None => if enable then lst ++ [name] else lst
  end.

(** [classes(element)], lines 40-44, read and write. *)
Definition classes (e : Element) : list string := split_space (el_class e).
Definition set_classes (e : Element) (l : list string) : Element :=
  with_class e (join " " l).

(** [toggleClass(element, enable, className...)], lines 47-59. *)
Definition toggleClass (doc : Document) (n : node) (enable : bool)
    (names : list string) : option Document :=
  modify doc n (fun e => set_classes e (foldl (toggle_one enable) (classes e) names)).

(** Two documents hold the same elements and agree on what [f] reads
    of each. *)
Definition agree {A} (f : Element -> A) (doc doc' : Document) : Prop :=
  forall n, f <$> doc' !! n = f <$> doc !! n.

(** [classes(element).indexOf(selector) > -1] *)
Definition has_class (doc : Document) (n : node) (selector : string) : option bool :=
  e ← doc !! n; Some (includes selector (classes e)).

End Dom.

(** ** Chart data *)

Module Chart.
Import Js.
Local Open Scope Q_scope.

(** A data point is a JavaScript object: a dictionary from field
    names to values, with numeric [x] and [y] among them. *)
Abbreviation DataPoint := (gmap string jsval).

(** One entry of [chart.data.series]; [data] is an array that may
    have holes. *)
Record Series := mkSeries { data : list (option DataPoint) }.

Record Chart := mkChart {
  is_Line : bool;           (* chart instanceof Chartist.Line *)
  container : Dom.node;     (* chart.container *)
  series : list Series;     (* chart.data.series *)
  updates : nat             (* calls of chart.update() so far *)
}.

Definition with_series (c : Chart) (s : list Series) : Chart :=
  mkChart (is_Line c) (container c) s (updates c).

(** [chart.update()]: the re-render is the engine's business, the
    request is counted. *)
Definition update (c : Chart) : Chart :=
  mkChart (is_Line c) (container c) (series c) (S (updates c)).

(** Modelled from the spec: [Chartist.extend] belongs to the Chartist
    library and is not among the sources.  The spec describes its use
    here as a shallow merge: every field of each source object is
    copied into the target, a later source overriding an earlier
    one. *)
Definition extend (target : DataPoint) (sources : list DataPoint) : DataPoint :=
  foldl (fun t s => s ∪ t) target sources.

(** The number held by a field, if it holds one. *)
Definition number (v : option jsval) : option Q :=
  match v with
  | Some (JNum q) => Some q
  | _ => None
  end.

(** What [calcDelta] returns, lines 163-173. *)
Record Delta := mkDelta {
  oldData : DataPoint;
  newData : DataPoint;
  changed : bool;
  converter : Geometry.Converter;
  dx : Q;
  dy : Q
}.

(** Reading [pointData(chart, point)], lines 79-85.  The outer option
    is the [TypeError] of a missing attribute or series, the inner one
    the [undefined] of an empty slot. *)
Definition pointData (doc : Dom.Document) (chart : Chart) (point : Dom.node)
  : option (option DataPoint) :=
  e ← doc !! point;
  indices ← Dom.el_indices e;
  s ← series chart !! indices.1;
  Some (array_get indices.2 (data s)).

(** Writing [pointData(chart, point, data)]. *)
Definition pointData_set (doc : Dom.Document) (chart : Chart) (point : Dom.node)
    (d : DataPoint) : option Chart :=
  e ← doc !! point;
  indices ← Dom.el_indices e;
  s ← series chart !! indices.1;
  Some (with_series chart
          (<[indices.1 := mkSeries (array_set indices.2 d (data s))]> (series chart))).

End Chart.

(** ** Plugin options *)

Module Config.
Import Js.

(** The options object after [Chartist.extend({}, defaultOptions,
    options)]; [axisX] and [axisY] are the two flags a caller may
    pass directly and lines 35-36 complete. *)
Record Options := mkOptions {
  appendToBody : bool;
  attribute : string;
  axis : string;
  pointClass : string;
  updateWhileDragging : bool;
  updateCallback : option (Chart.Delta -> Dom.node -> Chart.Chart -> jsval);
  commonClass : string;
  highlightClass : string;
  sourceClass : string;
  destinationClass : string;
  axisX : bool;
  axisY : bool
}.

Definition defaultOptions : Options :=
  {| appendToBody := false;
     attribute := "ct:indices";
     axis := "y";
     pointClass := "ct-point";
     updateWhileDragging := true;
     updateCallback := None;
     commonClass := "chartist-drag";
     highlightClass := "chartist-drag-highlight";
     sourceClass := "chartist-drag-source";
     destinationClass := "chartist-drag-destination";
     axisX := false;
     axisY := false |}.

(** Lines 35-36. *)
Definition initialize (o : Options) : Options :=
  mkOptions (appendToBody o) (attribute o) (axis o) (pointClass o)
    (updateWhileDragging o) (updateCallback o) (commonClass o)
    (highlightClass o) (sourceClass o) (destinationClass o)
    (axisX o || contains "x" (toLowerCase (axis o)))
    (axisY o || contains "y" (toLowerCase (axis o))).

Definition with_axis (o : Options) (a : string) : Options :=
  mkOptions (appendToBody o) (attribute o) a (pointClass o)
    (updateWhileDragging o) (updateCallback o) (commonClass o)
    (highlightClass o) (sourceClass o) (destinationClass o)
    (axisX o) (axisY o).

Definition with_updateCallback (o : Options)
    (f : option (Chart.Delta -> Dom.node -> Chart.Chart -> jsval)) : Options :=
  mkOptions (appendToBody o) (attribute o) (axis o) (pointClass o)
    (updateWhileDragging o) f (commonClass o)
    (highlightClass o) (sourceClass o) (destinationClass o)
    (axisX o) (axisY o).

End Config.

(** ** The marker *)

Module Marker.
Local Open Scope Q_scope.

(** The object built by [createMarker], lines 102-131. *)
Record Marker := mkMarker {
  element : option Dom.node;
  reference : option Dom.node
}.

Definition createMarker : Marker := mkMarker None None.

(** [marker.setPosition(x, y)], lines 124-129. *)
Definition setPosition (doc : Dom.Document) (m : Marker) (x y : Q)
  : option Dom.Document :=
  r ← reference m;
  referenceRect ← Dom.getBoundingClientRect doc r;
  let dx := x - Geometry.left referenceRect in
  let dy := y - Geometry.top referenceRect in
  e ← element m;
  Dom.modify doc e (fun el => Dom.with_transform el (Some (dx, dy))).

(** [marker.destroy()], lines 119-122. *)
Definition destroy (doc : Dom.Document) (m : Marker) : option Dom.Document :=
  e ← element m;
  el ← doc !! e;
  match Dom.el_parentNode el with
  | Some _ => Dom.removeChild doc e
  | None => Some doc
  end.

(** [marker.create(point)], lines 107-117. *)
Definition create (options : Config.Options) (doc : Dom.Document) (point : Dom.node)
  : option (Dom.Document * Marker) :=
  '(doc, c) ← Dom.cloneNode doc point;
  let m := mkMarker (Some c) (Some point) in
  doc ← Dom.modify doc c (fun el => Dom.with_pointerEvents_none el true);
  doc ← Dom.insertAfter doc c point;
  rect ← Dom.getBoundingClientRect doc point;
  doc ← setPosition doc m (Geometry.left rect) (Geometry.top rect);
  doc ← Dom.toggleClass doc c false [Config.highlightClass options];
  doc ← Dom.toggleClass doc c true
          [Config.commonClass options; Config.destinationClass options];
  Some (doc, m).

End Marker.

(** ** Events *)

Module Event.

(** What a handler reads of the object it calls [info]: a mouse event
    or one touch point. *)
Record Info := mkInfo { target : Dom.node; clientX : Q; clientY : Q }.

(** A mouse or touch event.  [self] carries the event's own [target],
    [clientX] and [clientY]; [button] is [None] where the property is
    not supported. *)
Record Event := mkEvent {
  self : Info;
  button : option nat;
  changedTouches : list Info
}.

(** [!event.button] *)
Definition no_button (e : Event) : bool :=
  match button e with
  | None | Some O => true
  | Some (S _) => false
  end.

End Event.

(** ** The plugin: state, handlers, listeners *)

Module Plugin.
Import Js.
Local Open Scope Q_scope.

(** The variables of the closure [drag(chart)], lines 149-153.
    [converter = {}] is [None]. *)
Record State := mkState {
  marker : Marker.Marker;
  converter : option Geometry.Converter;
  highlighted : option Dom.node;
  dragged : option Dom.node;
  offset : option (Q * Q)
}.

Definition initial : State := mkState Marker.createMarker None None None None.

(** What lives outside the closure: the document, the chart, the
    elements [container.getElementsByClassName('ct-grids')] finds,
    and the record of the calls made to [options.updateCallback]. *)
Record Env := mkEnv {
  doc : Dom.Document;
  chart : Chart.Chart;
  ct_grids : list Dom.node;
  calls : list Chart.Delta
}.

Definition with_doc (env : Env) (d : Dom.Document) : Env :=
  mkEnv d (chart env) (ct_grids env) (calls env).

(** [getDragRect(container)], lines 134-139.  An empty collection is
    still an object, so [(grid || container)] is the collection and
    the call of its [getBoundingClientRect] throws. *)
Definition getDragRect (env : Env) : option Geometry.Rect :=
  match ct_grids env with
  | grid :: _ => Dom.getBoundingClientRect (doc env) grid
  | [] => None
  end.

(** The argument of the [draw] callback. *)
Record DrawData := mkDrawData {
  type : string;
  d_element : Dom.node;
  seriesIndex : nat;
  index : nat;
  d_axisX : Geometry.Axis;
  d_axisY : Geometry.Axis
}.

(** [data.axisX !== converter.axisX || data.axisY !== converter.axisY] *)
Definition axes_differ (d : DrawData) (c : option Geometry.Converter) : bool :=
  match c with
  | None => true
  | Some c =>
      negb (Geometry.same_object (d_axisX d) (Geometry.axisX c)) ||
      negb (Geometry.same_object (d_axisY d) (Geometry.axisY c))
  end.

Section Handlers.
Variable options : Config.Options.

(** [calcDelta()], lines 156-174, for a data point whose [x] and [y]
    are numbers. *)
Definition calcDelta (env : Env) (st : State) : option Chart.Delta :=
  d ← dragged st;
  draggedRect ← Dom.getBoundingClientRect (doc env) d;
  m ← Marker.element (marker st);
  markerRect ← Dom.getBoundingClientRect (doc env) m;
  let dx := Geometry.left markerRect - Geometry.left draggedRect in
  let dy := Geometry.top draggedRect - Geometry.top markerRect in
  slot ← Chart.pointData (doc env) (chart env) d;
  data ← slot;
  x ← Chart.number (data !! "x");
  y ← Chart.number (data !! "y");
  c ← converter st;
  Some {| Chart.oldData := data;
          Chart.newData :=
            Chart.extend ∅
              [data;
               <["y" := JNum (y + Geometry.convertY c dy)]>
                 (<["x" := JNum (x + Geometry.convertX c dx)]> ∅)];
          Chart.changed := negb (Qeq_bool dx 0) || negb (Qeq_bool dy 0);
          Chart.converter := c;
          Chart.dx := dx;
          Chart.dy := dy |}.

(** The [draw] callback, lines 177-187. *)
Definition on_draw (data : DrawData) (env : Env) (st : State)
  : option (Env * State) :=
  if String.eqb (type data) "point" then
    d ← Dom.modify (doc env) (d_element data)
           (fun el => Dom.with_indices el (Some (seriesIndex data, index data)));
    let c := if axes_differ data (converter st)
             then Some (Geometry.createConverter (d_axisX data) (d_axisY data))
             else converter st in
    Some (with_doc env d,
          mkState (marker st) c (highlighted st) (dragged st) (offset st))
  else Some (env, st).

(** A handler as [on] calls it: [callback(event, info, touch)]. *)
Definition Callback : Type :=
  Event.Event -> Event.Info -> bool -> Env -> State -> option (Env * State).

(** The [mouseover] handler, lines 190-195. *)
Definition on_mouseover : Callback := fun event _ _ env st =>
  match dragged st with
  | Some _ => Some (env, st)
  | None =>
      let h := Event.target (Event.self event) in
      d ← Dom.toggleClass (doc env) h true
             [Config.commonClass options; Config.highlightClass options];
      Some (with_doc env d,
            mkState (marker st) (converter st) (Some h) (dragged st) (offset st))
  end.

(** The [mouseout] handler, lines 198-203. *)
Definition on_mouseout : Callback := fun event _ _ env st =>
  match dragged st with
  | Some _ => Some (env, st)
  | None =>
      d ← Dom.toggleClass (doc env) (Event.target (Event.self event)) false
             [Config.commonClass options; Config.highlightClass options];
      Some (with_doc env d,
            mkState (marker st) (converter st) None (dragged st) (offset st))
  end.

(** The first [mousedown] handler, lines 206-209: it only cancels
    the browser's default action. *)
Definition on_mousedown_select : Callback := fun _ _ _ env st => Some (env, st).

(** Start of a drag, lines 212-226. *)
Definition on_dragstart : Callback := fun event info _ env st =>
  if Event.no_button event then
    let d := Event.target (Event.self event) in
    draggedRect ← Dom.getBoundingClientRect (doc env) d;
    let off := (Geometry.left draggedRect - Event.clientX info,
                Geometry.top draggedRect - Event.clientY info) in
    '(dm, m) ← Marker.create options (doc env) d;
    dm ← Dom.toggleClass dm d false [Config.highlightClass options];
    dm ← Dom.toggleClass dm d true
            [Config.commonClass options; Config.sourceClass options];
    Some (with_doc env dm,
          mkState m (converter st) (highlighted st) (Some d) (Some off))
  else Some (env, st).

(** The commit of lines 236-241, run once [delta.changed] holds. *)
Definition commit (delta : Chart.Delta) (d : Dom.node) (env : Env) : option Env :=
  match Config.updateCallback options with
  | Some callback =>
      let env1 := mkEnv (doc env) (chart env) (ct_grids env) (calls env ++ [delta]) in
      if strict_false (callback delta d (chart env)) then Some env1
      else
        c ← Chart.pointData_set (doc env1) (chart env1) d (Chart.newData delta);
        Some (mkEnv (doc env1) (Chart.update c) (ct_grids env1) (calls env1))
  | None =>
      c ← Chart.pointData_set (doc env) (chart env) d (Chart.newData delta);
      Some (mkEnv (doc env) (Chart.update c) (ct_grids env) (calls env))
  end.

(** The clean-up of lines 246-249. *)
Definition cleanup (d : Dom.node) (env : Env) (st : State) : option (Env * State) :=
  dm ← Marker.destroy (doc env) (marker st);
  dm ← Dom.toggleClass dm d false
          [Config.commonClass options; Config.sourceClass options];
  Some (with_doc env dm,
        mkState (marker st) (converter st) (highlighted st) None (offset st)).

(** Lines 243-244. *)
Definition restore_highlight (env : Env) (st : State) : option Env :=
  match highlighted st with
  | Some h =>
      dm ← Dom.toggleClass (doc env) h true
              [Config.commonClass options; Config.highlightClass options];
      Some (with_doc env dm)
  | None => Some env
  end.

(** End of a drag, lines 229-250. *)
Definition on_dragend : Callback := fun _ info _ env st =>
  match dragged st with
  | None => Some (env, st)
  | Some d =>
      rect ← getDragRect env;
      env ← (if Geometry.inRect rect (Event.clientX info) (Event.clientY info) then
               delta ← calcDelta env st;
               env ← (if Chart.changed delta then commit delta d env else Some env);
               restore_highlight env st
             else Some env);
      cleanup d env st
  end.

(** The listener [on] hands to [addEventListener], lines 70-74.
    A selector that is [null] or empty lets every target through. *)
Definition listener (touch : bool) (selector : option string)
    (callback : Callback) (event : Event.Event) (env : Env) (st : State)
  : option (Env * State) :=
  info ← (if touch then last (Event.changedTouches event)
           else Some (Event.self event));
  match selector with
  | Some (String _ _ as s) =>
      match Dom.has_class (doc env) (Event.target info) s with
      | Some true => callback event info touch env st
      | Some false => Some (env, st)
      | None => None
      end
  | _ => callback event info touch env st
  end.

(** [new MouseEvent(name, event)] dispatched on [element]: the copy
    has the position of [event] and the new target. *)
Definition synthetic (event : Event.Event) (element : Dom.node) : Event.Event :=
  Event.mkEvent
    (Event.mkInfo element (Event.clientX (Event.self event))
       (Event.clientY (Event.self event)))
    (Event.button event) [].

(** Tracking of the drag, lines 253-270.  The two synthetic events
    bubble from the marker to the container, where the [mouseout]
    and [mouseover] listeners of this plugin receive them. *)
Definition on_dragmove : Callback := fun event info touch env st =>
  match dragged st with
  | None => Some (env, st)
  | Some d =>
      x ← (if Config.axisX options
            then o ← offset st; Some (Event.clientX info + o.1)
            else r ← Dom.getBoundingClientRect (doc env) d; Some (Geometry.left r));
      y ← (if Config.axisY options
            then o ← offset st; Some (Event.clientY info + o.2)
            else r ← Dom.getBoundingClientRect (doc env) d; Some (Geometry.top r));
      dm ← Marker.setPosition (doc env) (marker st) x y;
      let env := with_doc env dm in
      if Config.updateWhileDragging options && negb touch then
        delta ← calcDelta env st;
        m ← Marker.element (marker st);
        dm ← Dom.modify (doc env) m
                (fun el => Dom.with_value el
                   (Some (default JUndefined (Chart.newData delta !! "x"),
                          default JUndefined (Chart.newData delta !! "y"))));
        let env := with_doc env dm in
        let selector := Some (Config.pointClass options) in
        '(env, st) ← listener false selector on_mouseout (synthetic event m) env st;
        listener false selector on_mouseover (synthetic event m) env st
      else Some (env, st)
  end.

(** *** Registration and delivery *)

(** The six callbacks the plugin registers. *)
Inductive Handler : Type :=
| Mouseover | Mouseout | MousedownSelect | DragStart | DragEnd | DragMove.

Definition callback_of (h : Handler) : Callback :=
  match h with
  | Mouseover => on_mouseover
  | Mouseout => on_mouseout
  | MousedownSelect => on_mousedown_select
  | DragStart => on_dragstart
  | DragEnd => on_dragend
  | DragMove => on_dragmove
  end.

(** Where a listener is attached. *)
Inductive Target : Type := OnContainer | OnDocument.

Record Listener := mkListener {
  l_name : string;
  l_element : Target;
  l_touch : bool;
  l_selector : option string;
  l_callback : Handler
}.

(** [on(eventNames, element, selector, callback)], lines 67-76. *)
Definition on (eventNames : string) (element : Target)
    (selector : option string) (callback : Handler) : list Listener :=
  (fun name => mkListener name element (contains "touch" name) selector callback)
    <$> split_space eventNames.

(** The page: the environment, the listeners attached to the
    container and the document, the callbacks registered with
    [chart.on], and the closure state once [drag] has built it. *)
Record Page := mkPage {
  env : Env;
  listeners : list Listener;
  chart_on : list string;
  plugin : option State
}.

(** [drag(chart)], lines 141-271. *)
Definition drag (p : Page) : Page :=
  if negb (Chart.is_Line (chart (env p))) then p
  else
    let pointSelector := Some (Config.pointClass options) in
    {| env := env p;
       listeners :=
         listeners p
         ++ on "mouseover" OnContainer pointSelector Mouseover
         ++ on "mouseout" OnContainer pointSelector Mouseout
         ++ on "mousedown" OnContainer None MousedownSelect
         ++ on "mousedown touchstart" OnContainer pointSelector DragStart
         ++ on "mouseup touchend" OnDocument None DragEnd
         ++ on "mousemove touchmove" OnContainer None DragMove;
       chart_on := chart_on p ++ ["draw"];
       plugin := Some initial |}.

(** The listeners [drag] attaches, in the order of lines 190-270. *)
Definition registered : list Listener :=
  on "mouseover" OnContainer (Some (Config.pointClass options)) Mouseover
  ++ on "mouseout" OnContainer (Some (Config.pointClass options)) Mouseout
  ++ on "mousedown" OnContainer None MousedownSelect
  ++ on "mousedown touchstart" OnContainer (Some (Config.pointClass options)) DragStart
  ++ on "mouseup touchend" OnDocument None DragEnd
  ++ on "mousemove touchmove" OnContainer None DragMove.

(** An event reaching the page: its name, the event object, and
    whether it bubbles through the chart container. *)
Record Occurrence := mkOccurrence {
  name : string;
  event : Event.Event;
  in_container : bool
}.

Definition hears (l : Listener) (o : Occurrence) : bool :=
  String.eqb (l_name l) (name o) &&
  match l_element l with
  | OnContainer => in_container o
  | OnDocument => true
  end.

Definition deliver_to (o : Occurrence) (p : option Page) (l : Listener)
  : option Page :=
  p ← p;
  if hears l o then
    st ← plugin p;
    '(e, st) ← listener (l_touch l) (l_selector l) (callback_of (l_callback l))
                 (event o) (env p) st;
    Some (mkPage e (listeners p) (chart_on p) (Some st))
  else Some p.

(** The listeners run in the order of their registration. *)
Definition deliver (p : Page) (o : Occurrence) : option Page :=
  foldl (deliver_to o) (Some p) (listeners p).

(** The chart emitting [draw]. *)
Definition emit_draw (p : Page) (data : DrawData) : option Page :=
  foldl (fun (p : option Page) (n : string) =>
           p ← p;
           if String.eqb n "draw" then
             st ← plugin p;
             '(e, st) ← on_draw data (env p) st;
             Some (mkPage e (listeners p) (chart_on p) (Some st))
           else Some p)
        (Some p) (chart_on p).

(** What happens on a page, one step at a time. *)
Inductive Step : Type :=
| Draw (data : DrawData)
| Fire (o : Occurrence).

Definition step (p : Page) (s : Step) : option Page :=
  match s with
  | Draw data => emit_draw p data
  | Fire o => deliver p o
  end.

Definition run (p : Page) (l : list Step) : option Page :=
  foldl (fun (p : option Page) (s : Step) => p ← p; step p s) (Some p) l.

End Handlers.

(** [Chartist.plugins.drag(options)(chart)] *)
Definition plugins_drag (options : Config.Options) : Page -> Page :=
  drag (Config.initialize options).

End Plugin.

(** ** A sample page

    One line chart with two points of one series, a grid, and numeric
    axes that both start at 10: the page the concrete runs below use. *)

Module Sample.
Import Js Plugin.
Local Open Scope Q_scope.

Definition box (l t : Q) : Geometry.Rect := Geometry.mkRect l t (l + 10) (t + 10).

Definition plain (c : string) (p : option Dom.node) (b : Geometry.Rect)
  : Dom.Element :=
  Dom.mkElement c None None None false p b.

(** 0 is the container, 1 the series group, 2 and 3 the two points,
    4 the grid. *)
Definition document : Dom.Document :=
  list_to_map
    [(0%nat, plain "ct-chart" None (Geometry.mkRect 0 0 400 300));
     (1%nat, plain "ct-series" (Some 0%nat) (Geometry.mkRect 0 0 400 300));
     (2%nat, plain "ct-point" (Some 1%nat) (box 100 50));
     (3%nat, plain "ct-point" (Some 1%nat) (box 200 80));
     (4%nat, plain "ct-grids" (Some 0%nat) (Geometry.mkRect 0 0 400 300))].

Definition point (x y : Q) (meta : string) : Chart.DataPoint :=
  <["meta" := JStr meta]> (<["y" := JNum y]> (<["x" := JNum x]> ∅)).

Definition line_chart : Chart.Chart :=
  Chart.mkChart true 0%nat
    [Chart.mkSeries [Some (point 12 15 "a"); Some (point 14 17 "b")]] 0%nat.

Definition page : Page :=
  mkPage (mkEnv document line_chart [4%nat] []) [] [] None.

(** The same page around a chart that is not a line chart. *)
Definition bar_page : Page :=
  mkPage (mkEnv document
            (Chart.mkChart false 0%nat (Chart.series line_chart) 0%nat)
            [4%nat] [])
         [] [] None.

Definition axis_x : Geometry.Axis := Geometry.mkAxis 1%nat 10 20 100.
Definition axis_y : Geometry.Axis := Geometry.mkAxis 2%nat 10 20 100.

Definition converter : Geometry.Converter :=
  Geometry.createConverter axis_x axis_y.

(** An axis from 1 to 3 drawn over 2 pixels, and the converter of two
    such axes. *)
Definition short_axis (ref : nat) : Geometry.Axis := Geometry.mkAxis ref 1 3 2.
Definition short_converter : Geometry.Converter :=
  Geometry.createConverter (short_axis 1) (short_axis 2).

(** A [draw] notification for a line, with axis objects of its own. *)
Definition line_drawn : DrawData :=
  mkDrawData "line" 1%nat 0%nat 0%nat
    (Geometry.mkAxis 7 0 5 50) (Geometry.mkAxis 8 0 5 50).

Definition mouse (t : Dom.node) (x y : Q) : Event.Event :=
  Event.mkEvent (Event.mkInfo t x y) (Some 0%nat) [].

Definition fire (n : string) (t : Dom.node) (x y : Q) : Step :=
  Fire (mkOccurrence n (mouse t x y) true).

Definition draw_points : list Step :=
  [Draw (mkDrawData "point" 2%nat 0%nat 0%nat axis_x axis_y);
   Draw (mkDrawData "point" 3%nat 0%nat 1%nat axis_x axis_y)].

(** Press on point 2 at (105, 55), move by (+30, -10). *)
Definition grab_and_move : list Step :=
  draw_points ++ [fire "mousedown" 2%nat 105 55; fire "mousemove" 2%nat 135 45].

(** The whole cycle, released inside the grid. *)
Definition cycle : list Step :=
  grab_and_move ++ [fire "mouseup" 2%nat 135 45].

Definition options_xy : Config.Options :=
  Config.with_axis Config.defaultOptions "xy".

(** Run [steps] on the sample page with the plugin configured by
    [o]. *)
Definition play (o : Config.Options) (steps : list Step) : option Page :=
  run (Config.initialize o) (plugins_drag o page) steps.

(** The value of a numeric field of point [j] of series [i]. *)
Definition field (p : Page) (i j : nat) (k : string) : option Q :=
  s ← Chart.series (chart (env p)) !! i;
  d ← array_get j (Chart.data s);
  Chart.number (d !! k).

(** The state in the middle of the drag of [grab_and_move] under
    [options_xy]: element 5 is the marker, moved by (30, -10). *)
Definition mid_document : Dom.Document :=
  list_to_map
    [(0%nat, plain "ct-chart" None (Geometry.mkRect 0 0 400 300));
     (1%nat, plain "ct-series" (Some 0%nat) (Geometry.mkRect 0 0 400 300));
     (2%nat, Dom.mkElement "ct-point chartist-drag chartist-drag-source"
               (Some (0%nat, 0%nat)) None None false (Some 1%nat) (box 100 50));
     (3%nat, Dom.mkElement "ct-point" (Some (0%nat, 1%nat)) None None false
               (Some 1%nat) (box 200 80));
     (4%nat, plain "ct-grids" (Some 0%nat) (Geometry.mkRect 0 0 400 300));
     (5%nat, Dom.mkElement
               "ct-point chartist-drag chartist-drag-destination"
               (Some (0%nat, 0%nat)) (Some (30, -10))
               (Some (JNum (12 + (10 + 30 * (10 / 100))),
                      JNum (15 + (10 + 10 * (10 / 100)))))
               true (Some 1%nat) (box 100 50))].

Definition mid_env : Env := mkEnv mid_document line_chart [4%nat] [].

Definition mid_state : State :=
  mkState (Marker.mkMarker (Some 5%nat) (Some 2%nat))
    (Some converter) None (Some 2%nat) (Some (-5, -5)).

(** What [calcDelta] finds in that state. *)
Definition mid_delta : Chart.Delta :=
  let c := Geometry.createConverter axis_x axis_y in
  {| Chart.oldData := point 12 15 "a";
     Chart.newData :=
       Chart.extend ∅
         [point 12 15 "a";
          <["y" := JNum (15 + Geometry.convertY c 10)]>
            (<["x" := JNum (12 + Geometry.convertX c 30)]> ∅)];
     Chart.changed := true;
     Chart.converter := c;
     Chart.dx := 30;
     Chart.dy := 10 |}.

(** The pointer released at (135, 45), inside the grid, in that
    state. *)
Definition after_drop : Env * State :=
  default (mid_env, mid_state)
    (on_dragend (Config.initialize options_xy) (mouse 0%nat 135 45)
       (Event.mkInfo 0%nat 135 45) false mid_env mid_state).

(** The page once its two points are drawn, and once the pointer is
    pressed on point 2 at (105, 55), before any move. *)
Definition drawn : Env * State :=
  default (mkEnv document line_chart [4%nat] [], initial)
    (p ← play options_xy draw_points; st ← plugin p; Some (env p, st)).

Definition pressed : Env * State :=
  default drawn
    (on_dragstart (Config.initialize options_xy) (mouse 2%nat 105 55)
       (Event.mkInfo 2%nat 105 55) false (fst drawn) (snd drawn)).

(** A callback that refuses every update, and one that answers
    [undefined]. *)
Definition refuse : Chart.Delta -> Dom.node -> Chart.Chart -> jsval :=
  fun _ _ _ => JBool false.
Definition silent : Chart.Delta -> Dom.node -> Chart.Chart -> jsval :=
  fun _ _ _ => JUndefined.

Definition options_refuse : Config.Options :=
  Config.with_updateCallback options_xy (Some refuse).
Definition options_silent : Config.Options :=
  Config.with_updateCallback options_xy (Some silent).

(** Whether the numeric field [k] of point [j] of series [i] is the
    number [q]. *)
Definition field_is (p : Page) (i j : nat) (k : string) (q : Q) : bool :=
  match field p i j k with
  | Some v => Qeq_bool v q
  | None => false
  end.

(** Where the marker is drawn, if there is one. *)
Definition marker_rect (p : Page) : option Geometry.Rect :=
  st ← plugin p;
  m ← Marker.element (marker st);
  Dom.getBoundingClientRect (doc (env p)) m.

(** The parent of an element of the page. *)
Definition parent_of (p : Page) (n : Dom.node) : option Dom.node :=
  e ← doc (env p) !! n; Dom.el_parentNode e.

(** The sample page, and the environment in the middle of the drag,
    when the container holds no element of class [ct-grids] (a chart
    configured with another class name for its grid group). *)
Definition gridless_page : Page :=
  mkPage (mkEnv document line_chart [] []) [] [] None.

Definition gridless_env : Env := mkEnv mid_document line_chart [] [].

Definition play_gridless (o : Config.Options) (steps : list Step) : option Page :=
  run (Config.initialize o) (plugins_drag o gridless_page) steps.

(** A release of the mouse at (x, y), outside the chart container. *)
Definition release_outside (x y : Q) : Step :=
  Fire (mkOccurrence "mouseup" (mouse 0%nat x y) false).

End Sample.

(** * Properties *)

(** ** The converter *)

(** C1, on the code: [convertX] and [convertY] add the axis minimum to
    what they are given.  On the axes of the sample page (from 10 to
    20 over 100 pixels) the delta 0 is converted to 10, not to 0.  On
    an axis from 1 to 3 over 2 pixels, where every operation is exact,
    0 goes to 1, [convert(2 * 1)] is 3 while [2 * convert(1)] is 4,
    and [convert(1)] is 2 while [1 * (max - min) / axisLength] is 1. *)
Theorem convert_adds_axis_minimum :
  (Geometry.convertX Sample.converter 0 == 10)%Q /\
  (Geometry.convertY Sample.converter 0 == 10)%Q /\
  (~ Geometry.convertX Sample.converter 0 == 0)%Q /\
  (~ Geometry.convertY Sample.converter 0 == 0)%Q /\
  (Geometry.convertX Sample.short_converter 0 == 1)%Q /\
  (Geometry.convertX Sample.short_converter (2 * 1) == 3)%Q /\
  (2 * Geometry.convertX Sample.short_converter 1 == 4)%Q /\
  (Geometry.convertX Sample.short_converter 1 == 2)%Q /\
  (1 * ((3 - 1) / 2) == 1)%Q.
Proof.
  vm_compute. repeat split; try reflexivity; intros H; discriminate H.
Qed.

(** ** The document *)

Lemma modify_lookup (doc : Dom.Document) n f e :
  doc !! n = Some e -> Dom.modify doc n f = Some (<[n := f e]> doc).
Proof. intros H. unfold Dom.modify. rewrite H. reflexivity. Qed.

Lemma modify_inv (doc doc' : Dom.Document) n f :
  Dom.modify doc n f = Some doc' ->
  exists e, doc !! n = Some e /\ doc' = <[n := f e]> doc.
Proof.
  unfold Dom.modify. destruct (doc !! n) as [e|] eqn:E; simpl; [|discriminate].
  intros [= <-]. eauto.
Qed.

Lemma toggleClass_inv (doc doc' : Dom.Document) n b names :
  Dom.toggleClass doc n b names = Some doc' ->
  exists e, doc !! n = Some e /\
    doc' = <[n := Dom.set_classes e
                     (foldl (Dom.toggle_one b) (Dom.classes e) names)]> doc.
Proof. apply modify_inv. Qed.

(** ** The marker *)

(** C7: for every marker whose element is in the document, [destroy]
    succeeds and detaches the element (its [parentNode] is [null]
    afterwards), and a second [destroy] right after succeeds too and
    changes nothing. *)
Theorem destroy_twice (doc : Dom.Document) (m : Marker.Marker) (n : Dom.node)
    (e : Dom.Element) :
  Marker.element m = Some n ->
  doc !! n = Some e ->
  exists doc1 e1,
    Marker.destroy doc m = Some doc1 /\
    doc1 !! n = Some e1 /\
    Dom.el_parentNode e1 = None /\
    Marker.destroy doc1 m = Some doc1.
Proof.
  intros Hm He.
  unfold Marker.destroy at 1. rewrite Hm. simpl. rewrite He. simpl.
  destruct (Dom.el_parentNode e) as [p|] eqn:Hp.
  - unfold Dom.removeChild. rewrite (modify_lookup _ _ _ _ He).
    exists (<[n := Dom.with_parentNode e None]> doc), (Dom.with_parentNode e None).
    split; [reflexivity|]. split; [apply lookup_insert_eq|]. split; [reflexivity|].
    unfold Marker.destroy. rewrite Hm. simpl. rewrite lookup_insert_eq. reflexivity.
  - exists doc, e. split; [reflexivity|]. split; [exact He|]. split; [exact Hp|].
    unfold Marker.destroy. rewrite Hm. simpl. rewrite He. simpl. rewrite Hp. reflexivity.
Qed.

Lemma destroy_twice_witness :
  exists doc1 e1,
    Marker.destroy Sample.mid_document (Plugin.marker Sample.mid_state) = Some doc1 /\
    doc1 !! 5%nat = Some e1 /\
    Dom.el_parentNode e1 = None /\
    Marker.destroy doc1 (Plugin.marker Sample.mid_state) = Some doc1.
Proof.
  eapply (destroy_twice Sample.mid_document (Plugin.marker Sample.mid_state) 5%nat);
    reflexivity.
Defined.

(** ** Render notifications *)

(** C9, as stated, fails: a [draw] notification for a line carries axis
    objects other than the converter's, and the converter stays as it
    is. *)
Lemma line_draw_keeps_converter :
  Plugin.axes_differ Sample.line_drawn (Plugin.converter Sample.mid_state) = true /\
  Plugin.on_draw Sample.line_drawn Sample.mid_env Sample.mid_state
  = Some (Sample.mid_env, Sample.mid_state) /\
  Plugin.axes_differ Sample.line_drawn (Plugin.converter Plugin.initial) = true /\
  Plugin.on_draw Sample.line_drawn Sample.mid_env Plugin.initial
  = Some (Sample.mid_env, Plugin.initial).
Proof. repeat split; reflexivity. Qed.

(** C9 (amended): a [draw] notification whose type is not [point]
    changes nothing.  A notification for a point tags the element and
    leaves the converter untouched when both of its axis objects are
    the very objects of the current converter; in every other case
    (no converter yet, or one of the two objects is another one) the
    converter becomes [createConverter] of the incoming axes. *)
Theorem draw_rebuilds_converter_on_new_axes (data : Plugin.DrawData)
    (env : Plugin.Env) (st : Plugin.State) :
  (Plugin.type data <> "point" ->
   Plugin.on_draw data env st = Some (env, st)) /\
  (Plugin.type data = "point" ->
   forall e, Plugin.doc env !! Plugin.d_element data = Some e ->
   exists env' st',
     Plugin.on_draw data env st = Some (env', st') /\
     (forall c, Plugin.converter st = Some c ->
        Geometry.axis_ref (Plugin.d_axisX data) = Geometry.axis_ref (Geometry.axisX c) ->
        Geometry.axis_ref (Plugin.d_axisY data) = Geometry.axis_ref (Geometry.axisY c) ->
        Plugin.converter st' = Some c) /\
     ((forall c, Plugin.converter st = Some c ->
         Geometry.axis_ref (Plugin.d_axisX data) <> Geometry.axis_ref (Geometry.axisX c) \/
         Geometry.axis_ref (Plugin.d_axisY data) <> Geometry.axis_ref (Geometry.axisY c)) ->
      Plugin.converter st'
      = Some (Geometry.createConverter (Plugin.d_axisX data) (Plugin.d_axisY data)))).
Proof.
  split.
  - intros Hne. unfold Plugin.on_draw.
    destruct (String.eqb_spec (Plugin.type data) "point") as [E|_]; [contradiction|].
    reflexivity.
  - intros Hty e He. unfold Plugin.on_draw. rewrite Hty. simpl.
    rewrite (modify_lookup _ _ _ _ He). simpl.
    eexists _, _. split; [reflexivity|]. simpl. split.
    + intros c Hc Hx Hy. rewrite Hc. simpl. unfold Geometry.same_object.
      rewrite Hx, Hy, !Nat.eqb_refl. reflexivity.
    + intros Hdiff. destruct (Plugin.converter st) as [c|] eqn:Hc; [|reflexivity].
      simpl. unfold Geometry.same_object.
      destruct (Hdiff c eq_refl) as [H|H]; apply Nat.eqb_neq in H; rewrite H;
        [reflexivity|]. rewrite orb_true_r. reflexivity.
Qed.

Lemma draw_rebuilds_converter_on_new_axes_witness :
  (exists env' st',
     Plugin.on_draw (Plugin.mkDrawData "point" 3%nat 0%nat 1%nat
                       Sample.axis_x Sample.axis_y)
       Sample.mid_env Sample.mid_state = Some (env', st') /\
     Plugin.converter st' = Plugin.converter Sample.mid_state) /\
  (exists env' st',
     Plugin.on_draw (Plugin.mkDrawData "point" 3%nat 0%nat 1%nat
                       Sample.axis_x (Geometry.mkAxis 9 0 5 50))
       Sample.mid_env Sample.mid_state = Some (env', st') /\
     Plugin.converter st'
     = Some (Geometry.createConverter Sample.axis_x (Geometry.mkAxis 9 0 5 50))).
Proof.
  split.
  - destruct (proj2 (draw_rebuilds_converter_on_new_axes
                       (Plugin.mkDrawData "point" 3%nat 0%nat 1%nat
                          Sample.axis_x Sample.axis_y)
                       Sample.mid_env Sample.mid_state) eq_refl _ eq_refl)
      as (env' & st' & Hrun & Hsame & _).
    exists env', st'. split; [exact Hrun|].
    exact (Hsame _ eq_refl eq_refl eq_refl).
  - destruct (proj2 (draw_rebuilds_converter_on_new_axes
                       (Plugin.mkDrawData "point" 3%nat 0%nat 1%nat
                          Sample.axis_x (Geometry.mkAxis 9 0 5 50))
                       Sample.mid_env Sample.mid_state) eq_refl _ eq_refl)
      as (env' & st' & Hrun & _ & Hnew).
    exists env', st'. split; [exact Hrun|].
    apply Hnew. intros c [= <-]. right. simpl. discriminate.
Defined.

(** ** Activation *)

Section Quiet.
Variable options : Config.Options.
Variable p : Plugin.Page.
Hypothesis no_listener : Plugin.listeners p = [].
Hypothesis no_chart_listener : Plugin.chart_on p = [].

Lemma quiet_step (s : Plugin.Step) : Plugin.step options p s = Some p.
Proof.
  destruct s as [data|o]; simpl.
  - unfold Plugin.emit_draw. rewrite no_chart_listener. reflexivity.
  - unfold Plugin.deliver. rewrite no_listener. reflexivity.
Qed.

Lemma quiet_run (l : list Plugin.Step) : Plugin.run options p l = Some p.
Proof.
  unfold Plugin.run. induction l as [|s l IH]; [reflexivity|].
  simpl. rewrite quiet_step. exact IH.
Qed.

End Quiet.

(** C10: on a chart that is not a [Chartist.Line], [drag] returns at
    once: the page comes back as it was, with no listener added, no
    [draw] callback registered and no closure state built; and on a
    page where nothing else listens, whatever is drawn or fired
    afterwards leaves the page, the chart data included, as it was. *)
Theorem drag_ignores_other_charts (options : Config.Options) (p : Plugin.Page) :
  Chart.is_Line (Plugin.chart (Plugin.env p)) = false ->
  Plugin.plugins_drag options p = p /\
  (Plugin.listeners p = [] -> Plugin.chart_on p = [] ->
   forall steps : list Plugin.Step,
     Plugin.run (Config.initialize options) (Plugin.plugins_drag options p) steps
     = Some p).
Proof.
  intros Hline.
  assert (E : Plugin.plugins_drag options p = p).
  { unfold Plugin.plugins_drag, Plugin.drag. rewrite Hline. reflexivity. }
  split; [exact E|].
  intros Hl Hc steps. rewrite E. apply quiet_run; assumption.
Qed.

Lemma drag_ignores_other_charts_witness :
  Plugin.plugins_drag Sample.options_xy Sample.bar_page = Sample.bar_page /\
  Plugin.run (Config.initialize Sample.options_xy)
    (Plugin.plugins_drag Sample.options_xy Sample.bar_page) Sample.cycle
  = Some Sample.bar_page.
Proof.
  destruct (drag_ignores_other_charts Sample.options_xy Sample.bar_page eq_refl)
    as [E H].
  split; [exact E|]. exact (H eq_refl eq_refl Sample.cycle).
Defined.

(** ** Documents that agree on an attribute *)

Section Agree.
Context {A : Type} (f : Dom.Element -> A).

Lemma agree_refl (doc : Dom.Document) : Dom.agree f doc doc.
Proof. intros n. reflexivity. Qed.

Lemma agree_trans (d1 d2 d3 : Dom.Document) :
  Dom.agree f d1 d2 -> Dom.agree f d2 d3 -> Dom.agree f d1 d3.
Proof. intros H12 H23 n. rewrite H23. apply H12. Qed.

Lemma agree_modify (doc doc' : Dom.Document) n g :
  (forall e, f (g e) = f e) ->
  Dom.modify doc n g = Some doc' -> Dom.agree f doc doc'.
Proof.
  intros Hg Hu. apply modify_inv in Hu as (e & He & ->). intros k.
  destruct (decide (n = k)) as [<-|Hne].
  - rewrite lookup_insert_eq, He. simpl. rewrite Hg. reflexivity.
  - rewrite lookup_insert_ne by exact Hne. reflexivity.
Qed.

Lemma agree_lookup (doc doc' : Dom.Document) n e :
  Dom.agree f doc doc' -> doc !! n = Some e ->
  exists e', doc' !! n = Some e' /\ f e' = f e.
Proof.
  intros Ha He. specialize (Ha n). rewrite He in Ha. simpl in Ha.
  destruct (doc' !! n) as [e'|]; simpl in Ha; [|discriminate].
  exists e'. split; [reflexivity|]. congruence.
Qed.

Lemma agree_is_Some (doc doc' : Dom.Document) n :
  Dom.agree f doc doc' -> is_Some (doc !! n) -> is_Some (doc' !! n).
Proof.
  intros Ha [e He]. destruct (agree_lookup _ _ _ _ Ha He) as (e' & He' & _).
  exists e'. exact He'.
Qed.

End Agree.

Lemma agree_toggleClass {A} (f : Dom.Element -> A) (doc doc' : Dom.Document) n b names :
  (forall e c, f (Dom.with_class e c) = f e) ->
  Dom.toggleClass doc n b names = Some doc' -> Dom.agree f doc doc'.
Proof. intros Hf. apply agree_modify. intros e. apply Hf. Qed.

Lemma toggleClass_ok (doc : Dom.Document) n b names :
  is_Some (doc !! n) -> is_Some (Dom.toggleClass doc n b names).
Proof.
  intros [e He]. unfold Dom.toggleClass. rewrite (modify_lookup _ _ _ _ He). eauto.
Qed.

Lemma pointData_agree (doc doc' : Dom.Document) (ch : Chart.Chart) n :
  Dom.agree Dom.el_indices doc doc' ->
  Chart.pointData doc' ch n = Chart.pointData doc ch n.
Proof.
  intros Ha. specialize (Ha n). unfold Chart.pointData.
  destruct (doc !! n) as [e|], (doc' !! n) as [e'|]; simpl in *;
    try discriminate; [|reflexivity].
  injection Ha as ->. reflexivity.
Qed.

(** ** Arrays with holes *)

Lemma array_get_set {A} (l : list (option A)) (j : nat) (v : A) :
  Js.array_get j (Js.array_set j v l) = Some v.
Proof.
  unfold Js.array_get, Js.array_set.
  destruct (j <? length l)%nat eqn:E.
  - apply Nat.ltb_lt in E. rewrite list_lookup_insert_eq by exact E. reflexivity.
  - apply Nat.ltb_ge in E.
    rewrite lookup_app_r by exact E.
    rewrite lookup_app_r by (rewrite length_replicate; lia).
    rewrite length_replicate. replace (j - length l - (j - length l))%nat with 0%nat by lia.
    reflexivity.
Qed.

Lemma array_get_set_ne {A} (l : list (option A)) (i j : nat) (v : A) :
  i <> j -> Js.array_get i (Js.array_set j v l) = Js.array_get i l.
Proof.
  intros Hne. unfold Js.array_get, Js.array_set.
  destruct (j <? length l)%nat eqn:E.
  - rewrite list_lookup_insert_ne by congruence. reflexivity.
  - apply Nat.ltb_ge in E.
    destruct (decide (i < length l)%nat) as [Hi|Hi].
    + rewrite lookup_app_l by exact Hi. reflexivity.
    + rewrite (lookup_ge_None_2 l i) by lia. rewrite lookup_app_r by lia.
      destruct (decide (i - length l < j - length l)%nat) as [Hlt|Hge].
      * rewrite lookup_app_l by (rewrite length_replicate; exact Hlt).
        rewrite lookup_replicate_2 by exact Hlt. reflexivity.
      * rewrite lookup_app_r by (rewrite length_replicate; lia).
        rewrite length_replicate.
        destruct (i - length l - (j - length l))%nat as [|k] eqn:Ek; [lia|].
        reflexivity.
Qed.

(** ** Reading and writing the data of a point *)

Lemma pointData_set_ok (doc : Dom.Document) (ch : Chart.Chart) n slot v :
  Chart.pointData doc ch n = Some slot ->
  exists ch',
    Chart.pointData_set doc ch n v = Some ch' /\
    Chart.pointData doc ch' n = Some (Some v) /\
    Chart.updates ch' = Chart.updates ch /\
    Chart.is_Line ch' = Chart.is_Line ch /\
    Chart.container ch' = Chart.container ch.
Proof.
  unfold Chart.pointData, Chart.pointData_set.
  destruct (doc !! n) as [e|]; simpl; [|discriminate].
  destruct (Dom.el_indices e) as [[i j]|]; simpl; [|discriminate].
  destruct (Chart.series ch !! i) as [s|] eqn:Hs; simpl; [|discriminate].
  intros _. eexists. split; [reflexivity|]. simpl.
  rewrite list_lookup_insert_eq by (eapply lookup_lt_Some; exact Hs). simpl.
  rewrite array_get_set. repeat split.
Qed.

Lemma pointData_set_inv (doc : Dom.Document) (ch ch' : Chart.Chart) n v :
  Chart.pointData_set doc ch n v = Some ch' ->
  Chart.pointData doc ch' n = Some (Some v) /\
  Chart.updates ch' = Chart.updates ch.
Proof.
  intros H.
  assert (exists slot, Chart.pointData doc ch n = Some slot) as [slot Hslot].
  { unfold Chart.pointData_set in H. unfold Chart.pointData.
    destruct (doc !! n) as [e|]; simpl in *; [|discriminate].
    destruct (Dom.el_indices e) as [[i j]|]; simpl in *; [|discriminate].
    destruct (Chart.series ch !! i) as [s|]; simpl in *; [|discriminate]. eauto. }
  destruct (pointData_set_ok doc ch n slot v Hslot) as (c & Hc & Hget & Hup & _).
  rewrite Hc in H. injection H as <-. split; assumption.
Qed.

(** ** The delta of a drag *)

Lemma extend_two (old upd : Chart.DataPoint) :
  Chart.extend ∅ [old; upd] = upd ∪ old.
Proof. unfold Chart.extend. simpl. rewrite (right_id_L ∅ (∪)). reflexivity. Qed.

Lemma extend_xy_x (old : Chart.DataPoint) (vx vy : Js.jsval) :
  Chart.extend ∅ [old; <["y" := vy]> (<["x" := vx]> ∅)] !! "x" = Some vx.
Proof.
  rewrite extend_two. apply lookup_union_Some_l.
  rewrite lookup_insert_ne by discriminate. apply lookup_insert_eq.
Qed.

Lemma extend_xy_y (old : Chart.DataPoint) (vx vy : Js.jsval) :
  Chart.extend ∅ [old; <["y" := vy]> (<["x" := vx]> ∅)] !! "y" = Some vy.
Proof. rewrite extend_two. apply lookup_union_Some_l. apply lookup_insert_eq. Qed.

Lemma extend_xy_other (old : Chart.DataPoint) (vx vy : Js.jsval) (k : string) :
  k <> "x" -> k <> "y" ->
  Chart.extend ∅ [old; <["y" := vy]> (<["x" := vx]> ∅)] !! k = old !! k.
Proof.
  intros Hx Hy. rewrite extend_two. apply lookup_union_r.
  rewrite !lookup_insert_ne by congruence. apply lookup_empty.
Qed.

Lemma calcDelta_inv (env : Plugin.Env) (st : Plugin.State) (delta : Chart.Delta) :
  Plugin.calcDelta env st = Some delta ->
  exists d m draggedRect markerRect c x y,
    Plugin.dragged st = Some d /\
    Marker.element (Plugin.marker st) = Some m /\
    Dom.getBoundingClientRect (Plugin.doc env) d = Some draggedRect /\
    Dom.getBoundingClientRect (Plugin.doc env) m = Some markerRect /\
    Chart.dx delta = (Geometry.left markerRect - Geometry.left draggedRect)%Q /\
    Chart.dy delta = (Geometry.top draggedRect - Geometry.top markerRect)%Q /\
    Chart.pointData (Plugin.doc env) (Plugin.chart env) d
    = Some (Some (Chart.oldData delta)) /\
    Chart.number (Chart.oldData delta !! "x") = Some x /\
    Chart.number (Chart.oldData delta !! "y") = Some y /\
    Plugin.converter st = Some c /\
    Chart.converter delta = c /\
    Chart.changed delta
    = negb (Qeq_bool (Chart.dx delta) 0) || negb (Qeq_bool (Chart.dy delta) 0) /\
    Chart.newData delta
    = Chart.extend ∅
        [Chart.oldData delta;
         <["y" := Js.JNum (y + Geometry.convertY c (Chart.dy delta))%Q]>
           (<["x" := Js.JNum (x + Geometry.convertX c (Chart.dx delta))%Q]> ∅)].
Proof.
  unfold Plugin.calcDelta. intros H.
  destruct (Plugin.dragged st) as [d|]; simpl in H; [|discriminate].
  destruct (Dom.getBoundingClientRect (Plugin.doc env) d) as [dr|] eqn:Hdr;
    simpl in H; [|discriminate].
  destruct (Marker.element (Plugin.marker st)) as [m|]; simpl in H; [|discriminate].
  destruct (Dom.getBoundingClientRect (Plugin.doc env) m) as [mr|] eqn:Hmr;
    simpl in H; [|discriminate].
  destruct (Chart.pointData (Plugin.doc env) (Plugin.chart env) d) as [[data|]|] eqn:Hpd;
    simpl in H; try discriminate.
  destruct (Chart.number (data !! "x")) as [x|] eqn:Hx; simpl in H; [|discriminate].
  destruct (Chart.number (data !! "y")) as [y|] eqn:Hy; simpl in H; [|discriminate].
  destruct (Plugin.converter st) as [c|]; simpl in H; [|discriminate].
  injection H as <-. simpl.
  exists d, m, dr, mr, c, x, y. repeat split; first [assumption | reflexivity].
Qed.

(** The fields of the proposed value: [x] and [y] are the old numbers
    plus the converted deltas, every other field is the old one. *)
Lemma calcDelta_newData (env : Plugin.Env) (st : Plugin.State) (delta : Chart.Delta) :
  Plugin.calcDelta env st = Some delta ->
  exists x y,
    Chart.number (Chart.oldData delta !! "x") = Some x /\
    Chart.number (Chart.oldData delta !! "y") = Some y /\
    Chart.newData delta !! "x"
    = Some (Js.JNum (x + Geometry.convertX (Chart.converter delta) (Chart.dx delta))%Q) /\
    Chart.newData delta !! "y"
    = Some (Js.JNum (y + Geometry.convertY (Chart.converter delta) (Chart.dy delta))%Q) /\
    forall k, k <> "x" -> k <> "y" ->
      Chart.newData delta !! k = Chart.oldData delta !! k.
Proof.
  intros H.
  destruct (calcDelta_inv _ _ _ H)
    as (d & m & dr & mr & c & x & y & _ & _ & _ & _ & _ & _ & _ & Hx & Hy & _ & Hc & _ & Hnew).
  exists x, y. rewrite Hnew, Hc. split; [exact Hx|]. split; [exact Hy|].
  split; [apply extend_xy_x|]. split; [apply extend_xy_y|].
  intros k Hkx Hky. apply extend_xy_other; assumption.
Qed.

(** ** The end of a drag, step by step *)

Lemma destroy_inv (doc doc1 : Dom.Document) (mk : Marker.Marker) :
  Marker.destroy doc mk = Some doc1 ->
  exists m e1,
    Marker.element mk = Some m /\
    doc1 !! m = Some e1 /\
    Dom.el_parentNode e1 = None /\
    Dom.agree Dom.el_indices doc doc1.
Proof.
  unfold Marker.destroy.
  destruct (Marker.element mk) as [m|]; simpl; [|discriminate].
  destruct (doc !! m) as [e|] eqn:He; simpl; [|discriminate].
  destruct (Dom.el_parentNode e) as [p|] eqn:Hp.
  - intros Hr. unfold Dom.removeChild in Hr.
    pose proof (agree_modify Dom.el_indices _ _ _
                  (fun x => Dom.with_parentNode x None) (fun _ => eq_refl) Hr) as Ha.
    rewrite (modify_lookup _ _ _ _ He) in Hr.
    injection Hr as <-. exists m, (Dom.with_parentNode e None).
    split; [reflexivity|]. split; [apply lookup_insert_eq|]. split; [reflexivity|exact Ha].
  - intros [= <-]. exists m, e. split; [reflexivity|]. split; [exact He|].
    split; [exact Hp|]. apply agree_refl.
Qed.

Lemma destroy_ok (doc : Dom.Document) (mk : Marker.Marker) (m : Dom.node) :
  Marker.element mk = Some m -> is_Some (doc !! m) ->
  is_Some (Marker.destroy doc mk).
Proof.
  intros Hm [e He]. unfold Marker.destroy. rewrite Hm. simpl. rewrite He. simpl.
  destruct (Dom.el_parentNode e); [|eauto].
  unfold Dom.removeChild. rewrite (modify_lookup _ _ _ _ He). eauto.
Qed.

Section DragEndSteps.
Variable options : Config.Options.

Lemma cleanup_inv (d : Dom.node) (env env' : Plugin.Env) (st st' : Plugin.State) :
  Plugin.cleanup options d env st = Some (env', st') ->
  Plugin.chart env' = Plugin.chart env /\
  Plugin.calls env' = Plugin.calls env /\
  Plugin.dragged st' = None /\
  Dom.agree Dom.el_indices (Plugin.doc env) (Plugin.doc env') /\
  exists m e,
    Marker.element (Plugin.marker st) = Some m /\
    Plugin.doc env' !! m = Some e /\
    Dom.el_parentNode e = None.
Proof.
  unfold Plugin.cleanup.
  destruct (Marker.destroy (Plugin.doc env) (Plugin.marker st)) as [d1|] eqn:Hd1;
    simpl; [|discriminate].
  destruct (Dom.toggleClass d1 d false _) as [d2|] eqn:Hd2; simpl; [|discriminate].
  intros [= <- <-]. simpl.
  destruct (destroy_inv _ _ _ Hd1) as (m & e1 & Hm & He1 & Hp & Ha1).
  pose proof (agree_toggleClass Dom.el_indices _ _ _ _ _ (fun _ _ => eq_refl) Hd2) as Ha2.
  pose proof (agree_toggleClass Dom.el_parentNode _ _ _ _ _ (fun _ _ => eq_refl) Hd2) as Hp2.
  split; [reflexivity|]. split; [reflexivity|]. split; [reflexivity|]. split.
  - eapply agree_trans; eassumption.
  - destruct (agree_lookup _ _ _ _ _ Hp2 He1) as (e2 & He2 & Hpar).
    exists m, e2. split; [exact Hm|]. split; [exact He2|]. congruence.
Qed.

Lemma cleanup_ok (d m : Dom.node) (env : Plugin.Env) (st : Plugin.State) :
  Marker.element (Plugin.marker st) = Some m ->
  is_Some (Plugin.doc env !! m) ->
  is_Some (Plugin.doc env !! d) ->
  is_Some (Plugin.cleanup options d env st).
Proof.
  intros Hm Hmd Hdd. unfold Plugin.cleanup.
  destruct (destroy_ok _ _ _ Hm Hmd) as [d1 Hd1]. rewrite Hd1. simpl.
  destruct (destroy_inv _ _ _ Hd1) as (_ & _ & _ & _ & _ & Ha).
  destruct (toggleClass_ok d1 d false
              [Config.commonClass options; Config.sourceClass options]
              (agree_is_Some _ _ _ _ Ha Hdd)) as [d2 Hd2].
  rewrite Hd2. simpl. eauto.
Qed.

Lemma restore_highlight_inv (env env' : Plugin.Env) (st : Plugin.State) :
  Plugin.restore_highlight options env st = Some env' ->
  Plugin.chart env' = Plugin.chart env /\
  Plugin.calls env' = Plugin.calls env /\
  Dom.agree Dom.el_indices (Plugin.doc env) (Plugin.doc env').
Proof.
  unfold Plugin.restore_highlight. destruct (Plugin.highlighted st) as [h|].
  - destruct (Dom.toggleClass (Plugin.doc env) h true _) as [dm|] eqn:Hdm;
      simpl; [|discriminate].
    intros [= <-]. simpl. split; [reflexivity|]. split; [reflexivity|].
    exact (agree_toggleClass Dom.el_indices _ _ _ _ _ (fun _ _ => eq_refl) Hdm).
  - intros [= <-]. split; [reflexivity|]. split; [reflexivity|]. apply agree_refl.
Qed.

Lemma restore_highlight_ok (env : Plugin.Env) (st : Plugin.State) :
  (forall h, Plugin.highlighted st = Some h -> is_Some (Plugin.doc env !! h)) ->
  is_Some (Plugin.restore_highlight options env st).
Proof.
  intros Hh. unfold Plugin.restore_highlight.
  destruct (Plugin.highlighted st) as [h|]; [|eauto].
  destruct (toggleClass_ok (Plugin.doc env) h true
              [Config.commonClass options; Config.highlightClass options]
              (Hh h eq_refl)) as [dm Hdm].
  rewrite Hdm. simpl. eauto.
Qed.

(** Restoring the highlight and cleaning up, from any environment
    that still holds the marker, the dragged element and the
    highlighted one. *)
Lemma finish_ok (d m : Dom.node) (env : Plugin.Env) (st : Plugin.State) :
  Marker.element (Plugin.marker st) = Some m ->
  is_Some (Plugin.doc env !! m) ->
  is_Some (Plugin.doc env !! d) ->
  (forall h, Plugin.highlighted st = Some h -> is_Some (Plugin.doc env !! h)) ->
  exists env' st' e,
    (Plugin.restore_highlight options env st
       ≫= fun env1 => Plugin.cleanup options d env1 st) = Some (env', st') /\
    Plugin.chart env' = Plugin.chart env /\
    Plugin.calls env' = Plugin.calls env /\
    Plugin.dragged st' = None /\
    Plugin.doc env' !! m = Some e /\
    Dom.el_parentNode e = None /\
    Dom.agree Dom.el_indices (Plugin.doc env) (Plugin.doc env').
Proof.
  intros Hm Hmd Hdd Hh.
  destruct (restore_highlight_ok env st Hh) as [env1 H1]. rewrite H1. simpl.
  destruct (restore_highlight_inv _ _ _ H1) as (Hc1 & Hl1 & Ha1).
  destruct (cleanup_ok d m env1 st Hm
              (agree_is_Some _ _ _ _ Ha1 Hmd) (agree_is_Some _ _ _ _ Ha1 Hdd))
    as [[env' st'] H2].
  destruct (cleanup_inv _ _ _ _ _ H2) as (Hc2 & Hl2 & Hdr & Ha2 & m' & e & Hm' & He & Hp).
  assert (m' = m) as -> by congruence.
  exists env', st', e. split; [exact H2|].
  split; [congruence|]. split; [congruence|]. split; [exact Hdr|].
  split; [exact He|]. split; [exact Hp|].
  eapply agree_trans; eassumption.
Qed.

End DragEndSteps.

(** ** The end of a drag *)

Example mid_state_reached :
  (p ← Sample.play Sample.options_xy Sample.grab_and_move;
   Some (Plugin.env p, Plugin.plugin p))
  = Some (Sample.mid_env, Some Sample.mid_state).
Proof. vm_compute. reflexivity. Qed.

Example calcDelta_mid :
  Plugin.calcDelta Sample.mid_env Sample.mid_state = Some Sample.mid_delta.
Proof. vm_compute. reflexivity. Qed.

(** C4, on the code: on a page without a [ct-grids] element the drag
    of the sample page reaches the same state, but the release at
    (500, 45), outside the container box (0, 0)-(400, 300), makes the
    handler throw in [getDragRect]: nothing is cleaned up, the marker
    stays in the tree and the dragged reference stays set. *)
Theorem release_outside_without_grid :
  Plugin.ct_grids Sample.gridless_env = [] /\
  Plugin.getDragRect Sample.gridless_env = None /\
  (p ← Sample.play_gridless Sample.options_xy Sample.grab_and_move;
   Some (Plugin.env p, Plugin.plugin p))
  = Some (Sample.gridless_env, Some Sample.mid_state) /\
  Plugin.dragged Sample.mid_state = Some 2%nat /\
  Sample.parent_of (Plugin.mkPage Sample.gridless_env [] [] None) 5%nat = Some 1%nat /\
  (r ← Dom.getBoundingClientRect Sample.mid_document 0%nat;
   Some (Geometry.inRect r 500 45)) = Some false /\
  Plugin.on_dragend (Config.initialize Sample.options_xy)
    (Sample.mouse 0%nat 500 45) (Event.mkInfo 0%nat 500 45) false
    Sample.gridless_env Sample.mid_state = None /\
  Sample.play_gridless Sample.options_xy
    (Sample.grab_and_move ++ [Sample.release_outside 500 45]) = None.
Proof. repeat split; vm_compute; reflexivity. Qed.

(** X24: when a [ct-grids] element gives a drop rectangle and the
    pointer is released outside it during an active session, the
    handler returns with the chart as it was (the series and the count
    of re-render requests), the data of the dragged point as it was, no
    call of the update callback; the marker element is detached and
    the dragged reference is cleared. *)
Theorem drop_outside_discards (options : Config.Options)
    (event : Event.Event) (info : Event.Info) (touch : bool)
    (env : Plugin.Env) (st : Plugin.State) (d m : Dom.node) (rect : Geometry.Rect) :
  Plugin.dragged st = Some d ->
  Marker.element (Plugin.marker st) = Some m ->
  is_Some (Plugin.doc env !! m) ->
  is_Some (Plugin.doc env !! d) ->
  Plugin.getDragRect env = Some rect ->
  Geometry.inRect rect (Event.clientX info) (Event.clientY info) = false ->
  exists env' st' e,
    Plugin.on_dragend options event info touch env st = Some (env', st') /\
    Plugin.chart env' = Plugin.chart env /\
    Chart.pointData (Plugin.doc env') (Plugin.chart env') d
    = Chart.pointData (Plugin.doc env) (Plugin.chart env) d /\
    Plugin.calls env' = Plugin.calls env /\
    Plugin.dragged st' = None /\
    Plugin.doc env' !! m = Some e /\
    Dom.el_parentNode e = None.
Proof.
  intros Hd Hm Hmd Hdd Hrect Hout.
  unfold Plugin.on_dragend. rewrite Hd, Hrect. simpl. rewrite Hout. simpl.
  destruct (cleanup_ok options d m env st Hm Hmd Hdd) as [[env' st'] Hc].
  destruct (cleanup_inv _ _ _ _ _ _ Hc) as (Hch & Hcalls & Hdr & Ha & m' & e & Hm' & He & Hp).
  assert (m' = m) as -> by congruence.
  exists env', st', e. split; [exact Hc|]. split; [exact Hch|].
  split; [rewrite Hch; apply pointData_agree; exact Ha|].
  split; [exact Hcalls|]. split; [exact Hdr|]. split; [exact He|exact Hp].
Qed.

Lemma drop_outside_discards_witness :
  exists env' st' e,
    Plugin.on_dragend (Config.initialize Sample.options_xy)
      (Sample.mouse 0%nat 500 45) (Event.mkInfo 0%nat 500 45) false
      Sample.mid_env Sample.mid_state = Some (env', st') /\
    Plugin.chart env' = Sample.line_chart /\
    Chart.pointData (Plugin.doc env') (Plugin.chart env') 2%nat
    = Chart.pointData Sample.mid_document Sample.line_chart 2%nat /\
    Plugin.calls env' = [] /\
    Plugin.dragged st' = None /\
    Plugin.doc env' !! 5%nat = Some e /\
    Dom.el_parentNode e = None.
Proof.
  apply (drop_outside_discards (Config.initialize Sample.options_xy)
           (Sample.mouse 0%nat 500 45) (Event.mkInfo 0%nat 500 45) false
           Sample.mid_env Sample.mid_state 2%nat 5%nat
           (Geometry.mkRect 0 0 400 300)).
  - reflexivity.
  - reflexivity.
  - vm_compute. eauto.
  - vm_compute. eauto.
  - reflexivity.
  - reflexivity.
Defined.

(** C5, on the code: on a page without a [ct-grids] element, a release
    at (135, 45), inside the container box, after a move that changed
    the delta, makes the handler throw in [getDragRect] before the
    update callback is asked: whether the callback would answer
    [false] or [undefined], nothing is committed and nothing is
    cleaned up. *)
Theorem veto_without_grid :
  Plugin.getDragRect Sample.gridless_env = None /\
  (r ← Dom.getBoundingClientRect Sample.mid_document 0%nat;
   Some (Geometry.inRect r 135 45)) = Some true /\
  (delta ← Plugin.calcDelta Sample.gridless_env Sample.mid_state;
   Some (Chart.changed delta)) = Some true /\
  Plugin.on_dragend (Config.initialize Sample.options_refuse)
    (Sample.mouse 0%nat 135 45) (Event.mkInfo 0%nat 135 45) false
    Sample.gridless_env Sample.mid_state = None /\
  Plugin.on_dragend (Config.initialize Sample.options_silent)
    (Sample.mouse 0%nat 135 45) (Event.mkInfo 0%nat 135 45) false
    Sample.gridless_env Sample.mid_state = None /\
  Sample.play_gridless Sample.options_refuse Sample.cycle = None /\
  Sample.play_gridless Sample.options_silent Sample.cycle = None.
Proof. repeat split; vm_compute; reflexivity. Qed.

(** X25: when a [ct-grids] element gives a drop rectangle, a drag ends
    inside it with a changed delta and an update callback is
    configured, the callback is called once with the delta, the marker
    element is detached and the dragged reference is cleared whatever
    the callback answers.  If the answer is the boolean [false], the
    chart (series and re-render count) is as it was; on any other
    answer the new data is written at the dragged point and one
    re-render is requested. *)
Theorem callback_false_vetoes (options : Config.Options)
    (callback : Chart.Delta -> Dom.node -> Chart.Chart -> Js.jsval)
    (event : Event.Event) (info : Event.Info) (touch : bool)
    (env : Plugin.Env) (st : Plugin.State) (d m : Dom.node)
    (rect : Geometry.Rect) (delta : Chart.Delta) :
  Config.updateCallback options = Some callback ->
  Plugin.dragged st = Some d ->
  Marker.element (Plugin.marker st) = Some m ->
  is_Some (Plugin.doc env !! m) ->
  is_Some (Plugin.doc env !! d) ->
  (forall h, Plugin.highlighted st = Some h -> is_Some (Plugin.doc env !! h)) ->
  Plugin.getDragRect env = Some rect ->
  Geometry.inRect rect (Event.clientX info) (Event.clientY info) = true ->
  Plugin.calcDelta env st = Some delta ->
  Chart.changed delta = true ->
  exists env' st' e,
    Plugin.on_dragend options event info touch env st = Some (env', st') /\
    Plugin.calls env' = Plugin.calls env ++ [delta] /\
    Plugin.dragged st' = None /\
    Plugin.doc env' !! m = Some e /\
    Dom.el_parentNode e = None /\
    (callback delta d (Plugin.chart env) = Js.JBool false ->
     Plugin.chart env' = Plugin.chart env) /\
    (callback delta d (Plugin.chart env) <> Js.JBool false ->
     Chart.updates (Plugin.chart env') = S (Chart.updates (Plugin.chart env)) /\
     Chart.pointData (Plugin.doc env') (Plugin.chart env') d
     = Some (Some (Chart.newData delta))).
Proof.
  intros Hcb Hd Hm Hmd Hdd Hh Hrect Hin Hdelta Hch.
  unfold Plugin.on_dragend. rewrite Hd, Hrect. simpl. rewrite Hin, Hdelta. simpl.
  rewrite Hch. unfold Plugin.commit. rewrite Hcb.
  destruct (Js.strict_false (callback delta d (Plugin.chart env))) eqn:Hv.
  - simpl.
    destruct (finish_ok options d m
                (Plugin.mkEnv (Plugin.doc env) (Plugin.chart env)
                   (Plugin.ct_grids env) (Plugin.calls env ++ [delta]))
                st Hm Hmd Hdd Hh)
      as (env' & st' & e & Hrun & Hchart & Hcalls & Hdr & He & Hp & Ha).
    exists env', st', e. split; [exact Hrun|]. split; [exact Hcalls|].
    split; [exact Hdr|]. split; [exact He|]. split; [exact Hp|]. split.
    + intros _. exact Hchart.
    + intros Hne. exfalso. apply Hne.
      destruct (callback delta d (Plugin.chart env)) as [| |[|]| |];
        try discriminate Hv. reflexivity.
  - destruct (calcDelta_inv _ _ _ Hdelta)
      as (d' & m' & dr & mr & cv & x & y & Hd' & _ & _ & _ & _ & _ & Hpd & _).
    assert (d' = d) as -> by congruence.
    destruct (pointData_set_ok _ _ _ _ (Chart.newData delta) Hpd)
      as (c & Hset & Hget & Hup & _).
    simpl. rewrite Hset. simpl.
    destruct (finish_ok options d m
                (Plugin.mkEnv (Plugin.doc env) (Chart.update c)
                   (Plugin.ct_grids env) (Plugin.calls env ++ [delta]))
                st Hm Hmd Hdd Hh)
      as (env' & st' & e & Hrun & Hchart & Hcalls & Hdr & He & Hp & Ha).
    exists env', st', e. split; [exact Hrun|]. split; [exact Hcalls|].
    split; [exact Hdr|]. split; [exact He|]. split; [exact Hp|]. split.
    + intros Hfalse. rewrite Hfalse in Hv. discriminate Hv.
    + intros _. rewrite Hchart. simpl. split; [rewrite Hup; reflexivity|].
      rewrite (pointData_agree _ _ _ _ Ha). exact Hget.
Qed.

Lemma callback_false_vetoes_witness :
  (exists env' st',
     Plugin.on_dragend (Config.initialize Sample.options_refuse)
       (Sample.mouse 0%nat 135 45) (Event.mkInfo 0%nat 135 45) false
       Sample.mid_env Sample.mid_state = Some (env', st') /\
     Plugin.chart env' = Sample.line_chart /\
     Plugin.dragged st' = None) /\
  (exists env' st',
     Plugin.on_dragend (Config.initialize Sample.options_silent)
       (Sample.mouse 0%nat 135 45) (Event.mkInfo 0%nat 135 45) false
       Sample.mid_env Sample.mid_state = Some (env', st') /\
     Chart.updates (Plugin.chart env') = 1%nat /\
     Chart.pointData (Plugin.doc env') (Plugin.chart env') 2%nat
     = Some (Some (Chart.newData Sample.mid_delta))).
Proof.
  assert (Hm : is_Some (Sample.mid_document !! 5%nat)) by (vm_compute; eauto).
  assert (Hd : is_Some (Sample.mid_document !! 2%nat)) by (vm_compute; eauto).
  assert (Hh : forall h, Plugin.highlighted Sample.mid_state = Some h ->
                 is_Some (Sample.mid_document !! h)) by (intros h [=]).
  split.
  - destruct (callback_false_vetoes (Config.initialize Sample.options_refuse)
                Sample.refuse (Sample.mouse 0%nat 135 45) (Event.mkInfo 0%nat 135 45)
                false Sample.mid_env Sample.mid_state 2%nat 5%nat
                (Geometry.mkRect 0 0 400 300) Sample.mid_delta
                eq_refl eq_refl eq_refl Hm Hd Hh eq_refl eq_refl calcDelta_mid eq_refl)
      as (env' & st' & e & Hrun & _ & Hdr & _ & _ & Hveto & _).
    exists env', st'. split; [exact Hrun|]. split; [exact (Hveto eq_refl)|exact Hdr].
  - destruct (callback_false_vetoes (Config.initialize Sample.options_silent)
                Sample.silent (Sample.mouse 0%nat 135 45) (Event.mkInfo 0%nat 135 45)
                false Sample.mid_env Sample.mid_state 2%nat 5%nat
                (Geometry.mkRect 0 0 400 300) Sample.mid_delta
                eq_refl eq_refl eq_refl Hm Hd Hh eq_refl eq_refl calcDelta_mid eq_refl)
      as (env' & st' & e & Hrun & _ & _ & _ & _ & _ & Hcommit).
    exists env', st'. split; [exact Hrun|].
    apply Hcommit. discriminate.
Defined.

(** ** What a committed drag writes *)

Lemma commit_inv (options : Config.Options) (delta : Chart.Delta) (d : Dom.node)
    (env env' : Plugin.Env) :
  Plugin.commit options delta d env = Some env' ->
  Plugin.doc env' = Plugin.doc env /\
  (Plugin.chart env' = Plugin.chart env \/
   exists c,
     Chart.pointData_set (Plugin.doc env) (Plugin.chart env) d (Chart.newData delta)
     = Some c /\
     Plugin.chart env' = Chart.update c).
Proof.
  unfold Plugin.commit.
  destruct (Config.updateCallback options) as [callback|].
  - destruct (Js.strict_false _).
    + intros [= <-]. simpl. split; [reflexivity|]. left. reflexivity.
    + simpl.
      destruct (Chart.pointData_set _ _ _ _) as [c|] eqn:Hc; simpl; [|discriminate].
      intros [= <-]. simpl. split; [reflexivity|]. right. exists c. split; reflexivity.
  - destruct (Chart.pointData_set _ _ _ _) as [c|] eqn:Hc; simpl; [|discriminate].
    intros [= <-]. simpl. split; [reflexivity|]. right. exists c. split; reflexivity.
Qed.

Lemma on_dragend_inv (options : Config.Options) (event : Event.Event)
    (info : Event.Info) (touch : bool) (env env' : Plugin.Env)
    (st st' : Plugin.State) (d : Dom.node) :
  Plugin.dragged st = Some d ->
  Plugin.on_dragend options event info touch env st = Some (env', st') ->
  exists rect,
    Plugin.getDragRect env = Some rect /\
    ((Geometry.inRect rect (Event.clientX info) (Event.clientY info) = false /\
      Plugin.cleanup options d env st = Some (env', st')) \/
     (Geometry.inRect rect (Event.clientX info) (Event.clientY info) = true /\
      exists delta env1 env2,
        Plugin.calcDelta env st = Some delta /\
        (if Chart.changed delta then Plugin.commit options delta d env else Some env)
        = Some env1 /\
        Plugin.restore_highlight options env1 st = Some env2 /\
        Plugin.cleanup options d env2 st = Some (env', st'))).
Proof.
  intros Hd. unfold Plugin.on_dragend. rewrite Hd.
  destruct (Plugin.getDragRect env) as [rect|]; simpl; [|discriminate].
  intros H. exists rect. split; [reflexivity|].
  destruct (Geometry.inRect rect _ _).
  - right. split; [reflexivity|].
    destruct (Plugin.calcDelta env st) as [delta|]; simpl in H; [|discriminate].
    destruct (if Chart.changed delta then Plugin.commit options delta d env else Some env)
      as [env1|] eqn:H1; simpl in H; [|discriminate].
    destruct (Plugin.restore_highlight options env1 st) as [env2|] eqn:H2;
      simpl in H; [|discriminate].
    exists delta, env1, env2. repeat split; assumption.
  - left. split; [reflexivity|]. exact H.
Qed.

(** C8: whenever the end of a drag commits (the count of re-render
    requests has moved), it has moved by one and the value now stored
    at the dragged point is
    [Chartist.extend({}, old, {x: old.x + convertX(dx), y: old.y + convertY(dy)})]
    for the value [old] stored there before, with [dx] the marker's
    left minus the dragged element's left, [dy] the dragged element's
    top minus the marker's top, and the closure's converter: its [x]
    and [y] are the computed ones and every other field is the old
    one. *)
Theorem commit_keeps_other_fields (options : Config.Options)
    (event : Event.Event) (info : Event.Info) (touch : bool)
    (env env' : Plugin.Env) (st st' : Plugin.State) (d : Dom.node) :
  Plugin.dragged st = Some d ->
  Plugin.on_dragend options event info touch env st = Some (env', st') ->
  Chart.updates (Plugin.chart env') <> Chart.updates (Plugin.chart env) ->
  exists (old new : Chart.DataPoint) (m : Dom.node)
         (draggedRect markerRect : Geometry.Rect) (c : Geometry.Converter) (x y : Q),
    Marker.element (Plugin.marker st) = Some m /\
    Dom.getBoundingClientRect (Plugin.doc env) d = Some draggedRect /\
    Dom.getBoundingClientRect (Plugin.doc env) m = Some markerRect /\
    Plugin.converter st = Some c /\
    Chart.pointData (Plugin.doc env) (Plugin.chart env) d = Some (Some old) /\
    Chart.number (old !! "x") = Some x /\
    Chart.number (old !! "y") = Some y /\
    Chart.pointData (Plugin.doc env') (Plugin.chart env') d = Some (Some new) /\
    new = Chart.extend ∅
            [old;
             <["y" := Js.JNum (y + Geometry.convertY c
                                     (Geometry.top draggedRect - Geometry.top markerRect))%Q]>
               (<["x" := Js.JNum (x + Geometry.convertX c
                                       (Geometry.left markerRect
                                        - Geometry.left draggedRect))%Q]> ∅)] /\
    new !! "x"
    = Some (Js.JNum (x + Geometry.convertX c
                           (Geometry.left markerRect - Geometry.left draggedRect))%Q) /\
    new !! "y"
    = Some (Js.JNum (y + Geometry.convertY c
                           (Geometry.top draggedRect - Geometry.top markerRect))%Q) /\
    (forall k : string, k <> "x" -> k <> "y" -> new !! k = old !! k) /\
    Chart.updates (Plugin.chart env') = S (Chart.updates (Plugin.chart env)).
Proof.
  intros Hd Hrun Hup.
  destruct (on_dragend_inv _ _ _ _ _ _ _ _ _ Hd Hrun) as (rect & _ & [[_ Hc]|[_ Hin]]).
  - destruct (cleanup_inv _ _ _ _ _ _ Hc) as (Hch & _). rewrite Hch in Hup. contradiction.
  - destruct Hin as (delta & env1 & env2 & Hdelta & Hcommit & Hrest & Hc).
    destruct (cleanup_inv _ _ _ _ _ _ Hc) as (Hch2 & _ & _ & Ha2 & _).
    destruct (restore_highlight_inv _ _ _ _ Hrest) as (Hch1 & _ & Ha1).
    destruct (calcDelta_inv _ _ _ Hdelta)
      as (d' & m & dr & mr & cv & x & y & Hd' & Hm & Hdr & Hmr & Hdx & Hdy & Hpd
          & Hx & Hy & Hcv & _ & _ & Hnew).
    assert (d' = d) as -> by congruence.
    rewrite Hdx, Hdy in Hnew.
    destruct (Chart.changed delta).
    + destruct (commit_inv _ _ _ _ _ Hcommit) as (Hdoc & [Hsame|(c & Hset & Hc1)]).
      * exfalso. apply Hup. congruence.
      * destruct (pointData_set_inv _ _ _ _ _ Hset) as (Hget & Hupd).
        exists (Chart.oldData delta), (Chart.newData delta), m, dr, mr, cv, x, y.
        split; [exact Hm|]. split; [exact Hdr|]. split; [exact Hmr|].
        split; [exact Hcv|]. split; [exact Hpd|]. split; [exact Hx|].
        split; [exact Hy|]. split.
        { rewrite (pointData_agree _ _ _ _ Ha2), (pointData_agree _ _ _ _ Ha1).
          rewrite Hch2, Hch1, Hc1, Hdoc. exact Hget. }
        split; [exact Hnew|].
        split; [rewrite Hnew; apply extend_xy_x|].
        split; [rewrite Hnew; apply extend_xy_y|].
        split; [intros k Hkx Hky; rewrite Hnew; apply extend_xy_other; assumption|].
        rewrite Hch2, Hch1, Hc1. simpl. rewrite Hupd. reflexivity.
    + injection Hcommit as <-. exfalso. apply Hup. congruence.
Qed.

Lemma commit_keeps_other_fields_witness :
  exists (old new : Chart.DataPoint) (m : Dom.node)
         (draggedRect markerRect : Geometry.Rect) (c : Geometry.Converter) (x y : Q),
    Marker.element (Plugin.marker Sample.mid_state) = Some m /\
    Dom.getBoundingClientRect Sample.mid_document 2%nat = Some draggedRect /\
    Dom.getBoundingClientRect Sample.mid_document m = Some markerRect /\
    Plugin.converter Sample.mid_state = Some c /\
    Chart.pointData Sample.mid_document Sample.line_chart 2%nat = Some (Some old) /\
    Chart.number (old !! "x") = Some x /\
    Chart.number (old !! "y") = Some y /\
    Chart.pointData (Plugin.doc (fst Sample.after_drop))
      (Plugin.chart (fst Sample.after_drop)) 2%nat = Some (Some new) /\
    new = Chart.extend ∅
            [old;
             <["y" := Js.JNum (y + Geometry.convertY c
                                     (Geometry.top draggedRect - Geometry.top markerRect))%Q]>
               (<["x" := Js.JNum (x + Geometry.convertX c
                                       (Geometry.left markerRect
                                        - Geometry.left draggedRect))%Q]> ∅)] /\
    new !! "x"
    = Some (Js.JNum (x + Geometry.convertX c
                           (Geometry.left markerRect - Geometry.left draggedRect))%Q) /\
    new !! "y"
    = Some (Js.JNum (y + Geometry.convertY c
                           (Geometry.top draggedRect - Geometry.top markerRect))%Q) /\
    (forall k : string, k <> "x" -> k <> "y" -> new !! k = old !! k) /\
    Chart.updates (Plugin.chart (fst Sample.after_drop)) = 1%nat.
Proof.
  apply (commit_keeps_other_fields (Config.initialize Sample.options_xy)
           (Sample.mouse 0%nat 135 45) (Event.mkInfo 0%nat 135 45) false
           Sample.mid_env (fst Sample.after_drop)
           Sample.mid_state (snd Sample.after_drop) 2%nat).
  - reflexivity.
  - vm_compute. reflexivity.
  - vm_compute. discriminate.
Defined.

(** ** A pointer-down during a drag *)

Lemma on_dragstart_frame (options : Config.Options) (event : Event.Event)
    (info : Event.Info) (touch : bool) (env env' : Plugin.Env) (st st' : Plugin.State) :
  Plugin.on_dragstart options event info touch env st = Some (env', st') ->
  Plugin.chart env' = Plugin.chart env /\ Plugin.calls env' = Plugin.calls env.
Proof.
  unfold Plugin.on_dragstart. destruct (Event.no_button event).
  - intros H.
    destruct (Dom.getBoundingClientRect _ _) as [r|]; simpl in H; [|discriminate].
    destruct (Marker.create _ _ _) as [[dm m]|]; simpl in H; [|discriminate].
    destruct (Dom.toggleClass dm _ false _) as [d1|]; simpl in H; [|discriminate].
    destruct (Dom.toggleClass d1 _ true _) as [d2|]; simpl in H; [|discriminate].
    injection H as <- <-. split; reflexivity.
  - intros [= <- <-]. split; reflexivity.
Qed.

(** C3, as stated, fails: in the middle of the drag of point 2 a press
    of the primary button on point 3 starts over: the dragged
    reference, the marker and the grab offset become those of point 3,
    and the first marker (element 5) stays in the tree. *)
Lemma second_press_starts_over :
  (p ← Sample.play Sample.options_xy Sample.grab_and_move;
   st ← Plugin.plugin p;
   Some (Plugin.dragged st, Marker.element (Plugin.marker st), Plugin.offset st))
  = Some (Some 2%nat, Some 5%nat, Some (-5, -5)%Q) /\
  (p ← Sample.play Sample.options_xy
         (Sample.grab_and_move ++ [Sample.fire "mousedown" 3%nat 203 88]);
   st ← Plugin.plugin p;
   Some (Plugin.dragged st, Marker.element (Plugin.marker st), Plugin.offset st,
         Sample.parent_of p 5%nat))
  = Some (Some 3%nat, Some 6%nat, Some (-3, -8)%Q, Some 1%nat).
Proof. split; vm_compute; reflexivity. Qed.

(** C3 (amended): while a drag is active, a further pointer-down that
    does not come from the primary button is a no-op (the dragged
    reference, the marker, the grab offset, the document and the chart
    stay as they are), and no pointer-down, whatever its button and
    whatever the listener's selector lets through, changes the chart
    data, requests a re-render or calls the update callback. *)
Theorem press_during_drag (options : Config.Options) (event : Event.Event)
    (info : Event.Info) (touch : bool) (selector : option string)
    (env : Plugin.Env) (st : Plugin.State) (d : Dom.node) :
  Plugin.dragged st = Some d ->
  (Event.no_button event = false ->
   Plugin.on_dragstart options event info touch env st = Some (env, st)) /\
  (forall env' st',
     Plugin.listener touch selector (Plugin.on_dragstart options) event env st
     = Some (env', st') ->
     Plugin.chart env' = Plugin.chart env /\ Plugin.calls env' = Plugin.calls env).
Proof.
  intros _. split.
  - intros Hb. unfold Plugin.on_dragstart. rewrite Hb. reflexivity.
  - intros env' st'. unfold Plugin.listener.
    destruct (if touch then last (Event.changedTouches event)
              else Some (Event.self event)) as [i|]; simpl; [|discriminate].
    destruct selector as [[|a s]|].
    + apply on_dragstart_frame.
    + destruct (Dom.has_class _ _ _) as [[|]|]; [| |discriminate].
      * apply on_dragstart_frame.
      * intros [= <- <-]. split; reflexivity.
    + apply on_dragstart_frame.
Qed.

Lemma press_during_drag_witness :
  Plugin.on_dragstart (Config.initialize Sample.options_xy)
    (Event.mkEvent (Event.mkInfo 3%nat 203 88) (Some 2%nat) [])
    (Event.mkInfo 3%nat 203 88) false Sample.mid_env Sample.mid_state
  = Some (Sample.mid_env, Sample.mid_state).
Proof.
  exact (proj1 (press_during_drag (Config.initialize Sample.options_xy)
                  (Event.mkEvent (Event.mkInfo 3%nat 203 88) (Some 2%nat) [])
                  (Event.mkInfo 3%nat 203 88) false (Some "ct-point")
                  Sample.mid_env Sample.mid_state 2%nat eq_refl) eq_refl).
Defined.

(** ** Whole drags on the sample page *)

(** C2, on the code: with both axes enabled, the cycle that grabs the
    point (12, 15) and moves the pointer by (+30, -10) pixels commits
    and requests one re-render, but the committed [y] is 26: the old
    15 plus the 1 the ten pixels are worth plus the axis minimum 10.
    It is neither [15 - convertY(-10)] (that is 6) nor the offset-free
    [15 - (-10) * ratioY] (that is 16); the committed [x] is 25, the
    old 12 plus 3 plus the axis minimum 10. *)
Theorem drag_cycle_adds_axis_minimum :
  exists p,
    Sample.play Sample.options_xy Sample.cycle = Some p /\
    Chart.updates (Plugin.chart (Plugin.env p)) = 1%nat /\
    Sample.field_is p 0 0 "x" 25 = true /\
    Sample.field_is p 0 0 "y" 26 = true /\
    Sample.field_is p 0 0 "y" (15 - Geometry.convertY Sample.converter (-10)) = false /\
    Sample.field_is p 0 0 "y" (15 - (-10) * Geometry.ratioY Sample.converter) = false /\
    Sample.field_is p 0 0 "x" (12 + 30 * Geometry.ratioX Sample.converter) = false /\
    (15 - Geometry.convertY Sample.converter (-10) == 6)%Q /\
    (15 - (-10) * Geometry.ratioY Sample.converter == 16)%Q.
Proof.
  destruct (Sample.play Sample.options_xy Sample.cycle) as [p|] eqn:Hp;
    [|vm_compute in Hp; discriminate Hp].
  exists p. split; [reflexivity|].
  vm_compute in Hp. injection Hp as <-.
  repeat split; vm_compute; reflexivity.
Qed.

(** C6, on the code: with [axis = 'y'] the marker keeps its horizontal
    position while the pointer moves 30 pixels to the right, but the
    drop commits [x = 22] for the point that had [x = 12]: the axis
    minimum 10 is added to it. *)
Theorem y_only_drag_moves_x :
  (p ← Sample.play Config.defaultOptions Sample.grab_and_move; Sample.marker_rect p)
  = Some (Geometry.shift (Sample.box 100 50) 0 (-10)) /\
  exists p,
    Sample.play Config.defaultOptions Sample.cycle = Some p /\
    Chart.updates (Plugin.chart (Plugin.env p)) = 1%nat /\
    Sample.field_is p 0 0 "x" 22 = true /\
    Sample.field_is p 0 0 "x" 12 = false.
Proof.
  split; [vm_compute; reflexivity|].
  destruct (Sample.play Config.defaultOptions Sample.cycle) as [p|] eqn:Hp;
    [|vm_compute in Hp; discriminate Hp].
  exists p. split; [reflexivity|].
  vm_compute in Hp. injection Hp as <-.
  repeat split; vm_compute; reflexivity.
Qed.

(** ** Sessions: what a pointer-down opens and a pointer-move keeps *)

Ltac open_bind H x :=
  match type of H with
  | mbind _ ?m = Some _ =>
      let E := fresh "E" x in
      destruct m as [x|] eqn:E; simpl in H; [|discriminate H]
  end.

Lemma modify_keeps (doc doc' : Dom.Document) n f k :
  Dom.modify doc n f = Some doc' -> is_Some (doc !! k) -> is_Some (doc' !! k).
Proof.
  intros Hu. apply (agree_is_Some (fun _ => tt)).
  exact (agree_modify (fun _ => tt) _ _ _ _ (fun _ => eq_refl) Hu).
Qed.

Lemma modify_target (doc doc' : Dom.Document) n f :
  Dom.modify doc n f = Some doc' -> is_Some (doc !! n).
Proof. intros Hu. apply modify_inv in Hu as (e & He & _). eauto. Qed.

Lemma create_inv (options : Config.Options) (doc doc' : Dom.Document)
    (point : Dom.node) (m : Marker.Marker) :
  Marker.create options doc point = Some (doc', m) ->
  exists c,
    m = Marker.mkMarker (Some c) (Some point) /\
    doc !! c = None /\
    is_Some (doc' !! c) /\
    is_Some (doc !! point) /\
    forall k, is_Some (doc !! k) -> is_Some (doc' !! k).
Proof.
  unfold Marker.create, Dom.cloneNode. intros H.
  destruct (doc !! point) as [e|] eqn:He; simpl in H; [|discriminate H].
  set (c := fresh (dom doc)) in *.
  assert (Hc : doc !! c = None).
  { apply not_elem_of_dom. apply is_fresh. }
  open_bind H d2. open_bind H d3. open_bind H rect. open_bind H d4.
  open_bind H d5. open_bind H d6. injection H as <- <-.
  unfold Dom.insertAfter, Marker.setPosition in *. simpl in *.
  assert (K3 : forall k, is_Some (d2 !! k) -> is_Some (d3 !! k)).
  { intros k. destruct (d2 !! point) as [ep|]; simpl in Ed3; [|discriminate].
    destruct (Dom.el_parentNode ep); simpl in Ed3; [|discriminate].
    eapply modify_keeps; exact Ed3. }
  assert (K4 : forall k, is_Some (d3 !! k) -> is_Some (d4 !! k)).
  { intros k. destruct (Dom.getBoundingClientRect d3 point); simpl in Ed4; [|discriminate].
    eapply modify_keeps; exact Ed4. }
  assert (K : forall k, is_Some (<[c := Dom.with_parentNode e None]> doc !! k) ->
                        is_Some (d6 !! k)).
  { intros k Hk. eapply modify_keeps; [exact Ed6|]. eapply modify_keeps; [exact Ed5|].
    apply K4, K3. eapply modify_keeps; [exact Ed2|exact Hk]. }
  exists c. split; [reflexivity|]. split; [exact Hc|].
  split; [apply K; rewrite lookup_insert_eq; eauto|]. split; [eauto|].
  intros k [ek Hk]. apply K. destruct (decide (c = k)) as [<-|Hne].
  - rewrite lookup_insert_eq. eauto.
  - rewrite lookup_insert_ne by exact Hne. eauto.
Qed.

(** A press of the primary button that the handler survives opens a
    session: the target is the dragged element, the marker has a fresh
    element, and both are in the document. *)
Lemma dragstart_opens_session (options : Config.Options) (event : Event.Event)
    (info : Event.Info) (touch : bool) (env env' : Plugin.Env) (st st' : Plugin.State) :
  Event.no_button event = true ->
  Plugin.on_dragstart options event info touch env st = Some (env', st') ->
  exists m,
    Plugin.dragged st' = Some (Event.target (Event.self event)) /\
    Marker.element (Plugin.marker st') = Some m /\
    Marker.reference (Plugin.marker st') = Some (Event.target (Event.self event)) /\
    Plugin.doc env !! m = None /\
    is_Some (Plugin.doc env' !! m) /\
    is_Some (Plugin.doc env' !! Event.target (Event.self event)).
Proof.
  intros Hb. unfold Plugin.on_dragstart. rewrite Hb. intros H.
  open_bind H rect. open_bind H cm. destruct cm as [dm m].
  open_bind H d1. open_bind H d2. injection H as <- <-. simpl.
  destruct (create_inv _ _ _ _ _ Ecm) as (c & -> & Hfresh & Hc & Hp & Hk).
  exists c. split; [reflexivity|]. split; [reflexivity|]. split; [reflexivity|].
  split; [exact Hfresh|].
  split; (eapply modify_keeps; [exact Ed2|]; eapply modify_keeps; [exact Ed1|]).
  - exact Hc.
  - apply Hk. exact Hp.
Qed.

Lemma listener_inv (touch : bool) (selector : option string)
    (callback : Plugin.Callback) (event : Event.Event)
    (env : Plugin.Env) (st : Plugin.State) (r : Plugin.Env * Plugin.State) :
  Plugin.listener touch selector callback event env st = Some r ->
  r = (env, st) \/ exists info, callback event info touch env st = Some r.
Proof.
  unfold Plugin.listener.
  destruct (if touch then last (Event.changedTouches event)
            else Some (Event.self event)) as [i|]; simpl; [|discriminate].
  destruct selector as [[|a s]|]; try (intros H; right; eauto; fail).
  destruct (Dom.has_class _ _ _) as [[|]|]; [| |discriminate].
  - intros H. right. eauto.
  - intros [= <-]. left. reflexivity.
Qed.

Section WhileDragging.
Variable options : Config.Options.
Variables (env : Plugin.Env) (st : Plugin.State) (d : Dom.node).
Hypothesis dragging : Plugin.dragged st = Some d.

(** The highlight handlers stand still during a drag. *)
Lemma mouseout_stands_still touch selector event r :
  Plugin.listener touch selector (Plugin.on_mouseout options) event env st = Some r ->
  r = (env, st).
Proof.
  intros H. destruct (listener_inv _ _ _ _ _ _ _ H) as [E|[info E]]; [exact E|].
  unfold Plugin.on_mouseout in E. rewrite dragging in E. congruence.
Qed.

Lemma mouseover_stands_still touch selector event r :
  Plugin.listener touch selector (Plugin.on_mouseover options) event env st = Some r ->
  r = (env, st).
Proof.
  intros H. destruct (listener_inv _ _ _ _ _ _ _ H) as [E|[info E]]; [exact E|].
  unfold Plugin.on_mouseover in E. rewrite dragging in E. congruence.
Qed.

End WhileDragging.

(** A pointer-move during a drag moves the marker and nothing else:
    the closure state, the chart and the callback record stay, no
    element leaves the document and no element changes its indices. *)
Lemma dragmove_keeps_session (options : Config.Options) (event : Event.Event)
    (info : Event.Info) (touch : bool) (env env' : Plugin.Env)
    (st st' : Plugin.State) (d : Dom.node) :
  Plugin.dragged st = Some d ->
  Plugin.on_dragmove options event info touch env st = Some (env', st') ->
  st' = st /\
  Plugin.chart env' = Plugin.chart env /\
  Plugin.calls env' = Plugin.calls env /\
  Plugin.ct_grids env' = Plugin.ct_grids env /\
  Dom.agree Dom.el_indices (Plugin.doc env) (Plugin.doc env') /\
  Dom.agree Dom.el_parentNode (Plugin.doc env) (Plugin.doc env').
Proof.
  intros Hd. unfold Plugin.on_dragmove. rewrite Hd. intros H.
  open_bind H x. open_bind H y. open_bind H dm.
  assert (A1 : Dom.agree Dom.el_indices (Plugin.doc env) dm /\
               Dom.agree Dom.el_parentNode (Plugin.doc env) dm).
  { unfold Marker.setPosition in Edm.
    open_bind Edm r. open_bind Edm referenceRect. open_bind Edm e.
    split; eapply agree_modify; try exact Edm; intros el; reflexivity. }
  destruct A1 as [Ai Ap].
  destruct (Config.updateWhileDragging options && negb touch).
  - open_bind H delta. open_bind H m. open_bind H dv.
    assert (Av : Dom.agree Dom.el_indices dm dv /\ Dom.agree Dom.el_parentNode dm dv).
    { split; eapply agree_modify; try exact Edv; intros e; reflexivity. }
    destruct Av as [Avi Avp].
    open_bind H r1. destruct r1 as [env1 st1].
    apply (mouseout_stands_still options _ st d Hd) in Er1.
    injection Er1 as E1 E2. subst env1 st1.
    apply (mouseover_stands_still options _ st d Hd) in H.
    injection H as E1 E2. subst env' st'.
    simpl. split; [reflexivity|]. split; [reflexivity|]. split; [reflexivity|].
    split; [reflexivity|]. split; eapply agree_trans; eassumption.
  - injection H as <- <-. simpl. repeat (split; [reflexivity|]).
    split; assumption.
Qed.

(** * Further properties of the code *)

(** ** The class attribute: [split] and [join] *)

Lemma append_empty_l (s : string) : EmptyString +:+ s = s.
Proof. reflexivity. Qed.

Lemma append_String (c : ascii) (s t : string) :
  String c s +:+ t = String c (s +:+ t).
Proof. reflexivity. Qed.

Lemma append_empty_r (s : string) : s +:+ EmptyString = s.
Proof.
  induction s as [|c s IH]; [reflexivity|].
  rewrite append_String, IH. reflexivity.
Qed.

Lemma append_assoc (a b c : string) : (a +:+ b) +:+ c = a +:+ (b +:+ c).
Proof.
  induction a as [|x a IH]; [reflexivity|].
  rewrite !append_String, IH. reflexivity.
Qed.

Lemma split_go_cons (sep : ascii) (s acc : string) :
  exists h t, Js.split_go sep s acc = h :: t.
Proof.
  revert acc. induction s as [|c s IH]; intros acc; simpl.
  - eauto.
  - destruct (Ascii.eqb c sep); [eauto|apply IH].
Qed.

Lemma join_cons (sep x : string) (l : list string) :
  l <> [] -> Js.join sep (x :: l) = x +:+ sep +:+ Js.join sep l.
Proof. destruct l as [|y l]; [congruence|reflexivity]. Qed.

Lemma join_split_go (s acc : string) :
  Js.join " " (Js.split_go " " s acc) = acc +:+ s.
Proof.
  revert acc. induction s as [|c s IH]; intros acc.
  - simpl. rewrite append_empty_r. reflexivity.
  - simpl. destruct (Ascii.eqb_spec c " "%char) as [->|Hne].
    + destruct (split_go_cons " " s EmptyString) as (h & t & E).
      rewrite join_cons by (rewrite E; discriminate).
      rewrite IH, append_empty_l. reflexivity.
    + rewrite IH, append_assoc. reflexivity.
Qed.

(** X1: [s.split(' ').join(' ')] is [s], for every string: reading
    the classes of an element and writing them back unchanged leaves
    the [class] attribute as it was. *)
Theorem join_split_space (s : string) : Js.join " " (Js.split_space s) = s.
Proof. unfold Js.split_space. apply join_split_go. Qed.

Lemma contains_cons_false (sub : string) (c : ascii) (s : string) :
  Js.contains sub (String c s) = false ->
  String.prefix sub (String c s) = false /\ Js.contains sub s = false.
Proof. simpl Js.contains. intros H. apply orb_false_iff in H. exact H. Qed.

Lemma spaceless_head (c : ascii) (s : string) :
  Js.contains " " (String c s) = false ->
  c <> " "%char /\ Js.contains " " s = false.
Proof.
  intros H. apply contains_cons_false in H as [Hp Hc]. split; [|exact Hc].
  intros ->. simpl in Hp. destruct (ascii_dec " " " ") as [_|Hn]; [|congruence].
  destruct s; discriminate Hp.
Qed.

Lemma split_go_space (s acc : string) :
  Js.split_go " " (String " " s) acc = acc :: Js.split_go " " s EmptyString.
Proof. reflexivity. Qed.

Lemma split_go_spaceless_prefix (x s acc : string) :
  Js.contains " " x = false ->
  Js.split_go " " (x +:+ s) acc = Js.split_go " " s (acc +:+ x).
Proof.
  revert acc. induction x as [|c x IH]; intros acc Hx.
  - rewrite append_empty_l, append_empty_r. reflexivity.
  - apply spaceless_head in Hx as [Hc Hx]. rewrite append_String. simpl.
    destruct (Ascii.eqb_spec c " "%char) as [E|_]; [contradiction|].
    rewrite (IH _ Hx), append_assoc. reflexivity.
Qed.

Lemma split_join_spaceless (l : list string) :
  l <> [] ->
  Forall (fun x => Js.contains " " x = false) l ->
  Js.split_space (Js.join " " l) = l.
Proof.
  unfold Js.split_space. intros Hne Hall.
  induction Hall as [|x l Hx Hall IH]; [congruence|].
  destruct l as [|y l].
  - simpl. rewrite <- (append_empty_r x) at 1.
    rewrite (split_go_spaceless_prefix x EmptyString EmptyString Hx). reflexivity.
  - rewrite join_cons by discriminate.
    rewrite (split_go_spaceless_prefix x _ EmptyString Hx).
    rewrite append_String, append_empty_l, split_go_space.
    rewrite IH by discriminate. reflexivity.
Qed.

(** X2: joining class names with spaces and splitting the result gives
    the names back, provided there is at least one name and no name
    holds a space.  (The empty list does not come back: it joins to the
    empty string, which splits to one empty name.) *)
Theorem split_space_join (l : list string) :
  l <> [] ->
  Forall (fun x => Js.contains " " x = false) l ->
  Js.split_space (Js.join " " l) = l.
Proof. apply split_join_spaceless. Qed.

Lemma split_space_join_witness :
  Js.split_space (Js.join " " ["ct-point"; "chartist-drag"])
  = ["ct-point"; "chartist-drag"]
  /\ Js.split_space (Js.join " " []) = [EmptyString].
Proof.
  split; [|reflexivity].
  apply split_space_join; [discriminate|].
  repeat constructor.
Defined.

(** ** Class lists *)

Lemma includes_cons (x y : string) (l : list string) :
  Js.includes x (y :: l) = String.eqb y x || Js.includes x l.
Proof.
  unfold Js.includes. simpl. destruct (String.eqb y x); [reflexivity|].
  destruct (Js.indexOf x l); reflexivity.
Qed.

Lemma includes_nil (x : string) : Js.includes x [] = false.
Proof. reflexivity. Qed.

Lemma includes_app (x : string) (l1 l2 : list string) :
  Js.includes x (l1 ++ l2) = Js.includes x l1 || Js.includes x l2.
Proof.
  induction l1 as [|a l1 IH]; [reflexivity|].
  simpl app. rewrite !includes_cons, IH, orb_assoc. reflexivity.
Qed.

Lemma includes_true_iff (x : string) (l : list string) :
  Js.includes x l = true <-> x ∈ l.
Proof.
  induction l as [|a l IH].
  - rewrite includes_nil. split; [discriminate|]. intros H. inversion H.
  - rewrite includes_cons, orb_true_iff, IH, String.eqb_eq, elem_of_cons.
    split; intros [H|H]; auto.
Qed.

Lemma includes_indexOf (x : string) (l : list string) :
  Js.includes x l = match Js.indexOf x l with Some _ => true | None => false end.
Proof. reflexivity. Qed.

Lemma toggle_one_false_cons (a x : string) (l : list string) :
  Dom.toggle_one false (a :: l) x
  = if String.eqb a x then l else a :: Dom.toggle_one false l x.
Proof.
  unfold Dom.toggle_one. simpl. destruct (String.eqb a x); [reflexivity|].
  destruct (Js.indexOf x l); reflexivity.
Qed.

Lemma toggle_one_true_includes (y x : string) (l : list string) :
  Js.includes y (Dom.toggle_one true l x) = Js.includes y l || String.eqb x y.
Proof.
  unfold Dom.toggle_one. destruct (Js.indexOf x l) as [i|] eqn:E.
  - destruct (String.eqb_spec x y) as [<-|_]; [|rewrite orb_false_r; reflexivity].
    rewrite includes_indexOf, E. reflexivity.
  - rewrite includes_app, includes_cons, includes_nil, orb_false_r. reflexivity.
Qed.

Lemma toggle_all_true_includes (y : string) (names l : list string) :
  Js.includes y (foldl (Dom.toggle_one true) l names)
  = Js.includes y l || Js.includes y names.
Proof.
  revert l. induction names as [|x names IH]; intros l; simpl.
  - rewrite includes_nil, orb_false_r. reflexivity.
  - rewrite IH, toggle_one_true_includes, includes_cons, orb_assoc. reflexivity.
Qed.

Lemma toggle_one_false_includes (x : string) (l : list string) :
  NoDup l ->
  NoDup (Dom.toggle_one false l x) /\
  forall y, Js.includes y (Dom.toggle_one false l x)
            = Js.includes y l && negb (String.eqb x y).
Proof.
  induction 1 as [|a l Ha Hl IH].
  - split; [constructor|reflexivity].
  - rewrite toggle_one_false_cons. destruct IH as [IHn IHi].
    destruct (String.eqb_spec a x) as [->|Hax].
    + split; [exact Hl|]. intros y. rewrite includes_cons.
      destruct (String.eqb_spec x y) as [<-|_]; simpl.
      * apply not_true_is_false. rewrite includes_true_iff. exact Ha.
      * rewrite andb_true_r. reflexivity.
    + split.
      * constructor; [|exact IHn]. intros Hin. apply Ha.
        apply includes_true_iff. apply includes_true_iff in Hin.
        rewrite IHi in Hin. apply andb_true_iff in Hin as [Hin _]. exact Hin.
      * intros y. rewrite !includes_cons, IHi.
        destruct (String.eqb_spec x y) as [<-|_]; simpl.
        -- rewrite !andb_false_r, orb_false_r.
           destruct (String.eqb_spec a x); [contradiction|reflexivity].
        -- rewrite !andb_true_r. reflexivity.
Qed.

Lemma toggle_all_false_includes (names l : list string) :
  NoDup l ->
  NoDup (foldl (Dom.toggle_one false) l names) /\
  forall y, Js.includes y (foldl (Dom.toggle_one false) l names)
            = Js.includes y l && negb (Js.includes y names).
Proof.
  revert l. induction names as [|x names IH]; intros l Hl; simpl.
  - split; [exact Hl|]. intros y. destruct (Js.includes y l); reflexivity.
  - destruct (toggle_one_false_includes x l Hl) as [Hn Hi].
    destruct (IH _ Hn) as [IHn IHi]. split; [exact IHn|].
    intros y. rewrite IHi, Hi, includes_cons, negb_orb, andb_assoc. reflexivity.
Qed.

Lemma toggle_one_fixed (b : bool) (x : string) (l : list string) :
  Js.includes x l = b -> Dom.toggle_one b l x = l.
Proof.
  rewrite includes_indexOf. unfold Dom.toggle_one.
  destruct (Js.indexOf x l), b; intros H; try discriminate H; reflexivity.
Qed.

Lemma toggle_all_fixed (b : bool) (names l : list string) :
  Forall (fun x => Js.includes x l = b) names ->
  foldl (Dom.toggle_one b) l names = l.
Proof.
  induction 1 as [|x names Hx Hall IH]; [reflexivity|].
  simpl. rewrite (toggle_one_fixed b x l Hx). exact IH.
Qed.

Lemma toggle_all_Forall (P : string -> Prop) (b : bool) (names l : list string) :
  Forall P l -> Forall P names -> Forall P (foldl (Dom.toggle_one b) l names).
Proof.
  intros Hl Hn. revert l Hl. induction Hn as [|x names Hx Hn IH]; intros l Hl.
  - exact Hl.
  - simpl. apply IH. unfold Dom.toggle_one.
    destruct (Js.indexOf x l), b; try exact Hl.
    + apply Forall_delete. exact Hl.
    + apply Forall_app. split; [exact Hl|]. constructor; [exact Hx|constructor].
Qed.

Lemma toggle_all_true_cons (names l : list string) :
  l <> [] -> foldl (Dom.toggle_one true) l names <> [].
Proof.
  revert l. induction names as [|x names IH]; intros l Hl; [exact Hl|].
  simpl. apply IH. unfold Dom.toggle_one.
  destruct (Js.indexOf x l); [exact Hl|]. destruct l; discriminate.
Qed.

Lemma contains_unfold (sub : string) (c : ascii) (s : string) :
  Js.contains sub (String c s)
  = String.prefix sub (String c s) || Js.contains sub s.
Proof. reflexivity. Qed.

Lemma prefix_space (c : ascii) (s : string) :
  String.prefix " " (String c s) = Ascii.eqb c " ".
Proof.
  change (String.prefix " " (String c s))
    with (if ascii_dec " " c then String.prefix EmptyString s else false).
  destruct (ascii_dec " " c) as [<-|Hne].
  - destruct s; reflexivity.
  - symmetry. apply Ascii.eqb_neq. congruence.
Qed.

Lemma contains_space_cons (c : ascii) (s : string) :
  Js.contains " " (String c s) = Ascii.eqb c " " || Js.contains " " s.
Proof. rewrite contains_unfold, prefix_space. reflexivity. Qed.

Lemma contains_space_app (a b : string) :
  Js.contains " " (a +:+ b) = Js.contains " " a || Js.contains " " b.
Proof.
  induction a as [|c a IH]; [destruct b; reflexivity|].
  rewrite append_String, !contains_space_cons, IH, orb_assoc. reflexivity.
Qed.

Lemma split_go_spaceless (s acc : string) :
  Js.contains " " acc = false ->
  Forall (fun x => Js.contains " " x = false) (Js.split_go " " s acc).
Proof.
  revert acc. induction s as [|c s IH]; intros acc Hacc; simpl.
  - constructor; [exact Hacc|constructor].
  - destruct (Ascii.eqb_spec c " "%char) as [->|Hne].
    + constructor; [exact Hacc|]. apply IH. reflexivity.
    + apply IH. rewrite contains_space_app, Hacc, contains_space_cons.
      apply Ascii.eqb_neq in Hne. rewrite Hne. reflexivity.
Qed.

Lemma classes_spaceless (e : Dom.Element) :
  Forall (fun x => Js.contains " " x = false) (Dom.classes e).
Proof. apply split_go_spaceless. reflexivity. Qed.

Lemma classes_cons (e : Dom.Element) : Dom.classes e <> [].
Proof.
  unfold Dom.classes, Js.split_space.
  destruct (split_go_cons " " (Dom.el_class e) EmptyString) as (h & t & ->).
  discriminate.
Qed.

Lemma classes_set_classes (e : Dom.Element) (l : list string) :
  l <> [] ->
  Forall (fun x => Js.contains " " x = false) l ->
  Dom.classes (Dom.set_classes e l) = l.
Proof.
  intros Hne Hl. unfold Dom.classes, Dom.set_classes. simpl.
  apply split_join_spaceless; assumption.
Qed.

Lemma includes_set_classes (e : Dom.Element) (l : list string) (y : string) :
  Forall (fun x => Js.contains " " x = false) l ->
  y <> EmptyString ->
  Js.includes y (Dom.classes (Dom.set_classes e l)) = Js.includes y l.
Proof.
  intros Hl Hy. destruct l as [|a l].
  - change (Js.includes y [EmptyString] = Js.includes y []).
    rewrite includes_cons, includes_nil, orb_false_r.
    apply String.eqb_neq. congruence.
  - rewrite classes_set_classes; [reflexivity|discriminate|exact Hl].
Qed.

Lemma toggle_all_false_Forall (P : string -> Prop) (names l : list string) :
  Forall P l -> Forall P (foldl (Dom.toggle_one false) l names).
Proof.
  revert l. induction names as [|x names IH]; intros l Hl; [exact Hl|].
  simpl. apply IH. unfold Dom.toggle_one.
  destruct (Js.indexOf x l); [|exact Hl]. apply Forall_delete. exact Hl.
Qed.

Lemma with_class_same (e : Dom.Element) : Dom.with_class e (Dom.el_class e) = e.
Proof. destruct e. reflexivity. Qed.

Lemma with_class_back (e : Dom.Element) (c : string) :
  Dom.with_class (Dom.with_class e c) (Dom.el_class e) = e.
Proof. destruct e. reflexivity. Qed.

(** X3: [toggleClass(element, true, names...)] succeeds on an element
    of the document; afterwards the element has a class exactly when
    it had it before or it is one of the names (names without spaces),
    and nothing but the [class] attribute of that element has
    changed. *)
Theorem toggleClass_adds (doc : Dom.Document) (n : Dom.node) (e : Dom.Element)
    (names : list string) :
  doc !! n = Some e ->
  Forall (fun x => Js.contains " " x = false) names ->
  exists e',
    Dom.toggleClass doc n true names = Some (<[n := e']> doc) /\
    Dom.with_class e' (Dom.el_class e) = e /\
    forall y, Js.includes y (Dom.classes e')
              = Js.includes y (Dom.classes e) || Js.includes y names.
Proof.
  intros He Hn. unfold Dom.toggleClass. rewrite (modify_lookup _ _ _ _ He).
  eexists. split; [reflexivity|]. split; [apply with_class_back|].
  intros y. rewrite classes_set_classes.
  - apply toggle_all_true_includes.
  - apply toggle_all_true_cons, classes_cons.
  - apply toggle_all_Forall; [apply classes_spaceless|exact Hn].
Qed.

Lemma toggleClass_adds_witness :
  exists e',
    Dom.toggleClass Sample.document 2%nat true ["chartist-drag"; "chartist-drag-highlight"]
    = Some (<[2%nat := e']> Sample.document) /\
    Js.includes "chartist-drag-highlight" (Dom.classes e') = true /\
    Js.includes "ct-point" (Dom.classes e') = true.
Proof.
  destruct (toggleClass_adds Sample.document 2%nat
              (Sample.plain "ct-point" (Some 1%nat) (Sample.box 100 50))
              ["chartist-drag"; "chartist-drag-highlight"] eq_refl)
    as (e' & Hrun & _ & Hcl).
  - repeat constructor.
  - exists e'. split; [exact Hrun|]. rewrite !Hcl. split; reflexivity.
Defined.

(** X4: [toggleClass] on an element that is already as asked (it has
    every class to add, or none of the classes to remove) leaves the
    document exactly as it was, the [class] attribute included. *)
Theorem toggleClass_already (doc : Dom.Document) (n : Dom.node) (e : Dom.Element)
    (enable : bool) (names : list string) :
  doc !! n = Some e ->
  Forall (fun x => Js.includes x (Dom.classes e) = enable) names ->
  Dom.toggleClass doc n enable names = Some doc.
Proof.
  intros He Hn. unfold Dom.toggleClass. rewrite (modify_lookup _ _ _ _ He).
  rewrite (toggle_all_fixed enable names _ Hn).
  unfold Dom.set_classes, Dom.classes, Js.split_space.
  rewrite join_split_go, append_empty_l, with_class_same.
  rewrite (insert_id doc n e He). reflexivity.
Qed.

Lemma toggleClass_already_witness :
  Dom.toggleClass Sample.mid_document 2%nat true ["chartist-drag"; "ct-point"]
  = Some Sample.mid_document
  /\ Dom.toggleClass Sample.mid_document 3%nat false ["chartist-drag-highlight"]
     = Some Sample.mid_document.
Proof.
  split.
  - apply (toggleClass_already Sample.mid_document 2%nat
             (Dom.mkElement "ct-point chartist-drag chartist-drag-source"
                (Some (0%nat, 0%nat)) None None false (Some 1%nat) (Sample.box 100 50))
             true); [reflexivity|].
    repeat constructor.
  - apply (toggleClass_already Sample.mid_document 3%nat
             (Dom.mkElement "ct-point" (Some (0%nat, 1%nat)) None None false
                (Some 1%nat) (Sample.box 200 80))
             false); [reflexivity|].
    repeat constructor.
Defined.

(** X5: [toggleClass(element, false, names...)] on an element whose
    class list has no duplicate: afterwards the element has a
    (non-empty) class exactly when it had it before and it is none of
    the names; nothing but the [class] attribute of that element has
    changed. *)
Theorem toggleClass_removes (doc : Dom.Document) (n : Dom.node) (e : Dom.Element)
    (names : list string) :
  doc !! n = Some e ->
  NoDup (Dom.classes e) ->
  exists e',
    Dom.toggleClass doc n false names = Some (<[n := e']> doc) /\
    Dom.with_class e' (Dom.el_class e) = e /\
    forall y, y <> EmptyString ->
      Js.includes y (Dom.classes e')
      = Js.includes y (Dom.classes e) && negb (Js.includes y names).
Proof.
  intros He Hnd. unfold Dom.toggleClass. rewrite (modify_lookup _ _ _ _ He).
  eexists. split; [reflexivity|]. split; [apply with_class_back|].
  intros y Hy. rewrite includes_set_classes.
  - apply (toggle_all_false_includes names _ Hnd).
  - apply toggle_all_false_Forall, classes_spaceless.
  - exact Hy.
Qed.

Lemma toggleClass_removes_witness :
  exists e',
    Dom.toggleClass Sample.mid_document 2%nat false
      ["chartist-drag"; "chartist-drag-source"]
    = Some (<[2%nat := e']> Sample.mid_document) /\
    Js.includes "chartist-drag-source" (Dom.classes e') = false /\
    Js.includes "ct-point" (Dom.classes e') = true.
Proof.
  destruct (toggleClass_removes Sample.mid_document 2%nat
              (Dom.mkElement "ct-point chartist-drag chartist-drag-source"
                 (Some (0%nat, 0%nat)) None None false (Some 1%nat) (Sample.box 100 50))
              ["chartist-drag"; "chartist-drag-source"] eq_refl)
    as (e' & Hrun & _ & Hcl).
  - apply (bool_decide_unpack (NoDup _)). vm_compute. exact I.
  - exists e'. split; [exact Hrun|].
    rewrite !Hcl by discriminate. split; reflexivity.
Defined.

(** ** The data behind a point *)

Lemma pointData_unfold (doc : Dom.Document) (ch : Chart.Chart) (n : Dom.node)
    (e : Dom.Element) (i j : nat) :
  doc !! n = Some e -> Dom.el_indices e = Some (i, j) ->
  Chart.pointData doc ch n
  = (s ← Chart.series ch !! i; Some (Js.array_get j (Chart.data s))).
Proof. intros He Hi. unfold Chart.pointData. rewrite He. simpl. rewrite Hi. reflexivity. Qed.

(** X6: reading and writing the data of a point fail in the same
    cases, and only in these: the element is not in the document, it
    carries no index attribute, or its series index is past the end of
    [chart.data.series].  A point index past the end of the series is
    no failure: the read gives [undefined]. *)
Theorem pointData_defined (doc : Dom.Document) (ch : Chart.Chart) (n : Dom.node)
    (v : Chart.DataPoint) :
  (is_Some (Chart.pointData doc ch n) <->
   exists e i j, doc !! n = Some e /\ Dom.el_indices e = Some (i, j) /\
                 (i < length (Chart.series ch))%nat) /\
  (is_Some (Chart.pointData_set doc ch n v) <-> is_Some (Chart.pointData doc ch n)).
Proof.
  unfold Chart.pointData, Chart.pointData_set.
  destruct (doc !! n) as [e|]; simpl.
  2: { split; split; intros H; try (destruct H as [x H]; discriminate H).
       destruct H as (e & i & j & H & _). discriminate H. }
  destruct (Dom.el_indices e) as [[i j]|] eqn:Hi; simpl.
  2: { split; split; intros H; try (destruct H as [x H]; discriminate H).
       destruct H as (e' & i & j & [= <-] & H & _). congruence. }
  destruct (Chart.series ch !! i) as [s|] eqn:Hs; simpl.
  - split; split; intros _; eauto.
    exists e, i, j. split; [reflexivity|]. split; [exact Hi|].
    eapply lookup_lt_Some. exact Hs.
  - split; split; intros H; try (destruct H as [x H]; discriminate H).
    destruct H as (e' & i' & j' & [= <-] & Hi' & Hlt).
    assert (i' = i) as -> by congruence.
    apply lookup_ge_None in Hs. lia.
Qed.

Lemma pointData_defined_witness :
  is_Some (Chart.pointData_set Sample.mid_document Sample.line_chart 3%nat
             (Sample.point 1 2 "c")).
Proof.
  apply (proj2 (pointData_defined Sample.mid_document Sample.line_chart 3%nat
                  (Sample.point 1 2 "c"))).
  apply (proj1 (pointData_defined Sample.mid_document Sample.line_chart 3%nat
                  (Sample.point 1 2 "c"))).
  exists (Dom.mkElement "ct-point" (Some (0%nat, 1%nat)) None None false
            (Some 1%nat) (Sample.box 200 80)), 0%nat, 1%nat.
  split; [reflexivity|]. split; [reflexivity|]. vm_compute. lia.
Defined.

(** X7: wherever the data of a point can be read it can be written;
    the written value is what is read back, and the write requests no
    re-render. *)
Theorem pointData_write_read (doc : Dom.Document) (ch : Chart.Chart) (n : Dom.node)
    (slot : option Chart.DataPoint) (v : Chart.DataPoint) :
  Chart.pointData doc ch n = Some slot ->
  exists ch',
    Chart.pointData_set doc ch n v = Some ch' /\
    Chart.pointData doc ch' n = Some (Some v) /\
    Chart.updates ch' = Chart.updates ch /\
    length (Chart.series ch') = length (Chart.series ch).
Proof.
  intros H. destruct (pointData_set_ok doc ch n slot v H) as (ch' & Hset & Hget & Hup & _).
  exists ch'. split; [exact Hset|]. split; [exact Hget|]. split; [exact Hup|].
  unfold Chart.pointData_set in Hset.
  destruct (doc !! n) as [e|]; simpl in Hset; [|discriminate].
  destruct (Dom.el_indices e) as [ij|]; simpl in Hset; [|discriminate].
  destruct (Chart.series ch !! ij.1) as [s|]; simpl in Hset; [|discriminate].
  injection Hset as <-. simpl. apply length_insert.
Qed.

Lemma pointData_write_read_witness :
  exists ch',
    Chart.pointData_set Sample.mid_document Sample.line_chart 3%nat
      (Sample.point 1 2 "c") = Some ch' /\
    Chart.pointData Sample.mid_document ch' 3%nat = Some (Some (Sample.point 1 2 "c")) /\
    Chart.updates ch' = 0%nat /\
    length (Chart.series ch') = 1%nat.
Proof.
  apply (pointData_write_read Sample.mid_document Sample.line_chart 3%nat
           (Some (Sample.point 14 17 "b")) (Sample.point 1 2 "c")).
  reflexivity.
Defined.

(** X8: writing the data of one point leaves the data of every
    element tagged with other indices as it was. *)
Theorem pointData_write_other (doc : Dom.Document) (ch ch' : Chart.Chart)
    (n n' : Dom.node) (e e' : Dom.Element) (v : Chart.DataPoint) :
  doc !! n = Some e ->
  doc !! n' = Some e' ->
  Dom.el_indices e' <> Dom.el_indices e ->
  Chart.pointData_set doc ch n v = Some ch' ->
  Chart.pointData doc ch' n' = Chart.pointData doc ch n'.
Proof.
  intros He He' Hne Hset. unfold Chart.pointData_set in Hset. unfold Chart.pointData.
  rewrite He in Hset. rewrite He'. simpl in *.
  destruct (Dom.el_indices e) as [[i j]|]; simpl in Hset; [|discriminate].
  destruct (Chart.series ch !! i) as [s|] eqn:Hs; simpl in Hset; [|discriminate].
  injection Hset as <-. simpl.
  destruct (Dom.el_indices e') as [[i' j']|]; simpl; [|reflexivity].
  destruct (decide (i = i')) as [<-|Hi].
  - rewrite list_lookup_insert_eq by (eapply lookup_lt_Some; exact Hs).
    rewrite Hs. simpl. rewrite array_get_set_ne by congruence. reflexivity.
  - rewrite list_lookup_insert_ne by exact Hi. reflexivity.
Qed.

Lemma pointData_write_other_witness :
  match Chart.pointData_set Sample.mid_document Sample.line_chart 3%nat
          (Sample.point 1 2 "c") with
  | Some ch' =>
      Chart.pointData Sample.mid_document ch' 2%nat
      = Chart.pointData Sample.mid_document Sample.line_chart 2%nat
  | None => False
  end.
Proof.
  destruct (Chart.pointData_set Sample.mid_document Sample.line_chart 3%nat
              (Sample.point 1 2 "c")) as [ch'|] eqn:H; [|discriminate H].
  apply (pointData_write_other Sample.mid_document Sample.line_chart ch' 3%nat 2%nat
           (Dom.mkElement "ct-point" (Some (0%nat, 1%nat)) None None false
              (Some 1%nat) (Sample.box 200 80))
           (Dom.mkElement "ct-point chartist-drag chartist-drag-source"
              (Some (0%nat, 0%nat)) None None false (Some 1%nat) (Sample.box 100 50))
           (Sample.point 1 2 "c")).
  - reflexivity.
  - reflexivity.
  - discriminate.
  - exact H.
Defined.

(** ** Render notifications, again *)

Lemma same_object_refl (a : Geometry.Axis) : Geometry.same_object a a = true.
Proof. apply Nat.eqb_refl. Qed.

Lemma on_draw_point (data : Plugin.DrawData) (env : Plugin.Env) (st : Plugin.State)
    (e : Dom.Element) :
  Plugin.type data = "point" ->
  Plugin.doc env !! Plugin.d_element data = Some e ->
  Plugin.on_draw data env st
  = Some (Plugin.with_doc env
            (<[Plugin.d_element data :=
                 Dom.with_indices e (Some (Plugin.seriesIndex data, Plugin.index data))]>
               (Plugin.doc env)),
          Plugin.mkState (Plugin.marker st)
            (if Plugin.axes_differ data (Plugin.converter st)
             then Some (Geometry.createConverter (Plugin.d_axisX data) (Plugin.d_axisY data))
             else Plugin.converter st)
            (Plugin.highlighted st) (Plugin.dragged st) (Plugin.offset st)).
Proof.
  intros Hty He. unfold Plugin.on_draw. rewrite Hty. simpl.
  rewrite (modify_lookup _ _ _ _ He). reflexivity.
Qed.

(** X9: after the [draw] notification of a point, the data of the
    drawn element is the slot of [chart.data.series] the notification
    names: series [seriesIndex], point [index].  The chart itself and
    the index attributes of all other elements are as before. *)
Theorem draw_tags_point (data : Plugin.DrawData) (env : Plugin.Env)
    (st : Plugin.State) (e : Dom.Element) :
  Plugin.type data = "point" ->
  Plugin.doc env !! Plugin.d_element data = Some e ->
  exists env' st',
    Plugin.on_draw data env st = Some (env', st') /\
    Plugin.chart env' = Plugin.chart env /\
    Chart.pointData (Plugin.doc env') (Plugin.chart env') (Plugin.d_element data)
    = (s ← Chart.series (Plugin.chart env) !! Plugin.seriesIndex data;
       Some (Js.array_get (Plugin.index data) (Chart.data s))) /\
    forall n, n <> Plugin.d_element data ->
      Plugin.doc env' !! n = Plugin.doc env !! n.
Proof.
  intros Hty He. rewrite (on_draw_point data env st e Hty He).
  eexists _, _. split; [reflexivity|]. simpl. split; [reflexivity|]. split.
  - erewrite pointData_unfold; [reflexivity|apply lookup_insert_eq|reflexivity].
  - intros n Hn. apply lookup_insert_ne. congruence.
Qed.

Lemma draw_tags_point_witness :
  exists env' st',
    Plugin.on_draw (Plugin.mkDrawData "point" 3%nat 0%nat 0%nat
                      Sample.axis_x Sample.axis_y)
      Sample.mid_env Sample.mid_state = Some (env', st') /\
    Plugin.chart env' = Sample.line_chart /\
    Chart.pointData (Plugin.doc env') (Plugin.chart env') 3%nat
    = Some (Some (Sample.point 12 15 "a")) /\
    forall n, n <> 3%nat -> Plugin.doc env' !! n = Sample.mid_document !! n.
Proof.
  exact (draw_tags_point
           (Plugin.mkDrawData "point" 3%nat 0%nat 0%nat Sample.axis_x Sample.axis_y)
           Sample.mid_env Sample.mid_state
           (Dom.mkElement "ct-point" (Some (0%nat, 1%nat)) None None false
              (Some 1%nat) (Sample.box 200 80))
           eq_refl eq_refl).
Defined.

(** X10: the [draw] callback is idempotent, and once it has handled
    the notification of a point the converter holds the very axis
    objects of that notification: the same notification again changes
    neither the document nor the closure state. *)
Theorem draw_twice (data : Plugin.DrawData) (env env' : Plugin.Env)
    (st st' : Plugin.State) :
  Plugin.on_draw data env st = Some (env', st') ->
  Plugin.on_draw data env' st' = Some (env', st') /\
  (Plugin.type data = "point" ->
   Plugin.axes_differ data (Plugin.converter st') = false).
Proof.
  intros H.
  destruct (String.eqb_spec (Plugin.type data) "point") as [Hty|Hty].
  - assert (exists e, Plugin.doc env !! Plugin.d_element data = Some e) as [e He].
    { unfold Plugin.on_draw in H. rewrite Hty in H. simpl in H.
      destruct (Dom.modify _ _ _) as [d|] eqn:Hd; simpl in H; [|discriminate].
      apply modify_inv in Hd as (e & He & _). eauto. }
    rewrite (on_draw_point data env st e Hty He) in H. injection H as <- <-.
    assert (Hsame : Plugin.axes_differ data
                      (if Plugin.axes_differ data (Plugin.converter st)
                       then Some (Geometry.createConverter (Plugin.d_axisX data)
                                    (Plugin.d_axisY data))
                       else Plugin.converter st) = false).
    { destruct (Plugin.axes_differ data (Plugin.converter st)) eqn:Hdiff; [|exact Hdiff].
      simpl. rewrite !same_object_refl. reflexivity. }
    split; [|intros _; exact Hsame].
    erewrite on_draw_point; [|exact Hty|apply lookup_insert_eq].
    simpl. rewrite Hsame, insert_insert_eq. reflexivity.
  - assert (E : Plugin.on_draw data env st = Some (env, st)).
    { unfold Plugin.on_draw. destruct (String.eqb_spec (Plugin.type data) "point");
        [contradiction|reflexivity]. }
    rewrite E in H. injection H as <- <-. split; [exact E|]. intros Hp. contradiction.
Qed.

Lemma draw_twice_witness :
  Plugin.on_draw (Plugin.mkDrawData "point" 3%nat 0%nat 1%nat
                    Sample.axis_x Sample.axis_y)
    (Plugin.mkEnv
       (<[3%nat := Dom.mkElement "ct-point" (Some (0%nat, 1%nat)) None None
                     false (Some 1%nat) (Sample.box 200 80)]> Sample.document)
       Sample.line_chart [4%nat] [])
    (Plugin.mkState Marker.createMarker (Some Sample.converter) None None None)
  = Some (Plugin.mkEnv
            (<[3%nat := Dom.mkElement "ct-point" (Some (0%nat, 1%nat)) None None
                          false (Some 1%nat) (Sample.box 200 80)]> Sample.document)
            Sample.line_chart [4%nat] [],
          Plugin.mkState Marker.createMarker (Some Sample.converter) None None None).
Proof.
  apply (draw_twice (Plugin.mkDrawData "point" 3%nat 0%nat 1%nat
                       Sample.axis_x Sample.axis_y)
           (Plugin.mkEnv Sample.document Sample.line_chart [4%nat] [])
           _ Plugin.initial _).
  reflexivity.
Defined.

(** ** The marker, created and moved *)

Lemma with_transform_twice (e : Dom.Element) (t t' : option (Q * Q)) :
  Dom.with_transform (Dom.with_transform e t) t' = Dom.with_transform e t'.
Proof. reflexivity. Qed.

Lemma rect_other (doc : Dom.Document) (n k : Dom.node) (e : Dom.Element) :
  n <> k ->
  Dom.getBoundingClientRect (<[n := e]> doc) k = Dom.getBoundingClientRect doc k.
Proof.
  intros Hne. unfold Dom.getBoundingClientRect.
  rewrite lookup_insert_ne by exact Hne. reflexivity.
Qed.

Lemma setPosition_unfold (doc : Dom.Document) (m : Marker.Marker)
    (e r : Dom.node) (ee : Dom.Element) (rect : Geometry.Rect) (x y : Q) :
  Marker.element m = Some e ->
  Marker.reference m = Some r ->
  Dom.getBoundingClientRect doc r = Some rect ->
  doc !! e = Some ee ->
  Marker.setPosition doc m x y
  = Some (<[e := Dom.with_transform ee
                   (Some (x - Geometry.left rect, y - Geometry.top rect)%Q)]> doc).
Proof.
  intros He Hr Hrect Hee. unfold Marker.setPosition.
  rewrite Hr. simpl. rewrite Hrect. simpl. rewrite He. simpl.
  rewrite (modify_lookup _ _ _ _ Hee). reflexivity.
Qed.

(** X12: [setPosition] measures against the reference, never against
    the marker's own element: with the two distinct, a second call
    overrides the first, so that the position set last is the same
    whatever was set before. *)
Theorem setPosition_overrides (doc doc1 : Dom.Document) (m : Marker.Marker)
    (e r : Dom.node) (x y x' y' : Q) :
  Marker.element m = Some e ->
  Marker.reference m = Some r ->
  e <> r ->
  Marker.setPosition doc m x y = Some doc1 ->
  Marker.setPosition doc1 m x' y' = Marker.setPosition doc m x' y' /\
  is_Some (Marker.setPosition doc m x' y').
Proof.
  intros He Hr Hne H1.
  assert (exists rect ee, Dom.getBoundingClientRect doc r = Some rect /\
                          doc !! e = Some ee) as (rect & ee & Hrect & Hee).
  { unfold Marker.setPosition in H1. rewrite Hr in H1. simpl in H1.
    destruct (Dom.getBoundingClientRect doc r) as [rect|]; simpl in H1; [|discriminate].
    rewrite He in H1. simpl in H1. apply modify_inv in H1 as (ee & Hee & _). eauto. }
  rewrite (setPosition_unfold doc m e r ee rect x y He Hr Hrect Hee) in H1.
  injection H1 as <-.
  rewrite (setPosition_unfold doc m e r ee rect x' y' He Hr Hrect Hee).
  split; [|eauto].
  erewrite setPosition_unfold;
    [|exact He|exact Hr|rewrite rect_other by exact Hne; exact Hrect
     |apply lookup_insert_eq].
  rewrite with_transform_twice, insert_insert_eq. reflexivity.
Qed.

Lemma setPosition_overrides_witness :
  Marker.setPosition
    (default Sample.mid_document
       (Marker.setPosition Sample.mid_document (Plugin.marker Sample.mid_state) 100 50))
    (Plugin.marker Sample.mid_state) 135 45
  = Marker.setPosition Sample.mid_document (Plugin.marker Sample.mid_state) 135 45.
Proof.
  apply (setPosition_overrides Sample.mid_document _ (Plugin.marker Sample.mid_state)
           5%nat 2%nat 100 50 135 45 eq_refl eq_refl).
  - discriminate.
  - vm_compute. reflexivity.
Defined.

Lemma modify_inserted (doc : Dom.Document) (n : Dom.node) (e : Dom.Element)
    (f : Dom.Element -> Dom.Element) :
  Dom.modify (<[n := e]> doc) n f = Some (<[n := f e]> doc).
Proof.
  rewrite (modify_lookup _ _ _ _ (lookup_insert_eq doc n e)).
  rewrite insert_insert_eq. reflexivity.
Qed.

Lemma toggleClass_inserted (doc : Dom.Document) (n : Dom.node) (e : Dom.Element)
    (b : bool) (names : list string) :
  Dom.toggleClass (<[n := e]> doc) n b names
  = Some (<[n := Dom.set_classes e (foldl (Dom.toggle_one b) (Dom.classes e) names)]> doc).
Proof. apply modify_inserted. Qed.

Lemma includes_after_adding (e : Dom.Element) (names : list string) (y : string) :
  Forall (fun x => Js.contains " " x = false) names ->
  Js.includes y names = true ->
  Js.includes y
    (Dom.classes (Dom.set_classes e (foldl (Dom.toggle_one true) (Dom.classes e) names)))
  = true.
Proof.
  intros Hn Hy. rewrite classes_set_classes.
  - rewrite toggle_all_true_includes, Hy. apply orb_true_r.
  - apply toggle_all_true_cons, classes_cons.
  - apply toggle_all_Forall; [apply classes_spaceless|exact Hn].
Qed.

(** X13: [marker.create(point)] on a point of the document that has a
    parent succeeds.  The marker refers to the point and owns a new
    element, a copy of the point under the same parent with the same
    index attribute and layout box, closed to pointer events, carrying
    the common and the destination class, and translated by the
    reference's position minus itself, that is by nothing.  No other
    element of the document changes. *)
Theorem create_clones (options : Config.Options) (doc : Dom.Document)
    (point p : Dom.node) (e : Dom.Element) (r : Geometry.Rect) :
  doc !! point = Some e ->
  Dom.el_parentNode e = Some p ->
  Dom.getBoundingClientRect doc point = Some r ->
  Js.contains " " (Config.commonClass options) = false ->
  Js.contains " " (Config.destinationClass options) = false ->
  exists doc' ec,
    Marker.create options doc point
    = Some (doc', Marker.mkMarker (Some (fresh (dom doc))) (Some point)) /\
    doc !! fresh (dom doc) = None /\
    doc' !! fresh (dom doc) = Some ec /\
    Dom.el_parentNode ec = Some p /\
    Dom.el_indices ec = Dom.el_indices e /\
    Dom.el_box ec = Dom.el_box e /\
    Dom.el_pointerEvents_none ec = true /\
    Dom.el_transform ec
    = Some (Geometry.left r - Geometry.left r, Geometry.top r - Geometry.top r)%Q /\
    Js.includes (Config.commonClass options) (Dom.classes ec) = true /\
    Js.includes (Config.destinationClass options) (Dom.classes ec) = true /\
    forall n, n <> fresh (dom doc) -> doc' !! n = doc !! n.
Proof.
  intros He Hp Hr Hcs Hds.
  assert (Hc : doc !! fresh (dom doc) = None).
  { apply not_elem_of_dom. apply is_fresh. }
  assert (Hne : fresh (dom doc) <> point) by congruence.
  unfold Marker.create, Dom.cloneNode. rewrite He. simpl.
  set (c := fresh (dom doc)) in *.
  rewrite modify_inserted. simpl.
  unfold Dom.insertAfter. rewrite lookup_insert_ne by exact Hne.
  rewrite He. simpl. rewrite Hp. simpl.
  rewrite modify_inserted. simpl.
  rewrite rect_other by exact Hne. rewrite Hr. simpl.
  erewrite setPosition_unfold;
    [|reflexivity|reflexivity|rewrite rect_other by exact Hne; exact Hr
     |apply lookup_insert_eq].
  simpl. rewrite insert_insert_eq.
  rewrite toggleClass_inserted. simpl. rewrite toggleClass_inserted. simpl.
  eexists _, _. split; [reflexivity|]. split; [exact Hc|].
  split; [apply lookup_insert_eq|].
  split; [reflexivity|]. split; [reflexivity|]. split; [reflexivity|].
  split; [reflexivity|]. split; [reflexivity|].
  assert (Hs : Forall (fun x => Js.contains " " x = false)
                 [Config.commonClass options; Config.destinationClass options]).
  { constructor; [exact Hcs|]. constructor; [exact Hds|constructor]. }
  split; [apply (includes_after_adding _ _ _ Hs);
          rewrite includes_cons, String.eqb_refl; reflexivity|].
  split; [apply (includes_after_adding _ _ _ Hs);
          rewrite !includes_cons, String.eqb_refl; apply orb_true_r|].
  intros n Hn. apply lookup_insert_ne. congruence.
Qed.

Lemma create_clones_witness :
  exists doc' ec,
    Marker.create (Config.initialize Sample.options_xy) Sample.document 2%nat
    = Some (doc', Marker.mkMarker (Some 5%nat) (Some 2%nat)) /\
    doc' !! 5%nat = Some ec /\
    Dom.el_parentNode ec = Some 1%nat /\
    Dom.el_indices ec = None /\
    Js.includes "chartist-drag-destination" (Dom.classes ec) = true.
Proof.
  destruct (create_clones (Config.initialize Sample.options_xy) Sample.document
              2%nat 1%nat (Sample.plain "ct-point" (Some 1%nat) (Sample.box 100 50))
              (Sample.box 100 50) eq_refl eq_refl eq_refl eq_refl eq_refl)
    as (doc' & ec & Hrun & _ & Hec & Hp & Hi & _ & _ & _ & _ & Hd & _).
  exists doc', ec. split; [exact Hrun|]. split; [exact Hec|].
  split; [exact Hp|]. split; [exact Hi|exact Hd].
Defined.

(** ** The marker under the pointer *)

Lemma rect_agree (doc doc' : Dom.Document) (n : Dom.node) :
  Dom.agree (fun e => (Dom.el_box e, Dom.el_transform e)) doc doc' ->
  Dom.getBoundingClientRect doc' n = Dom.getBoundingClientRect doc n.
Proof.
  intros Ha. specialize (Ha n). unfold Dom.getBoundingClientRect.
  destruct (doc !! n) as [e|], (doc' !! n) as [e'|]; simpl in *;
    try discriminate; [|reflexivity].
  injection Ha as -> ->. reflexivity.
Qed.

Lemma setPosition_inv (doc doc' : Dom.Document) (m : Marker.Marker) (x y : Q) :
  Marker.setPosition doc m x y = Some doc' ->
  exists e r ee rect,
    Marker.element m = Some e /\ Marker.reference m = Some r /\
    doc !! e = Some ee /\ Dom.getBoundingClientRect doc r = Some rect.
Proof.
  unfold Marker.setPosition. intros H.
  destruct (Marker.reference m) as [r|]; simpl in H; [|discriminate].
  destruct (Dom.getBoundingClientRect doc r) as [rect|] eqn:Hrect;
    simpl in H; [|discriminate].
  destruct (Marker.element m) as [e|]; simpl in H; [|discriminate].
  apply modify_inv in H as (ee & Hee & _). exists e, r, ee, rect.
  split; [reflexivity|]. split; [reflexivity|]. split; [exact Hee|exact Hrect].
Qed.

(** The transform a pointer-move writes on the marker, as the
    expression the handler and [setPosition] evaluate. *)
Lemma dragmove_marker_exact (options : Config.Options) (event : Event.Event)
    (info : Event.Info) (touch : bool) (env env' : Plugin.Env)
    (st st' : Plugin.State) (d m : Dom.node) (ox oy : Q) (r : Geometry.Rect) :
  Plugin.dragged st = Some d ->
  Plugin.marker st = Marker.mkMarker (Some m) (Some d) ->
  m <> d ->
  Plugin.offset st = Some (ox, oy) ->
  Dom.getBoundingClientRect (Plugin.doc env) d = Some r ->
  Plugin.on_dragmove options event info touch env st = Some (env', st') ->
  Plugin.doc env' !! d = Plugin.doc env !! d /\
  exists em,
    Plugin.doc env' !! m = Some em /\
    Dom.el_transform em
    = Some ((if Config.axisX options
             then Event.clientX info + ox else Geometry.left r) - Geometry.left r,
            (if Config.axisY options
             then Event.clientY info + oy else Geometry.top r) - Geometry.top r)%Q.
Proof.
  intros Hd Hm Hne Hoff Hr H.
  unfold Plugin.on_dragmove in H. rewrite Hd, Hoff, Hr in H. simpl in H.
  set (x := if Config.axisX options
            then (Event.clientX info + ox)%Q else Geometry.left r) in *.
  set (y := if Config.axisY options
            then (Event.clientY info + oy)%Q else Geometry.top r) in *.
  assert (Hx : (if Config.axisX options
                then Some (Event.clientX info + ox)%Q else Some (Geometry.left r))
               = Some x) by (unfold x; destruct (Config.axisX options); reflexivity).
  assert (Hy : (if Config.axisY options
                then Some (Event.clientY info + oy)%Q else Some (Geometry.top r))
               = Some y) by (unfold y; destruct (Config.axisY options); reflexivity).
  rewrite Hx, Hy in H. simpl in H.
  open_bind H dm.
  destruct (setPosition_inv _ _ _ _ _ Edm) as (e0 & r0 & em & rect & He0 & Hr0 & Hem & _).
  rewrite Hm in He0, Hr0. simpl in He0, Hr0.
  injection He0 as <-. injection Hr0 as <-.
  rewrite (setPosition_unfold _ _ m d em r x y) in Edm;
    [|rewrite Hm; reflexivity|rewrite Hm; reflexivity|exact Hr|exact Hem].
  injection Edm as <-.
  destruct (Config.updateWhileDragging options && negb touch).
  - open_bind H delta. rewrite Hm in H. simpl in H.
    rewrite modify_inserted in H. simpl in H.
    open_bind H r1. destruct r1 as [env1 st1].
    apply (mouseout_stands_still options _ st d Hd) in Er1.
    injection Er1 as E1 E2. subst env1 st1.
    apply (mouseover_stands_still options _ st d Hd) in H.
    injection H as E1 E2. subst env' st'. simpl.
    split; [apply lookup_insert_ne; exact Hne|].
    eexists. split; [apply lookup_insert_eq|reflexivity].
  - injection H as <- <-. simpl.
    split; [apply lookup_insert_ne; exact Hne|].
    eexists. split; [apply lookup_insert_eq|reflexivity].
Qed.

Lemma dragmove_marker_transform (options : Config.Options) (event : Event.Event)
    (info : Event.Info) (touch : bool) (env env' : Plugin.Env)
    (st st' : Plugin.State) (d m : Dom.node) (ox oy : Q) (r : Geometry.Rect) :
  Plugin.dragged st = Some d ->
  Plugin.marker st = Marker.mkMarker (Some m) (Some d) ->
  m <> d ->
  Plugin.offset st = Some (ox, oy) ->
  Dom.getBoundingClientRect (Plugin.doc env) d = Some r ->
  Plugin.on_dragmove options event info touch env st = Some (env', st') ->
  Plugin.doc env' !! d = Plugin.doc env !! d /\
  exists em tx ty,
    Plugin.doc env' !! m = Some em /\
    Dom.el_transform em = Some (tx, ty) /\
    (tx == if Config.axisX options
           then Event.clientX info + ox - Geometry.left r else 0)%Q /\
    (ty == if Config.axisY options
           then Event.clientY info + oy - Geometry.top r else 0)%Q.
Proof.
  intros Hd Hm Hne Hoff Hr H.
  destruct (dragmove_marker_exact _ _ _ _ _ _ _ _ _ _ _ _ _ Hd Hm Hne Hoff Hr H)
    as (Hkeep & em & Hem & Ht).
  split; [exact Hkeep|].
  eexists em, _, _. split; [exact Hem|]. split; [exact Ht|].
  split; [destruct (Config.axisX options); ring|destruct (Config.axisY options); ring].
Qed.

(** X14: a pointer-move during a drag leaves the marker translated by
    the pointer position plus the grab offset minus the position of
    the dragged element on every enabled axis, and by nothing on a
    disabled axis; the dragged element itself is not touched. *)
Theorem dragmove_places_marker (options : Config.Options) (event : Event.Event)
    (info : Event.Info) (touch : bool) (env env' : Plugin.Env)
    (st st' : Plugin.State) (d m : Dom.node) (ox oy : Q) (r : Geometry.Rect) :
  Plugin.dragged st = Some d ->
  Plugin.marker st = Marker.mkMarker (Some m) (Some d) ->
  m <> d ->
  Plugin.offset st = Some (ox, oy) ->
  Dom.getBoundingClientRect (Plugin.doc env) d = Some r ->
  Plugin.on_dragmove options event info touch env st = Some (env', st') ->
  Plugin.doc env' !! d = Plugin.doc env !! d /\
  exists em tx ty,
    Plugin.doc env' !! m = Some em /\
    Dom.el_transform em = Some (tx, ty) /\
    (tx == if Config.axisX options
           then Event.clientX info + ox - Geometry.left r else 0)%Q /\
    (ty == if Config.axisY options
           then Event.clientY info + oy - Geometry.top r else 0)%Q.
Proof. apply dragmove_marker_transform. Qed.

Lemma dragmove_places_marker_witness :
  exists em tx ty,
    Plugin.doc Sample.mid_env !! 5%nat = Some em /\
    Dom.el_transform em = Some (tx, ty) /\
    (tx == 30)%Q /\ (ty == -10)%Q.
Proof.
  destruct (dragmove_places_marker (Config.initialize Sample.options_xy)
              (Sample.mouse 2%nat 135 45) (Event.mkInfo 2%nat 135 45) false
              (fst Sample.pressed) Sample.mid_env (snd Sample.pressed) Sample.mid_state
              2%nat 5%nat (-5) (-5) (Sample.box 100 50))
    as (_ & em & tx & ty & Hem & Ht & Hx & Hy); try (vm_compute; reflexivity).
  - discriminate.
  - exists em, tx, ty. split; [exact Hem|]. split; [exact Ht|].
    split; [rewrite Hx; reflexivity|rewrite Hy; reflexivity].
Defined.

Lemma modify_other (doc doc' : Dom.Document) (n k : Dom.node) f :
  Dom.modify doc n f = Some doc' -> k <> n -> doc' !! k = doc !! k.
Proof.
  intros H Hne. apply modify_inv in H as (e & _ & ->).
  apply lookup_insert_ne. congruence.
Qed.

Lemma create_frame (options : Config.Options) (doc doc' : Dom.Document)
    (point : Dom.node) (m : Marker.Marker) :
  Marker.create options doc point = Some (doc', m) ->
  m = Marker.mkMarker (Some (fresh (dom doc))) (Some point) /\
  forall n, n <> fresh (dom doc) -> doc' !! n = doc !! n.
Proof.
  unfold Marker.create, Dom.cloneNode. intros H.
  destruct (doc !! point) as [e|] eqn:He; simpl in H; [|discriminate H].
  set (c := fresh (dom doc)) in *.
  open_bind H d2. open_bind H d3. open_bind H rect. open_bind H d4.
  open_bind H d5. open_bind H d6. injection H as <- <-.
  split; [reflexivity|]. intros n Hn.
  rewrite (modify_other _ _ _ _ _ Ed6 Hn), (modify_other _ _ _ _ _ Ed5 Hn).
  assert (E4 : d4 !! n = d3 !! n).
  { unfold Marker.setPosition in Ed4. simpl in Ed4.
    destruct (Dom.getBoundingClientRect d3 point); simpl in Ed4; [|discriminate].
    exact (modify_other _ _ _ _ _ Ed4 Hn). }
  assert (E3 : d3 !! n = d2 !! n).
  { unfold Dom.insertAfter in Ed3.
    destruct (d2 !! point) as [ep|]; simpl in Ed3; [|discriminate].
    destruct (Dom.el_parentNode ep); simpl in Ed3; [|discriminate].
    exact (modify_other _ _ _ _ _ Ed3 Hn). }
  rewrite E4, E3, (modify_other _ _ _ _ _ Ed2 Hn).
  apply lookup_insert_ne. congruence.
Qed.

(** What a press of the primary button leaves behind: the closure
    state, and the dragged element where it was. *)
Lemma dragstart_result (options : Config.Options) (event : Event.Event)
    (info : Event.Info) (touch : bool) (env env' : Plugin.Env) (st st' : Plugin.State) :
  Event.no_button event = true ->
  Plugin.on_dragstart options event info touch env st = Some (env', st') ->
  exists r,
    Dom.getBoundingClientRect (Plugin.doc env) (Event.target (Event.self event)) = Some r /\
    Dom.getBoundingClientRect (Plugin.doc env') (Event.target (Event.self event)) = Some r /\
    fresh (dom (Plugin.doc env)) <> Event.target (Event.self event) /\
    st' = Plugin.mkState
            (Marker.mkMarker (Some (fresh (dom (Plugin.doc env))))
               (Some (Event.target (Event.self event))))
            (Plugin.converter st) (Plugin.highlighted st)
            (Some (Event.target (Event.self event)))
            (Some (Geometry.left r - Event.clientX info,
                   Geometry.top r - Event.clientY info)%Q).
Proof.
  intros Hb. unfold Plugin.on_dragstart. rewrite Hb. intros H.
  set (d := Event.target (Event.self event)) in *.
  destruct (Dom.getBoundingClientRect (Plugin.doc env) d) as [r|] eqn:Hr;
    simpl in H; [|discriminate H].
  open_bind H cm. destruct cm as [dm m].
  open_bind H d1. open_bind H d2. injection H as <- <-. simpl.
  destruct (create_frame _ _ _ _ _ Ecm) as [-> Hframe].
  assert (Hne : fresh (dom (Plugin.doc env)) <> d).
  { intros E. unfold Dom.getBoundingClientRect in Hr.
    rewrite <- E, (proj1 (not_elem_of_dom _ _) (is_fresh (dom (Plugin.doc env)))) in Hr.
    discriminate Hr. }
  exists r. split; [reflexivity|]. split; [|split; [exact Hne|reflexivity]].
  rewrite (rect_agree d1 d2), (rect_agree dm d1).
  - unfold Dom.getBoundingClientRect in *. rewrite Hframe by congruence. exact Hr.
  - eapply agree_toggleClass; [|exact Ed1]. reflexivity.
  - eapply agree_toggleClass; [|exact Ed2]. reflexivity.
Qed.

(** X15: press and move.  A press of the primary button at pointer
    position (x0, y0) on an element whose box has left [l] and top [t]
    creates a marker that was no node of the document before; a move
    to (x, y), with both axes enabled, then writes on that marker the
    translation ((x + (l - x0)) - l, (y + (t - y0)) - t), the offset
    stored by the press being the one the move adds. *)
Theorem press_then_move (options : Config.Options)
    (event0 event : Event.Event) (info0 info : Event.Info) (touch0 touch : bool)
    (env0 env1 env2 : Plugin.Env) (st0 st1 st2 : Plugin.State) :
  Event.no_button event0 = true ->
  Config.axisX options = true ->
  Config.axisY options = true ->
  Plugin.on_dragstart options event0 info0 touch0 env0 st0 = Some (env1, st1) ->
  Plugin.on_dragmove options event info touch env1 st1 = Some (env2, st2) ->
  exists m em r,
    Marker.element (Plugin.marker st1) = Some m /\
    Plugin.doc env0 !! m = None /\
    Dom.getBoundingClientRect (Plugin.doc env0) (Event.target (Event.self event0))
    = Some r /\
    Plugin.offset st1
    = Some (Geometry.left r - Event.clientX info0,
            Geometry.top r - Event.clientY info0)%Q /\
    Plugin.doc env2 !! m = Some em /\
    Dom.el_transform em
    = Some (Event.clientX info + (Geometry.left r - Event.clientX info0)
            - Geometry.left r,
            Event.clientY info + (Geometry.top r - Event.clientY info0)
            - Geometry.top r)%Q.
Proof.
  intros Hb Hax Hay Hstart Hmove.
  destruct (dragstart_result _ _ _ _ _ _ _ _ Hb Hstart) as (r & Hr0 & Hr1 & Hne & ->).
  eapply dragmove_marker_exact in Hmove as (_ & em & Hem & Ht);
    [|reflexivity|reflexivity|exact Hne|reflexivity|exact Hr1].
  rewrite Hax, Hay in Ht.
  exists (fresh (dom (Plugin.doc env0))), em, r.
  split; [reflexivity|]. split; [apply not_elem_of_dom, is_fresh|].
  split; [exact Hr0|]. split; [reflexivity|].
  split; [exact Hem|exact Ht].
Qed.

Lemma press_then_move_witness :
  exists m em r,
    Marker.element (Plugin.marker (snd Sample.pressed)) = Some m /\
    Plugin.doc (fst Sample.drawn) !! m = None /\
    Dom.getBoundingClientRect (Plugin.doc (fst Sample.drawn)) 2%nat = Some r /\
    Plugin.offset (snd Sample.pressed)
    = Some (Geometry.left r - 105, Geometry.top r - 55)%Q /\
    Plugin.doc Sample.mid_env !! m = Some em /\
    Dom.el_transform em
    = Some (135 + (Geometry.left r - 105) - Geometry.left r,
            45 + (Geometry.top r - 55) - Geometry.top r)%Q.
Proof.
  apply (press_then_move (Config.initialize Sample.options_xy)
           (Sample.mouse 2%nat 105 55) (Sample.mouse 2%nat 135 45)
           (Event.mkInfo 2%nat 105 55) (Event.mkInfo 2%nat 135 45) false false
           (fst Sample.drawn) (fst Sample.pressed) Sample.mid_env
           (snd Sample.drawn) (snd Sample.pressed) Sample.mid_state);
    vm_compute; reflexivity.
Defined.

(** ** More ends of a drag *)

Section DropInside.
Variable options : Config.Options.
Variables (event : Event.Event) (info : Event.Info) (touch : bool).
Variables (env : Plugin.Env) (st : Plugin.State) (d m : Dom.node).
Variables (rect : Geometry.Rect) (delta : Chart.Delta).
Hypothesis dragging : Plugin.dragged st = Some d.
Hypothesis marked : Marker.element (Plugin.marker st) = Some m.
Hypothesis marker_there : is_Some (Plugin.doc env !! m).
Hypothesis dragged_there : is_Some (Plugin.doc env !! d).
Hypothesis highlighted_there :
  forall h, Plugin.highlighted st = Some h -> is_Some (Plugin.doc env !! h).
Hypothesis grid : Plugin.getDragRect env = Some rect.
Hypothesis inside :
  Geometry.inRect rect (Event.clientX info) (Event.clientY info) = true.
Hypothesis measured : Plugin.calcDelta env st = Some delta.

(** X16: a drop inside the drop rectangle with the marker where the
    dragged element is (a pixel delta of zero on both axes) commits
    nothing: the chart is as it was, the update callback is not called,
    and the session is cleaned up. *)
Theorem drop_without_move :
  (Chart.dx delta == 0)%Q ->
  (Chart.dy delta == 0)%Q ->
  exists env' st' e,
    Plugin.on_dragend options event info touch env st = Some (env', st') /\
    Plugin.chart env' = Plugin.chart env /\
    Plugin.calls env' = Plugin.calls env /\
    Plugin.dragged st' = None /\
    Plugin.doc env' !! m = Some e /\
    Dom.el_parentNode e = None.
Proof.
  intros Hx Hy.
  assert (Hch : Chart.changed delta = false).
  { destruct (calcDelta_inv _ _ _ measured)
      as (d' & m' & dr & mr & c & x & y & _ & _ & _ & _ & _ & _ & _ & _ & _ & _ & _ & Hc & _).
    rewrite Hc. apply Qeq_bool_iff in Hx, Hy. rewrite Hx, Hy. reflexivity. }
  unfold Plugin.on_dragend. rewrite dragging, grid. simpl.
  rewrite inside, measured. simpl. rewrite Hch.
  destruct (finish_ok options d m env st marked marker_there dragged_there
              highlighted_there)
    as (env' & st' & e & Hrun & Hchart & Hcalls & Hdr & He & Hp & _).
  exists env', st', e. split; [exact Hrun|]. split; [exact Hchart|].
  split; [exact Hcalls|]. split; [exact Hdr|]. split; [exact He|exact Hp].
Qed.

(** X17: without an update callback, a drop inside the drop rectangle
    with a changed delta always commits: the value now stored at the
    dragged point has the old [x] plus [convertX(dx)] and the old [y]
    plus [convertY(dy)], one re-render is requested, and the session
    is cleaned up. *)
Theorem drop_commits_without_callback :
  Config.updateCallback options = None ->
  Chart.changed delta = true ->
  exists env' st' e (new : Chart.DataPoint) (x y : Q),
    Plugin.on_dragend options event info touch env st = Some (env', st') /\
    Chart.updates (Plugin.chart env') = S (Chart.updates (Plugin.chart env)) /\
    Plugin.calls env' = Plugin.calls env /\
    Chart.pointData (Plugin.doc env') (Plugin.chart env') d = Some (Some new) /\
    Chart.number (Chart.oldData delta !! "x") = Some x /\
    Chart.number (Chart.oldData delta !! "y") = Some y /\
    new !! "x"
    = Some (Js.JNum (x + Geometry.convertX (Chart.converter delta) (Chart.dx delta))%Q) /\
    new !! "y"
    = Some (Js.JNum (y + Geometry.convertY (Chart.converter delta) (Chart.dy delta))%Q) /\
    Plugin.dragged st' = None /\
    Plugin.doc env' !! m = Some e /\
    Dom.el_parentNode e = None.
Proof.
  intros Hcb Hch.
  unfold Plugin.on_dragend. rewrite dragging, grid. simpl.
  rewrite inside, measured. simpl. rewrite Hch. unfold Plugin.commit. rewrite Hcb.
  destruct (calcDelta_inv _ _ _ measured)
    as (d' & m' & dr & mr & cv & x0 & y0 & Hd' & _ & _ & _ & _ & _ & Hpd & _).
  assert (d' = d) as -> by congruence.
  destruct (pointData_set_ok _ _ _ _ (Chart.newData delta) Hpd)
    as (c & Hset & Hget & Hup & _).
  rewrite Hset. simpl.
  destruct (finish_ok options d m
              (Plugin.mkEnv (Plugin.doc env) (Chart.update c)
                 (Plugin.ct_grids env) (Plugin.calls env))
              st marked marker_there dragged_there highlighted_there)
    as (env' & st' & e & Hrun & Hchart & Hcalls & Hdr & He & Hp & Ha).
  destruct (calcDelta_newData _ _ _ measured) as (x & y & Hx & Hy & Hnx & Hny & _).
  exists env', st', e, (Chart.newData delta), x, y.
  split; [exact Hrun|]. split; [rewrite Hchart; simpl; rewrite Hup; reflexivity|].
  split; [exact Hcalls|].
  split; [rewrite Hchart, (pointData_agree _ _ _ _ Ha); exact Hget|].
  split; [exact Hx|]. split; [exact Hy|]. split; [exact Hnx|]. split; [exact Hny|].
  split; [exact Hdr|]. split; [exact He|exact Hp].
Qed.

End DropInside.

Lemma drop_without_move_witness :
  exists env' st' e,
    Plugin.on_dragend (Config.initialize Sample.options_xy)
      (Sample.mouse 0%nat 105 55) (Event.mkInfo 0%nat 105 55) false
      (fst Sample.pressed) (snd Sample.pressed) = Some (env', st') /\
    Plugin.chart env' = Sample.line_chart /\
    Plugin.calls env' = [] /\
    Plugin.dragged st' = None /\
    Plugin.doc env' !! 5%nat = Some e /\
    Dom.el_parentNode e = None.
Proof.
  assert (Hm : is_Some (Plugin.doc (fst Sample.pressed) !! 5%nat))
    by (vm_compute; eauto).
  assert (Hd : is_Some (Plugin.doc (fst Sample.pressed) !! 2%nat))
    by (vm_compute; eauto).
  assert (Hh : forall h, Plugin.highlighted (snd Sample.pressed) = Some h ->
                 is_Some (Plugin.doc (fst Sample.pressed) !! h))
    by (intros h H; vm_compute in H; discriminate H).
  apply (drop_without_move (Config.initialize Sample.options_xy)
           (Sample.mouse 0%nat 105 55) (Event.mkInfo 0%nat 105 55) false
           (fst Sample.pressed) (snd Sample.pressed) 2%nat 5%nat
           (Geometry.mkRect 0 0 400 300)
           (default Sample.mid_delta
              (Plugin.calcDelta (fst Sample.pressed) (snd Sample.pressed))));
    try assumption; vm_compute; reflexivity.
Defined.

Lemma drop_commits_without_callback_witness :
  exists env' st' e (new : Chart.DataPoint) (x y : Q),
    Plugin.on_dragend (Config.initialize Sample.options_xy)
      (Sample.mouse 0%nat 135 45) (Event.mkInfo 0%nat 135 45) false
      Sample.mid_env Sample.mid_state = Some (env', st') /\
    Chart.updates (Plugin.chart env') = 1%nat /\
    Plugin.calls env' = [] /\
    Chart.pointData (Plugin.doc env') (Plugin.chart env') 2%nat = Some (Some new) /\
    Chart.number (Sample.point 12 15 "a" !! "x") = Some x /\
    Chart.number (Sample.point 12 15 "a" !! "y") = Some y /\
    new !! "x" = Some (Js.JNum (x + Geometry.convertX Sample.converter 30)%Q) /\
    new !! "y" = Some (Js.JNum (y + Geometry.convertY Sample.converter 10)%Q) /\
    Plugin.dragged st' = None /\
    Plugin.doc env' !! 5%nat = Some e /\
    Dom.el_parentNode e = None.
Proof.
  assert (Hm : is_Some (Sample.mid_document !! 5%nat)) by (vm_compute; eauto).
  assert (Hd : is_Some (Sample.mid_document !! 2%nat)) by (vm_compute; eauto).
  assert (Hh : forall h, Plugin.highlighted Sample.mid_state = Some h ->
                 is_Some (Sample.mid_document !! h)) by (intros h [=]).
  exact (drop_commits_without_callback (Config.initialize Sample.options_xy)
           (Sample.mouse 0%nat 135 45) (Event.mkInfo 0%nat 135 45) false
           Sample.mid_env Sample.mid_state 2%nat 5%nat
           (Geometry.mkRect 0 0 400 300) Sample.mid_delta
           eq_refl eq_refl Hm Hd Hh eq_refl eq_refl calcDelta_mid eq_refl eq_refl).
Defined.

(** X18: the drop rectangle is the box of the first [ct-grids] element
    and nothing else: when the container holds no such element, the
    end of a drag throws before anything is committed or cleaned up,
    wherever the pointer is released; there is no fall-back to the
    container. *)
Theorem drop_without_grid (options : Config.Options) (event : Event.Event)
    (info : Event.Info) (touch : bool) (env : Plugin.Env) (st : Plugin.State)
    (d : Dom.node) :
  Plugin.dragged st = Some d ->
  Plugin.ct_grids env = [] ->
  Plugin.on_dragend options event info touch env st = None /\
  Plugin.listener touch None (Plugin.on_dragend options)
    (Event.mkEvent info (Event.button event) [info]) env st = None.
Proof.
  intros Hd Hg.
  assert (E : forall ev i t, Plugin.on_dragend options ev i t env st = None).
  { intros ev i t. unfold Plugin.on_dragend, Plugin.getDragRect.
    rewrite Hd, Hg. reflexivity. }
  split; [apply E|]. unfold Plugin.listener. destruct touch; simpl; apply E.
Qed.

Lemma drop_without_grid_witness :
  Plugin.on_dragend (Config.initialize Sample.options_xy)
    (Sample.mouse 0%nat 135 45) (Event.mkInfo 0%nat 135 45) false
    (Plugin.mkEnv Sample.mid_document Sample.line_chart [] []) Sample.mid_state
  = None.
Proof.
  exact (proj1 (drop_without_grid (Config.initialize Sample.options_xy)
                  (Sample.mouse 0%nat 135 45) (Event.mkInfo 0%nat 135 45) false
                  (Plugin.mkEnv Sample.mid_document Sample.line_chart [] [])
                  Sample.mid_state 2%nat eq_refl eq_refl)).
Defined.

(** ** The activated page *)

Lemma drag_registers (options : Config.Options) (p : Plugin.Page) :
  Chart.is_Line (Plugin.chart (Plugin.env p)) = true ->
  Plugin.drag options p
  = Plugin.mkPage (Plugin.env p) (Plugin.listeners p ++ Plugin.registered options)
      (Plugin.chart_on p ++ ["draw"]) (Some Plugin.initial).
Proof. intros H. unfold Plugin.drag. rewrite H. reflexivity. Qed.

Lemma registered_list (options : Config.Options) :
  Plugin.registered options
  = [Plugin.mkListener "mouseover" Plugin.OnContainer false
       (Some (Config.pointClass options)) Plugin.Mouseover;
     Plugin.mkListener "mouseout" Plugin.OnContainer false
       (Some (Config.pointClass options)) Plugin.Mouseout;
     Plugin.mkListener "mousedown" Plugin.OnContainer false None Plugin.MousedownSelect;
     Plugin.mkListener "mousedown" Plugin.OnContainer false
       (Some (Config.pointClass options)) Plugin.DragStart;
     Plugin.mkListener "touchstart" Plugin.OnContainer true
       (Some (Config.pointClass options)) Plugin.DragStart;
     Plugin.mkListener "mouseup" Plugin.OnDocument false None Plugin.DragEnd;
     Plugin.mkListener "touchend" Plugin.OnDocument true None Plugin.DragEnd;
     Plugin.mkListener "mousemove" Plugin.OnContainer false None Plugin.DragMove;
     Plugin.mkListener "touchmove" Plugin.OnContainer true None Plugin.DragMove].
Proof. reflexivity. Qed.

Lemma deliver_to_deaf (options : Config.Options) (o : Plugin.Occurrence)
    (q : Plugin.Page) (l : Plugin.Listener) :
  Plugin.hears l o = false -> Plugin.deliver_to options o (Some q) l = Some q.
Proof. intros H. unfold Plugin.deliver_to. simpl. rewrite H. reflexivity. Qed.

Lemma deliver_to_still (options : Config.Options) (o : Plugin.Occurrence)
    (q : Plugin.Page) (l : Plugin.Listener) (st : Plugin.State) :
  Plugin.plugin q = Some st ->
  Plugin.listener (Plugin.l_touch l) (Plugin.l_selector l)
    (Plugin.callback_of options (Plugin.l_callback l)) (Plugin.event o)
    (Plugin.env q) st = Some (Plugin.env q, st) ->
  Plugin.deliver_to options o (Some q) l = Some q.
Proof.
  intros Hp H. unfold Plugin.deliver_to. simpl.
  destruct (Plugin.hears l o); [|reflexivity].
  rewrite Hp. simpl. rewrite H. simpl. destruct q. simpl in *. subst. reflexivity.
Qed.

Lemma deliver_still (options : Config.Options) (o : Plugin.Occurrence)
    (q : Plugin.Page) (st : Plugin.State) :
  Plugin.plugin q = Some st ->
  Forall (fun l =>
            Plugin.hears l o = true ->
            Plugin.listener (Plugin.l_touch l) (Plugin.l_selector l)
              (Plugin.callback_of options (Plugin.l_callback l)) (Plugin.event o)
              (Plugin.env q) st = Some (Plugin.env q, st))
         (Plugin.listeners q) ->
  Plugin.deliver options q o = Some q.
Proof.
  intros Hp. unfold Plugin.deliver.
  generalize (Plugin.listeners q). intros ls Hall.
  induction Hall as [|l ls Hl Hall IH]; [reflexivity|].
  cbn [foldl]. destruct (Plugin.hears l o) eqn:Hh.
  - rewrite (deliver_to_still options o q l st Hp (Hl eq_refl)). exact IH.
  - rewrite (deliver_to_deaf options o q l Hh). exact IH.
Qed.

Lemma last_is_Some {A} (l : list A) : l <> [] -> is_Some (last l).
Proof.
  intros Hne. destruct (last l) eqn:E; [eauto|].
  apply last_None in E. contradiction.
Qed.

Ltac deaf name_eq :=
  let Hh := fresh "Hh" in
  intros Hh; unfold Plugin.hears in Hh; simpl in Hh; rewrite name_eq in Hh;
  simpl in Hh; discriminate Hh.

(** X19: on an activated page with no drag in progress, releases and
    moves of the pointer (mouse or touch, inside the chart or outside)
    change nothing at all. *)
Theorem idle_page_ignores (options : Config.Options) (q : Plugin.Page)
    (st : Plugin.State) (o : Plugin.Occurrence) :
  Plugin.listeners q = Plugin.registered options ->
  Plugin.plugin q = Some st ->
  Plugin.dragged st = None ->
  Plugin.name o = "mouseup" \/ Plugin.name o = "mousemove" \/
  (Event.changedTouches (Plugin.event o) <> [] /\
   (Plugin.name o = "touchend" \/ Plugin.name o = "touchmove")) ->
  Plugin.deliver options q o = Some q.
Proof.
  intros Hl Hp Hidle Hname.
  apply (deliver_still options o q st Hp).
  rewrite Hl, registered_list.
  assert (End : forall ev i tc, Plugin.on_dragend options ev i tc (Plugin.env q) st
                                = Some (Plugin.env q, st)).
  { intros. unfold Plugin.on_dragend. rewrite Hidle. reflexivity. }
  assert (Move : forall ev i tc, Plugin.on_dragmove options ev i tc (Plugin.env q) st
                                 = Some (Plugin.env q, st)).
  { intros. unfold Plugin.on_dragmove. rewrite Hidle. reflexivity. }
  destruct Hname as [Hname|[Hname|[Htouch [Hname|Hname]]]];
    try (destruct (last_is_Some _ Htouch) as [t Ht]);
    repeat (apply Forall_cons; split); try apply Forall_nil_2;
    try (deaf Hname);
    intros _; unfold Plugin.listener; simpl; rewrite ?Ht; simpl;
    first [apply End|apply Move].
Qed.

Lemma idle_page_ignores_witness :
  Plugin.deliver (Config.initialize Sample.options_xy)
    (Plugin.plugins_drag Sample.options_xy Sample.page)
    (Plugin.mkOccurrence "touchend"
       (Event.mkEvent (Event.mkInfo 0%nat 0 0) None [Event.mkInfo 2%nat 105 55]) false)
  = Some (Plugin.plugins_drag Sample.options_xy Sample.page).
Proof.
  apply (idle_page_ignores (Config.initialize Sample.options_xy)
           (Plugin.plugins_drag Sample.options_xy Sample.page) Plugin.initial).
  - reflexivity.
  - reflexivity.
  - reflexivity.
  - right. right. split; [discriminate|]. left. reflexivity.
Defined.

(** X20: a press (mouse or touch) whose target does not carry the
    point class changes nothing, in whatever state the plugin is: with
    a non-empty [pointClass], a drag can only start on a point. *)
Theorem press_off_point (options : Config.Options) (q : Plugin.Page)
    (st : Plugin.State) (o : Plugin.Occurrence) (info : Event.Info) :
  Plugin.listeners q = Plugin.registered options ->
  Plugin.plugin q = Some st ->
  Config.pointClass options <> EmptyString ->
  (Plugin.name o = "mousedown" /\ info = Event.self (Plugin.event o) \/
   Plugin.name o = "touchstart" /\ last (Event.changedTouches (Plugin.event o)) = Some info) ->
  Dom.has_class (Plugin.doc (Plugin.env q)) (Event.target info)
    (Config.pointClass options) = Some false ->
  Plugin.deliver options q o = Some q.
Proof.
  intros Hl Hp Hpc Hname Hcls.
  apply (deliver_still options o q st Hp).
  rewrite Hl, registered_list.
  destruct (Config.pointClass options) as [|a s] eqn:Epc; [congruence|].
  destruct Hname as [[Hname ->]|[Hname Ht]];
    repeat (apply Forall_cons; split); try apply Forall_nil_2;
    try (deaf Hname);
    intros _; unfold Plugin.listener; simpl; rewrite ?Ht; simpl;
    rewrite ?Hcls; reflexivity.
Qed.

Lemma press_off_point_witness :
  Plugin.deliver (Config.initialize Sample.options_xy)
    (Plugin.plugins_drag Sample.options_xy Sample.page)
    (Plugin.mkOccurrence "mousedown" (Sample.mouse 1%nat 105 55) true)
  = Some (Plugin.plugins_drag Sample.options_xy Sample.page).
Proof.
  apply (press_off_point (Config.initialize Sample.options_xy)
           (Plugin.plugins_drag Sample.options_xy Sample.page) Plugin.initial
           (Plugin.mkOccurrence "mousedown" (Sample.mouse 1%nat 105 55) true)
           (Event.mkInfo 1%nat 105 55)).
  - reflexivity.
  - reflexivity.
  - discriminate.
  - left. split; reflexivity.
  - reflexivity.
Defined.

(** ** The axis option *)

Lemma prefix_char (a c : ascii) (s : string) :
  String.prefix (String a EmptyString) (String c s) = Ascii.eqb c a.
Proof.
  change (String.prefix (String a EmptyString) (String c s))
    with (if ascii_dec a c then String.prefix EmptyString s else false).
  destruct (ascii_dec a c) as [<-|Hne].
  - rewrite Ascii.eqb_refl. destruct s; reflexivity.
  - symmetry. apply Ascii.eqb_neq. congruence.
Qed.

Lemma contains_char_cons (a c : ascii) (s : string) :
  Js.contains (String a EmptyString) (String c s)
  = Ascii.eqb c a || Js.contains (String a EmptyString) s.
Proof. rewrite contains_unfold, prefix_char. reflexivity. Qed.

Lemma lower_ascii_is (c : ascii) :
  (Ascii.eqb (Js.lower_ascii c) "x" = Ascii.eqb c "x" || Ascii.eqb c "X") /\
  (Ascii.eqb (Js.lower_ascii c) "y" = Ascii.eqb c "y" || Ascii.eqb c "Y").
Proof.
  destruct c as [[] [] [] [] [] [] [] []]; split; vm_compute; reflexivity.
Qed.

Lemma contains_lower (s : string) :
  (Js.contains "x" (Js.toLowerCase s) = Js.contains "x" s || Js.contains "X" s) /\
  (Js.contains "y" (Js.toLowerCase s) = Js.contains "y" s || Js.contains "Y" s).
Proof.
  induction s as [|c s [IHx IHy]]; [split; reflexivity|].
  change (Js.toLowerCase (String c s))
    with (String (Js.lower_ascii c) (Js.toLowerCase s)).
  rewrite !contains_char_cons, IHx, IHy.
  destruct (lower_ascii_is c) as [-> ->].
  split.
  - destruct (Ascii.eqb c "x"), (Ascii.eqb c "X"), (Js.contains "x" s); reflexivity.
  - destruct (Ascii.eqb c "y"), (Ascii.eqb c "Y"), (Js.contains "y" s); reflexivity.
Qed.

(** X21: after the initialisation of the options, dragging along x is
    enabled exactly when the caller set [axisX] or the [axis] string
    holds an [x] in either case, and likewise for y; initialising
    twice is the same as once. *)
Theorem initialize_axes (o : Config.Options) :
  Config.axisX (Config.initialize o)
  = Config.axisX o || (Js.contains "x" (Config.axis o) || Js.contains "X" (Config.axis o))
  /\ Config.axisY (Config.initialize o)
     = Config.axisY o || (Js.contains "y" (Config.axis o) || Js.contains "Y" (Config.axis o))
  /\ Config.initialize (Config.initialize o) = Config.initialize o.
Proof.
  destruct (contains_lower (Config.axis o)) as [Hx Hy].
  split; [simpl; rewrite Hx; reflexivity|].
  split; [simpl; rewrite Hy; reflexivity|].
  unfold Config.initialize. simpl. f_equal.
  - destruct (Config.axisX o), (Js.contains "x" (Js.toLowerCase (Config.axis o)));
      reflexivity.
  - destruct (Config.axisY o), (Js.contains "y" (Js.toLowerCase (Config.axis o)));
      reflexivity.
Qed.

(** ** Hovering *)

(** X22: with no drag in progress, [mouseover] on an element of the
    document records it as the highlighted element and gives it the
    common and the highlight class (class names without spaces);
    [mouseout] forgets the highlighted element.  Neither touches the
    chart, the dragged reference or the marker. *)
Theorem hover_highlights (options : Config.Options) (event : Event.Event)
    (info : Event.Info) (touch : bool) (env : Plugin.Env) (st : Plugin.State)
    (e : Dom.Element) :
  Plugin.dragged st = None ->
  Plugin.doc env !! Event.target (Event.self event) = Some e ->
  Js.contains " " (Config.commonClass options) = false ->
  Js.contains " " (Config.highlightClass options) = false ->
  (exists env' st' e',
     Plugin.on_mouseover options event info touch env st = Some (env', st') /\
     Plugin.highlighted st' = Some (Event.target (Event.self event)) /\
     Plugin.doc env' !! Event.target (Event.self event) = Some e' /\
     Js.includes (Config.commonClass options) (Dom.classes e') = true /\
     Js.includes (Config.highlightClass options) (Dom.classes e') = true /\
     Plugin.chart env' = Plugin.chart env /\
     Plugin.dragged st' = None /\ Plugin.marker st' = Plugin.marker st) /\
  (exists env' st',
     Plugin.on_mouseout options event info touch env st = Some (env', st') /\
     Plugin.highlighted st' = None /\
     Plugin.chart env' = Plugin.chart env /\
     Plugin.dragged st' = None /\ Plugin.marker st' = Plugin.marker st).
Proof.
  intros Hidle He Hcs Hhs.
  assert (Hs : Forall (fun x => Js.contains " " x = false)
                 [Config.commonClass options; Config.highlightClass options]).
  { constructor; [exact Hcs|]. constructor; [exact Hhs|constructor]. }
  split.
  - unfold Plugin.on_mouseover. rewrite Hidle. simpl.
    unfold Dom.toggleClass. rewrite (modify_lookup _ _ _ _ He). simpl.
    eexists _, _, _. split; [reflexivity|]. simpl. split; [reflexivity|].
    split; [apply lookup_insert_eq|].
    split; [apply (includes_after_adding _ _ _ Hs);
            rewrite includes_cons, String.eqb_refl; reflexivity|].
    split; [apply (includes_after_adding _ _ _ Hs);
            rewrite !includes_cons, String.eqb_refl; apply orb_true_r|].
    split; [reflexivity|]. split; reflexivity.
  - unfold Plugin.on_mouseout. rewrite Hidle. simpl.
    unfold Dom.toggleClass. rewrite (modify_lookup _ _ _ _ He). simpl.
    eexists _, _. split; [reflexivity|]. simpl. split; [reflexivity|].
    split; [reflexivity|]. split; reflexivity.
Qed.

Lemma hover_highlights_witness :
  exists env' st' e',
    Plugin.on_mouseover (Config.initialize Sample.options_xy)
      (Sample.mouse 3%nat 205 85) (Event.mkInfo 3%nat 205 85) false
      (fst Sample.drawn) (snd Sample.drawn) = Some (env', st') /\
    Plugin.highlighted st' = Some 3%nat /\
    Plugin.doc env' !! 3%nat = Some e' /\
    Js.includes "chartist-drag-highlight" (Dom.classes e') = true.
Proof.
  destruct (hover_highlights (Config.initialize Sample.options_xy)
              (Sample.mouse 3%nat 205 85) (Event.mkInfo 3%nat 205 85) false
              (fst Sample.drawn) (snd Sample.drawn)
              (Dom.mkElement "ct-point" (Some (0%nat, 1%nat)) None None false
                 (Some 1%nat) (Sample.box 200 80)))
    as [(env' & st' & e' & Hrun & Hh & He' & _ & Hcl & _) _];
    try (vm_compute; reflexivity).
  exists env', st', e'. split; [exact Hrun|]. split; [exact Hh|].
  split; [exact He'|exact Hcl].
Defined.

(** ** What only a release can do *)

Lemma toggle_frame (env : Plugin.Env) (d : Dom.Document) :
  Plugin.chart (Plugin.with_doc env d) = Plugin.chart env /\
  Plugin.calls (Plugin.with_doc env d) = Plugin.calls env.
Proof. split; reflexivity. Qed.

Lemma callback_frame (options : Config.Options) (h : Plugin.Handler)
    (event : Event.Event) (info : Event.Info) (touch : bool)
    (env env' : Plugin.Env) (st st' : Plugin.State) :
  h <> Plugin.DragEnd ->
  Plugin.callback_of options h event info touch env st = Some (env', st') ->
  Plugin.chart env' = Plugin.chart env /\ Plugin.calls env' = Plugin.calls env.
Proof.
  intros Hh H. destruct h; simpl in H; try contradiction.
  - unfold Plugin.on_mouseover in H. destruct (Plugin.dragged st).
    + injection H as <- <-. split; reflexivity.
    + open_bind H d. injection H as <- <-. apply toggle_frame.
  - unfold Plugin.on_mouseout in H. destruct (Plugin.dragged st).
    + injection H as <- <-. split; reflexivity.
    + open_bind H d. injection H as <- <-. apply toggle_frame.
  - injection H as <- <-. split; reflexivity.
  - exact (on_dragstart_frame _ _ _ _ _ _ _ _ H).
  - destruct (Plugin.dragged st) as [d|] eqn:Hd.
    + destruct (dragmove_keeps_session _ _ _ _ _ _ _ _ _ Hd H) as (_ & Hc & Hl & _).
      split; assumption.
    + unfold Plugin.on_dragmove in H. rewrite Hd in H. injection H as <- <-.
      split; reflexivity.
Qed.

Lemma deliver_to_frame (options : Config.Options) (o : Plugin.Occurrence)
    (q q' : Plugin.Page) (l : Plugin.Listener) :
  (Plugin.hears l o = true -> Plugin.l_callback l <> Plugin.DragEnd) ->
  Plugin.deliver_to options o (Some q) l = Some q' ->
  Plugin.chart (Plugin.env q') = Plugin.chart (Plugin.env q) /\
  Plugin.calls (Plugin.env q') = Plugin.calls (Plugin.env q) /\
  Plugin.listeners q' = Plugin.listeners q /\
  Plugin.chart_on q' = Plugin.chart_on q.
Proof.
  intros Hl H. unfold Plugin.deliver_to in H. simpl in H.
  destruct (Plugin.hears l o).
  - destruct (Plugin.plugin q) as [st|]; simpl in H; [|discriminate].
    destruct (Plugin.listener _ _ _ _ _ _) as [[e st']|] eqn:E; simpl in H;
      [|discriminate].
    injection H as <-. simpl.
    destruct (listener_inv _ _ _ _ _ _ _ E) as [[= <- <-]|[info Hcb]].
    + repeat split.
    + destruct (callback_frame _ _ _ _ _ _ _ _ _ (Hl eq_refl) Hcb) as [Hc Hk].
      repeat split; assumption.
  - injection H as <-. repeat split.
Qed.

Lemma foldl_deliver_none (options : Config.Options) (o : Plugin.Occurrence)
    (ls : list Plugin.Listener) :
  foldl (Plugin.deliver_to options o) None ls = None.
Proof. induction ls as [|l ls IH]; [reflexivity|exact IH]. Qed.

Lemma deliver_frame (options : Config.Options) (o : Plugin.Occurrence)
    (q q' : Plugin.Page) :
  Forall (fun l => Plugin.hears l o = true -> Plugin.l_callback l <> Plugin.DragEnd)
    (Plugin.listeners q) ->
  Plugin.deliver options q o = Some q' ->
  Plugin.chart (Plugin.env q') = Plugin.chart (Plugin.env q) /\
  Plugin.calls (Plugin.env q') = Plugin.calls (Plugin.env q) /\
  Plugin.listeners q' = Plugin.listeners q /\
  Plugin.chart_on q' = Plugin.chart_on q.
Proof.
  unfold Plugin.deliver. generalize (Plugin.listeners q) at 1 2. intros ls Hall.
  revert q. induction Hall as [|l ls Hl Hall IH]; intros q H.
  - injection H as <-. repeat split.
  - cbn [foldl] in H.
    destruct (Plugin.deliver_to options o (Some q) l) as [q1|] eqn:E.
    + destruct (deliver_to_frame _ _ _ _ _ Hl E) as (H1 & H2 & H3 & H4).
      destruct (IH _ H) as (K1 & K2 & K3 & K4).
      repeat split; congruence.
    + rewrite foldl_deliver_none in H. discriminate H.
Qed.

Lemma emit_draw_frame (p p' : Plugin.Page) (data : Plugin.DrawData) :
  Plugin.emit_draw p data = Some p' ->
  Plugin.chart (Plugin.env p') = Plugin.chart (Plugin.env p) /\
  Plugin.calls (Plugin.env p') = Plugin.calls (Plugin.env p) /\
  Plugin.listeners p' = Plugin.listeners p /\
  Plugin.chart_on p' = Plugin.chart_on p.
Proof.
  unfold Plugin.emit_draw. generalize (Plugin.chart_on p) at 1. intros ns.
  revert p. induction ns as [|n ns IH]; intros p H.
  - injection H as <-. repeat split.
  - cbn [foldl] in H. simpl in H.
    destruct (String.eqb n "draw").
    + destruct (Plugin.plugin p) as [st|]; simpl in H.
      * destruct (Plugin.on_draw data (Plugin.env p) st) as [[e st']|] eqn:E;
          simpl in H.
        -- destruct (IH _ H) as (K1 & K2 & K3 & K4). simpl in *.
           unfold Plugin.on_draw in E.
           destruct (String.eqb (Plugin.type data) "point").
           ++ open_bind E d. injection E as <- <-. repeat split; assumption.
           ++ injection E as <- <-. repeat split; assumption.
        -- exfalso. clear IH. induction ns; simpl in H; [discriminate|auto].
      * exfalso. clear IH. induction ns; simpl in H; [discriminate|auto].
    + exact (IH _ H).
Qed.

(** X23: the chart is written and the update callback is called only
    when the pointer is released.  On a page that carries the plugin's
    listeners, any run of [draw] notifications and events free of
    [mouseup] and [touchend] leaves the chart (its series and its
    count of re-render requests) and the record of callback calls as
    they were. *)
Theorem data_changes_only_on_release (options : Config.Options)
    (steps : list Plugin.Step) (q q' : Plugin.Page) :
  Plugin.listeners q = Plugin.registered options ->
  Forall (fun s => forall o, s = Plugin.Fire o ->
                   Plugin.name o <> "mouseup" /\ Plugin.name o <> "touchend") steps ->
  Plugin.run options q steps = Some q' ->
  Plugin.chart (Plugin.env q') = Plugin.chart (Plugin.env q) /\
  Plugin.calls (Plugin.env q') = Plugin.calls (Plugin.env q).
Proof.
  intros Hl Hall. revert q Hl. unfold Plugin.run.
  induction Hall as [|s steps Hs Hall IH]; intros q Hl H.
  - injection H as <-. split; reflexivity.
  - cbn [foldl] in H. simpl in H.
    destruct (Plugin.step options q s) as [q1|] eqn:E.
    2: { exfalso. clear -H. induction steps; simpl in H; [discriminate|auto]. }
    assert (F : Plugin.chart (Plugin.env q1) = Plugin.chart (Plugin.env q) /\
                Plugin.calls (Plugin.env q1) = Plugin.calls (Plugin.env q) /\
                Plugin.listeners q1 = Plugin.listeners q /\
                Plugin.chart_on q1 = Plugin.chart_on q).
    { destruct s as [data|o]; simpl in E.
      - exact (emit_draw_frame _ _ _ E).
      - apply (deliver_frame options o q q1); [|exact E].
        destruct (Hs o eq_refl) as [Hup Hend].
        rewrite Hl, registered_list.
        repeat (apply Forall_cons; split); try apply Forall_nil_2;
          intros Hh; cbn [Plugin.l_callback];
          first [ discriminate
                | unfold Plugin.hears in Hh;
                  cbn [Plugin.l_name Plugin.l_element] in Hh;
                  apply andb_true_iff in Hh as [Hh _];
                  apply String.eqb_eq in Hh; congruence ]. }
    destruct F as (F1 & F2 & F3 & _).
    destruct (IH q1 (eq_trans F3 Hl) H) as [K1 K2].
    split; congruence.
Qed.

Lemma data_changes_only_on_release_witness :
  match Sample.play Sample.options_xy Sample.grab_and_move with
  | Some q' =>
      Plugin.chart (Plugin.env q') = Sample.line_chart /\ Plugin.calls (Plugin.env q') = []
  | None => False
  end.
Proof.
  destruct (Sample.play Sample.options_xy Sample.grab_and_move) as [q'|] eqn:E;
    [|vm_compute in E; discriminate E].
  apply (data_changes_only_on_release (Config.initialize Sample.options_xy)
           Sample.grab_and_move
           (Plugin.plugins_drag Sample.options_xy Sample.page) q').
  - reflexivity.
  - unfold Sample.grab_and_move, Sample.draw_points, Sample.fire. simpl app.
    repeat (apply Forall_cons; split); try apply Forall_nil_2;
      intros o [= <-]; split; discriminate.
  - exact E.
Defined.
